(** * App.view.base.View: lifecycle of the base view

    A shallow embedding of [src/js/view/base/View.js].  A view is a tree
    node (its nested views are its [items]); every method of the class is a
    function that takes the receiver and the process state (the document,
    the static id counter, the trace of notifications) and returns the
    completion of the call together with the updated receiver and state. *)

From Stdlib Require Import Ascii String.
From stdpp Require Import base strings list gmap pretty.

Open Scope string_scope.
Open Scope list_scope.
Set Warnings "-register-all".

(** ** JavaScript values and completions *)

(** The values that cross the interfaces of the class: hook results,
    template strings, template data, item ids. *)
Inductive JsVal : Type :=
  | VUndefined
  | VNull
  | VBool (b : bool)
  | VNum (n : Z)
  | VStr (s : string)
  | VObj (props : list (string * JsVal)).

(** [N13.isString] *)
Definition isString (v : JsVal) : bool :=
  match v with VStr _ => true | _ => false end.

(** [N13.isObject]: a plain key/value object. *)
Definition isObject (v : JsVal) : bool :=
  match v with VObj _ => true | _ => false end.

(** [$.isNumeric] on the values of the model. *)
Definition isNumeric (v : JsVal) : bool :=
  match v with VNum _ => true | _ => false end.

(** Truthiness, as in [if (v)]. *)
Definition truthy (v : JsVal) : bool :=
  match v with
  | VUndefined | VNull => false
  | VBool b => b
  | VNum n => negb (n =? 0)%Z
  | VStr s => negb (String.eqb s "")
  | VObj _ => true
  end.

(** String conversion, as performed by [+] with a string operand. *)
Definition js_to_string (v : JsVal) : string :=
  match v with
  | VUndefined => "undefined"
  | VNull => "null"
  | VBool true => "true"
  | VBool false => "false"
  | VNum n => pretty n
  | VStr s => s
  | VObj _ => "[object Object]"
  end.

(** [approved === undefined || approved === true] *)
Definition approves (v : JsVal) : bool :=
  match v with
  | VUndefined | VBool true => true
  | _ => false
  end.

(** What a call can raise. *)
Inductive Fault : Type :=
  | Error (msg : string)
  | TypeError (msg : string)
  | SyntaxError (msg : string)
  | RangeError (msg : string).

(** [e.message] *)
Definition fault_message (f : Fault) : string :=
  match f with
  | Error m | TypeError m | SyntaxError m | RangeError m => m
  end.

(** The completion of a call: it returns, or it throws. *)
Inductive Completion (A : Type) : Type :=
  | Normal (a : A)
  | Throw (f : Fault).
Arguments Normal {A} a.
Arguments Throw {A} f.

Definition is_normal {A} (c : Completion A) : bool :=
  match c with Normal _ => true | Throw _ => false end.

(** ** The document

    jQuery is a collaborator outside the repository.  The document is a
    tree of elements, a jQuery object is the list of the elements it holds,
    and the operations below are the calls the class makes on it. *)

(** An element: its identity, tag, [id] attribute, classes, the value of
    its [display] property, whether handlers are bound to it, and its
    child elements in document order. *)
Inductive Node : Type :=
  MkNode {
    nid : nat;
    tag : string;
    idattr : option string;
    classes : list string;
    display : string;
    bound : bool;
    kids : list Node
  }.

Record Document : Type := MkDocument {
  roots : list Node;
  next_nid : nat
}.

(** A jQuery object: the elements it holds, by identity. *)
Abbreviation Handle := (list nat).

Definition mem_nat (n : nat) (h : Handle) : bool := existsb (Nat.eqb n) h.
Definition mem_str (s : string) (l : list string) : bool := existsb (String.eqb s) l.

Definition set_display (d : string) (n : Node) : Node :=
  MkNode (nid n) (tag n) (idattr n) (classes n) d (bound n) (kids n).
Definition set_idattr (i : option string) (n : Node) : Node :=
  MkNode (nid n) (tag n) i (classes n) (display n) (bound n) (kids n).
Definition set_bound (b : bool) (n : Node) : Node :=
  MkNode (nid n) (tag n) (idattr n) (classes n) (display n) b (kids n).
Definition set_kids (k : list Node) (n : Node) : Node :=
  MkNode (nid n) (tag n) (idattr n) (classes n) (display n) (bound n) k.

(** All elements of a forest, in document order. *)
Fixpoint flatten (n : Node) : list Node :=
  n :: flat_map flatten (kids n).
Definition flatten_all (l : list Node) : list Node := flat_map flatten l.

(** Apply [f] to every element whose identity is in [h], the elements
    below it first. *)
Fixpoint update_in (h : Handle) (f : Node -> Node) (n : Node) : Node :=
  let n' := set_kids (map (update_in h f) (kids n)) n in
  if mem_nat (nid n) h then f n' else n'.
Definition update_all (h : Handle) (f : Node -> Node) (l : list Node) : list Node :=
  map (update_in h f) l.

(** The elements below the elements of [h] ([inside] tells whether an
    ancestor already is in [h]). *)
Fixpoint below (h : Handle) (inside : bool) (n : Node) : list Node :=
  (if inside then [n] else []) ++
  flat_map (below h (inside || mem_nat (nid n) h)) (kids n).

(** Remove the elements of [h], with everything below them. *)
Fixpoint prune (h : Handle) (n : Node) : Node :=
  set_kids
    ((fix go (l : list Node) : list Node :=
        match l with
        | [] => []
        | k :: r => if mem_nat (nid k) h then go r else prune h k :: go r
        end) (kids n)) n.
Fixpoint prune_all (h : Handle) (l : list Node) : list Node :=
  match l with
  | [] => []
  | k :: r => if mem_nat (nid k) h then prune_all h r else prune h k :: prune_all h r
  end.

(** Fresh identities for parsed markup. *)
Fixpoint renumber (n : Node) (next : nat) : Node * nat :=
  let '(ks, next') :=
    (fix go (l : list Node) (c : nat) : list Node * nat :=
       match l with
       | [] => ([], c)
       | k :: r =>
           let '(k', c1) := renumber k c in
           let '(r', c2) := go r c1 in
           (k' :: r', c2)
       end) (kids n) (S next) in
  (MkNode next (tag n) (idattr n) (classes n) (display n) (bound n) ks, next').
Fixpoint renumber_all (l : list Node) (next : nat) : list Node * nat :=
  match l with
  | [] => ([], next)
  | k :: r =>
      let '(k', c1) := renumber k next in
      let '(r', c2) := renumber_all r c1 in
      (k' :: r', c2)
  end.

(** The selectors the model resolves: ["#id"], [".class"], and a tag
    name; a bare ["#"] or ["."] is a syntax error, as in Sizzle. *)
Inductive Selector : Type :=
  | ById (i : string)
  | ByClass (c : string)
  | ByTag (t : string).

Definition parse_selector (s : string) : option Selector :=
  match s with
  | String c r =>
      if Ascii.eqb c "#"%char then
        if String.eqb r "" then None else Some (ById r)
      else if Ascii.eqb c "."%char then
        if String.eqb r "" then None else Some (ByClass r)
      else Some (ByTag s)
  | EmptyString => Some (ByTag s)
  end.

Definition matches (q : Selector) (n : Node) : bool :=
  match q with
  | ById i => match idattr n with Some j => String.eqb i j | None => false end
  | ByClass c => mem_str c (classes n)
  | ByTag t => String.eqb t (tag n)
  end.

(** The elements that a selector yields, in document order; an id
    selector yields the first one only ([getElementById]). *)
Definition select (q : Selector) (d : Document) : Handle :=
  let found := map nid (filter (matches q) (flatten_all (roots d))) in
  match q with
  | ById _ => take 1 found
  | _ => found
  end.

(** Modelled from the spec: the element resolution collaborator,
    [$(selector)], gives zero, one or many elements for a selector string;
    [null] and the empty string give the empty set, a malformed selector
    raises. *)
Definition jq (d : Document) (sel : option string) : Completion Handle :=
  match sel with
  | None => Normal []
  | Some "" => Normal []
  | Some s =>
      match parse_selector s with
      | None => Throw (SyntaxError ("unrecognized expression: " +:+ s))
      | Some q => Normal (select q d)
      end
  end.

(** [h.find('.' + cls)] *)
Definition jq_find (d : Document) (h : Handle) (cls : string) : Handle :=
  map nid (filter (fun n => mem_str cls (classes n))
             (flat_map (below h false) (roots d))).

(** [h.children()] *)
Definition jq_children (d : Document) (h : Handle) : Handle :=
  map nid (flat_map kids (filter (fun n => mem_nat (nid n) h) (flatten_all (roots d)))).

(** [h.off()] *)
Definition jq_off (d : Document) (h : Handle) : Document :=
  MkDocument (update_all h (set_bound false) (roots d)) (next_nid d).

(** [h.remove()] *)
Definition jq_remove (d : Document) (h : Handle) : Document :=
  MkDocument (prune_all h (roots d)) (next_nid d).

(** [h.append(markup)]: every element of [h] receives its own copy. *)
Fixpoint jq_append (d : Document) (h : Handle) (markup : list Node) : Document :=
  match h with
  | [] => d
  | e :: r =>
      let '(fresh, next) := renumber_all markup (next_nid d) in
      jq_append
        (MkDocument (update_all [e] (fun n => set_kids (kids n ++ fresh) n) (roots d)) next)
        r markup
  end.

(** [h.attr('id', v)]: with [undefined] for [v] the call is a getter and
    changes nothing. *)
Definition jq_attr_id (d : Document) (h : Handle) (v : option string) : Document :=
  match v with
  | None => d
  | Some i => MkDocument (update_all h (set_idattr (Some i)) (roots d)) (next_nid d)
  end.

(** [h.css('display')]: the value at the first element, [undefined] for
    the empty set. *)
Definition jq_css_get (d : Document) (h : Handle) : option string :=
  match h with
  | [] => None
  | e :: _ =>
      display <$> head (filter (fun n => Nat.eqb (nid n) e) (flatten_all (roots d)))
  end.

(** [h.css('display', v)]: with [undefined] for [v] nothing is set. *)
Definition jq_css_set (d : Document) (h : Handle) (v : option string) : Document :=
  match v with
  | None => d
  | Some s => MkDocument (update_all h (set_display s) (roots d)) (next_nid d)
  end.

(** ** Views and the process state *)

(** The double quote, for the messages of the class. *)
Definition dq : string := String (ascii_of_nat 34) EmptyString.

(** What the overridable before-hooks of a class return: [N13.emptyFn],
    the hook of the base class, returns [undefined]; an override is
    modelled by the value it returns. *)
Record Hooks : Type := MkHooks {
  onBeforeRender : JsVal;
  onBeforeClear : JsVal;
  onBeforeShow : JsVal;
  onBeforeHide : JsVal;
  onBeforeDisable : JsVal;
  onBeforeEnable : JsVal;
  onBeforeDestroy : JsVal
}.

Definition default_hooks : Hooks :=
  MkHooks VUndefined VUndefined VUndefined VUndefined VUndefined VUndefined VUndefined.

(** The [configs] of an instance (the declared [items] are an argument of
    [_createItems]). *)
Record Config : Type := MkConfig {
  className : string;
  elPath : string;
  autoIncrementId : string;
  containerCls : string;
  template : option string;
  templateNs : string;
  templateDataProp : string;
  viewNs : string;
  autoRender : bool;
  itemId : JsVal;
  hooks : Hooks
}.

Definition default_config (cls : string) : Config :=
  MkConfig cls "auto" "auto" "innerContainer" None "App.template" "data" "App.view"
           false VUndefined default_hooks.

(** What a lookup map holds under a key: a reference to an instance.  An
    instance that is in [items] is designated by its position there
    ([Live]), so that the map and the array share it; an instance that the
    running [_createItems] made is designated by its position in the array
    that is being built ([Fresh]); an instance that is no longer in
    [items] is held as it was left ([Detached]). *)
Inductive Ref (V : Type) : Type :=
  | Live (i : nat)
  | Fresh (i : nat) (c : V)
  | Detached (c : V).
Arguments Live {V} i.
Arguments Fresh {V} i c.
Arguments Detached {V} c.

(** An instance.  [el] is [None] for [null]; [items] is [None] for [null]
    and otherwise the array of nested instances, where [None] is a slot
    left empty by [delete].  The two lookup maps are plain objects: what
    they hold of their own is kept here, what they inherit from
    [Object.prototype] is in [plain_get] below. *)
Inductive View : Type :=
  MkView {
    cfg : Config;
    _tpl : JsVal;
    _templateData : JsVal;
    _displayCssValue : option string;
    rendered : bool;
    el : option Handle;
    _initEvents : bool;
    _viewMap : gmap string (Ref View);
    _itemIdMap : gmap string (Ref View);
    items : option (list (option View))
  }.

Abbreviation Slot := (option View).

Definition set_tpl (x : JsVal) (v : View) : View :=
  MkView (cfg v) x (_templateData v) (_displayCssValue v) (rendered v) (el v)
         (_initEvents v) (_viewMap v) (_itemIdMap v) (items v).
Definition set_templateData (x : JsVal) (v : View) : View :=
  MkView (cfg v) (_tpl v) x (_displayCssValue v) (rendered v) (el v)
         (_initEvents v) (_viewMap v) (_itemIdMap v) (items v).
Definition set_displayCssValue (x : option string) (v : View) : View :=
  MkView (cfg v) (_tpl v) (_templateData v) x (rendered v) (el v)
         (_initEvents v) (_viewMap v) (_itemIdMap v) (items v).
Definition set_rendered (x : bool) (v : View) : View :=
  MkView (cfg v) (_tpl v) (_templateData v) (_displayCssValue v) x (el v)
         (_initEvents v) (_viewMap v) (_itemIdMap v) (items v).
Definition set_el (x : option Handle) (v : View) : View :=
  MkView (cfg v) (_tpl v) (_templateData v) (_displayCssValue v) (rendered v) x
         (_initEvents v) (_viewMap v) (_itemIdMap v) (items v).
Definition set_initEvents (x : bool) (v : View) : View :=
  MkView (cfg v) (_tpl v) (_templateData v) (_displayCssValue v) (rendered v) (el v)
         x (_viewMap v) (_itemIdMap v) (items v).
Definition set_maps (vm im : gmap string (Ref View)) (v : View) : View :=
  MkView (cfg v) (_tpl v) (_templateData v) (_displayCssValue v) (rendered v) (el v)
         (_initEvents v) vm im (items v).
Definition set_items (x : option (list Slot)) (v : View) : View :=
  MkView (cfg v) (_tpl v) (_templateData v) (_displayCssValue v) (rendered v) (el v)
         (_initEvents v) (_viewMap v) (_itemIdMap v) x.

Definition cls (v : View) : string := className (cfg v).

(** What the class does that an observer can see: notifications
    ([this.trigger]), hook calls, mixin calls and the binding of the
    [events] declarations. *)
Inductive Event : Type :=
  | Trigger (who : string) (name : string) (msg : option string)
  | Hook (who : string) (name : string) (arg : option JsVal)
  | CallMixin (who : string) (mixin : string)
  | DelegateEvents (who : string)
  | UndelegateEvents (who : string).

(** The state shared by all instances: the document, the static
    [App.view.base.View._currentId], and the trace. *)
Record World : Type := MkWorld {
  document : Document;
  currentId : N;
  log : list Event
}.

Definition emit (e : Event) (w : World) : World :=
  MkWorld (document w) (currentId w) (log w ++ [e]).
Definition set_document (d : Document) (w : World) : World :=
  MkWorld d (currentId w) (log w).

Definition trigger (v : View) (name : string) (msg : option string) (w : World) : World :=
  emit (Trigger (cls v) name msg) w.
Definition call_hook (v : View) (name : string) (arg : option JsVal) (w : World) : World :=
  emit (Hook (cls v) name arg) w.

(** The result of a method on a receiver. *)
Definition Outcome (A : Type) : Type := (Completion A * View * World)%type.

(** A constructor found in the view namespace: called with the item's
    configuration object, or with none. *)
Definition Ctor : Type :=
  option (list (string * JsVal)) -> World -> Completion View * World.

(** [render] returns [this] or [false]. *)
Inductive RenderResult : Type := RetThis | RetFalse.

(** ** The identifier allocator *)

(** [_id]: ['view-' + (++App.view.base.View._currentId)].  The counter is
    a non-negative integer; it is modelled exactly, as it is below 2^53. *)
Definition _id (w : World) : string * World :=
  let n := (currentId w + 1)%N in
  ("view-" +:+ pretty n, MkWorld (document w) n (log w)).

(** ** Traversal of the nested views *)

(** [for (i = 0; i < len; i++) { items[i].m(); }]: the nested views are
    visited in order; an empty slot faults ([undefined] has no method), a
    fault in a nested view ends the loop.  With [keep = false] the slot is
    vacated after the call, as in the loop of [destroy], which is
    [destroyLoop] below. *)
Definition forItems (m : string) (keep : bool) (f : View -> World -> Outcome unit) :=
  fix loop (l : list Slot) (w : World) : Completion unit * list Slot * World :=
    match l with
    | [] => (Normal tt, [], w)
    | None :: _ =>
        (Throw (TypeError ("Cannot read property '" +:+ m +:+ "' of undefined")), l, w)
    | Some c :: r =>
        let '(res, c', w1) := f c w in
        match res with
        | Throw e => (Throw e, Some c' :: r, w1)
        | Normal _ =>
            let '(res', r', w2) := loop r w1 in
            (res', (if keep then Some c' else None) :: r', w2)
        end
    end.

(** [if (N13.isArray(items)) { for ... }] on the receiver [v]. *)
Definition eachItem (m : string) (keep : bool) (f : View -> World -> Outcome unit)
    (v : View) (w : World) : Outcome unit :=
  match items v with
  | None => (Normal tt, v, w)
  | Some l =>
      let '(res, l', w') := forItems m keep f l w in
      (res, set_items (Some l') v, w')
  end.

(** The nesting depth of a view. *)
Fixpoint height (v : View) : nat :=
  match items v with
  | None => 0
  | Some l =>
      S ((fix go (l : list Slot) : nat :=
            match l with
            | [] => 0
            | None :: r => go r
            | Some c :: r => Nat.max (height c) (go r)
            end) l)
  end.

(** ** References to the nested instances *)

(** [items[i]], when [items] is an array and the slot holds an instance. *)
Definition item_at (v : View) (i : nat) : option View :=
  match items v with
  | Some l => mjoin (l !! i)
  | None => None
  end.

(** The instance that a reference designates. *)
Definition resolve (v : View) (r : Ref View) : option View :=
  match r with
  | Live i => item_at v i
  | Fresh _ c => Some c
  | Detached c => Some c
  end.

(** The array in [items] is replaced: a map keeps the instances of the
    old array, which are no longer shared with [items]. *)
Definition retire (v : View) (r : Ref View) : option (Ref View) :=
  match r with
  | Live i => Detached <$> item_at v i
  | _ => Some r
  end.

(** [delete items[i]]: a map keeps the instance [c] that was there. *)
Definition release (i : nat) (c : View) (r : Ref View) : Ref View :=
  match r with
  | Live j => if Nat.eqb j i then Detached c else r
  | _ => r
  end.

Definition release_in (i : nat) (c : View) (m : gmap string (Ref View))
    : gmap string (Ref View) :=
  release i c <$> m.

(** [for (i = 0; i < len; i++) { items[i].destroy(); delete items[i]; }]:
    the loop of [destroy] from the index [i].  Every slot is vacated after
    the call; the lookup maps [vm] and [im] keep the instances. *)
Definition destroyLoop (destr : View -> World -> Outcome unit) :=
  fix loop (i : nat) (l : list Slot) (vm im : gmap string (Ref View)) (w : World)
      : Completion unit * list Slot * (gmap string (Ref View) * gmap string (Ref View)) * World :=
    match l with
    | [] => (Normal tt, [], (vm, im), w)
    | None :: _ =>
        (Throw (TypeError "Cannot read property 'destroy' of undefined"), l, (vm, im), w)
    | Some c :: r =>
        let '(res, c', w1) := destr c w in
        match res with
        | Throw e => (Throw e, Some c' :: r, (vm, im), w1)
        | Normal _ =>
            let '(res', r', maps, w2) :=
              loop (S i) r (release_in i c' vm) (release_in i c' im) w1 in
            (res', None :: r', maps, w2)
        end
    end.

(** [if (N13.isArray(items)) { for ... }] of [destroy] on the receiver. *)
Definition destroyItems (destr : View -> World -> Outcome unit) (v : View) (w : World)
    : Outcome unit :=
  match items v with
  | None => (Normal tt, v, w)
  | Some l =>
      let '(res, l', maps, w') := destroyLoop destr 0 l (_viewMap v) (_itemIdMap v) w in
      (res, set_maps (fst maps) (snd maps) (set_items (Some l') v), w')
  end.

(** ** clear, show, hide, disable, enable *)

Definition clear_dom (v : View) (w : World) : World :=
  match el v with
  | None => w
  | Some h =>
      let d1 := jq_off (document w) h in
      let children := jq_children d1 h in
      let d2 := jq_off d1 children in
      set_document (jq_remove d2 children) w
  end.

Fixpoint clear (v : View) (w : World) : Outcome unit :=
  if rendered v then
    let w1 := trigger v "beforeclear" None w in
    let w2 := call_hook v "onBeforeClear" None w1 in
    if approves (onBeforeClear (hooks (cfg v))) then
      let '(res, v1, w3) := eachItem "clear" true clear v w2 in
      match res with
      | Throw e => (Throw e, v1, w3)
      | Normal _ =>
          let w4 := clear_dom v1 w3 in
          let v2 := set_rendered false v1 in
          let w5 := call_hook v2 "onAfterClear" None w4 in
          (Normal tt, v2, trigger v2 "clear" None w5)
      end
    else (Normal tt, v, w2)
  else (Normal tt, v, w).

Definition null_el_fault : Fault :=
  TypeError "Cannot read property 'css' of null".

Fixpoint show (v : View) (w : World) : Outcome unit :=
  if rendered v then
    let w1 := trigger v "beforeshow" None w in
    let w2 := call_hook v "onBeforeShow" None w1 in
    if approves (onBeforeShow (hooks (cfg v))) then
      let '(res, v1, w3) := eachItem "show" true show v w2 in
      match res with
      | Throw e => (Throw e, v1, w3)
      | Normal _ =>
          match el v1 with
          | None => (Throw null_el_fault, v1, w3)
          | Some h =>
              let w4 := set_document (jq_css_set (document w3) h (_displayCssValue v1)) w3 in
              let w5 := call_hook v1 "onAfterShow" None w4 in
              (Normal tt, v1, trigger v1 "show" None w5)
          end
      end
    else (Normal tt, v, w2)
  else (Normal tt, v, w).

Fixpoint hide (v : View) (w : World) : Outcome unit :=
  if rendered v then
    let w1 := trigger v "beforehide" None w in
    let w2 := call_hook v "onBeforeHide" None w1 in
    if approves (onBeforeHide (hooks (cfg v))) then
      let '(res, v1, w3) := eachItem "hide" true hide v w2 in
      match res with
      | Throw e => (Throw e, v1, w3)
      | Normal _ =>
          match el v1 with
          | None => (Throw null_el_fault, v1, w3)
          | Some h =>
              let v2 := set_displayCssValue (jq_css_get (document w3) h) v1 in
              let w4 := set_document (jq_css_set (document w3) h (Some "none")) w3 in
              let w5 := call_hook v2 "onAfterHide" None w4 in
              (Normal tt, v2, trigger v2 "hide" None w5)
          end
      end
    else (Normal tt, v, w2)
  else (Normal tt, v, w).

Fixpoint disable (v : View) (w : World) : Outcome unit :=
  if rendered v then
    let w1 := trigger v "beforedisable" None w in
    let w2 := call_hook v "onBeforeDisable" None w1 in
    if approves (onBeforeDisable (hooks (cfg v))) then
      let '(res, v1, w3) := eachItem "disable" true disable v w2 in
      match res with
      | Throw e => (Throw e, v1, w3)
      | Normal _ =>
          let w4 := call_hook v1 "onAfterDisable" None w3 in
          (Normal tt, v1, trigger v1 "disable" None w4)
      end
    else (Normal tt, v, w2)
  else (Normal tt, v, w).

(** The nested views are enabled without the argument. *)
Fixpoint enable (cssPaths : JsVal) (v : View) (w : World) : Outcome unit :=
  if rendered v then
    let w1 := trigger v "beforeenable" None w in
    let w2 := call_hook v "onBeforeEnable" (Some cssPaths) w1 in
    if approves (onBeforeEnable (hooks (cfg v))) then
      let '(res, v1, w3) := eachItem "enable" true (enable VUndefined) v w2 in
      match res with
      | Throw e => (Throw e, v1, w3)
      | Normal _ =>
          let w4 := call_hook v1 "onAfterEnable" (Some cssPaths) w3 in
          (Normal tt, v1, trigger v1 "enable" None w4)
      end
    else (Normal tt, v, w2)
  else (Normal tt, v, w).

(** ** render and destroy *)

Section Methods.

(** The collaborators: [N13.ns] on the template namespace (the static
    properties of the template class under a dotted name) and on the view
    namespace (the constructor under a dotted name), and [_.template]
    followed by the parsing of its markup, which yields elements or
    raises. *)
Variable ns_tpl : string -> option (list (string * JsVal)).
Variable ns_view : string -> option Ctor.
Variable template_engine : string -> JsVal -> Completion (list Node).

Definition quoted (s : string) : string := dq +:+ s +:+ dq.

(** [!this.el || !this.el.length] *)
Definition el_missing (v : View) : bool :=
  match el v with
  | None => true
  | Some h => Nat.eqb (length h) 0
  end.

(** The selector that [_updateEl] resolves when [el] is missing: the
    container query if it is a string, nothing for an auto [elPath]. *)
Definition anchor_query (v : View) (containerQuery : option string) : option string :=
  match containerQuery with
  | Some q => Some q
  | None =>
      if String.eqb (elPath (cfg v)) (autoIncrementId (cfg v)) then None
      else Some (elPath (cfg v))
  end.

Definition _updateEl (containerQuery : option string) (v : View) (w : World)
    : Outcome unit :=
  if el_missing v then
    let '(v1, w1) :=
      match jq (document w) (anchor_query v containerQuery) with
      | Normal h => (set_el (Some h) v, w)
      | Throw _ =>
          (v, trigger v "error"
                (Some ("Invalid elPath CSS query for view " +:+ quoted (cls v) +:+
                       ". elPath: " +:+ quoted (elPath (cfg v)))) w)
      end in
    let w2 :=
      match el v1 with
      | Some h =>
          if Nat.ltb 1 (length h) then
            trigger v1 "error" (Some ("Found duplicate ids for view " +:+ quoted (cls v1))) w1
          else w1
      | None => w1
      end in
    if el_missing v1 then (Normal tt, set_initEvents true v1, w2)
    else if _initEvents v1 then (Normal tt, v1, emit (DelegateEvents (cls v1)) w2)
    else (Normal tt, v1, w2)
  else
    match containerQuery with
    | Some q =>
        match jq (document w) (Some q) with
        | Normal h => (Normal tt, set_el (Some h) v, w)
        | Throw f => (Throw f, v, w)
        end
    | None => (Normal tt, v, w)
    end.

(** [N13.ns(this.templateNs + '.' + template, false)] *)
Definition template_class (c : Config) (t : option string)
    : option (list (string * JsVal)) :=
  ns_tpl (templateNs c +:+ "." +:+ match t with Some n => n | None => "null" end).

Definition prop (o : list (string * JsVal)) (k : string) : JsVal :=
  match find (fun p => String.eqb (fst p) k) o with
  | Some p => snd p
  | None => VUndefined
  end.

Definition setTemplate (t : option string) (v : View) : View :=
  match template_class (cfg v) t with
  | Some Tpl => set_tpl (prop Tpl (templateDataProp (cfg v))) v
  | None => v
  end.

Definition setData (data : JsVal) (v : View) : View := set_templateData data v.

(** [this.items = items]; the maps are not touched, and keep the
    instances of the array that was in [items]. *)
Definition setItems (its : option (list Slot)) (v : View) : View :=
  set_items its (set_maps (omap (retire v) (_viewMap v)) (omap (retire v) (_itemIdMap v)) v).

(** [this.template === null || N13.ns(this.templateNs + '.' + this.template, false)] *)
Definition template_ok (c : Config) : bool :=
  match template c with
  | None => true
  | Some _ => match template_class c (template c) with Some _ => true | None => false end
  end.

(** The loop of [_renderItems]: a nested view whose [elPath] is the auto
    value gets a fresh id, set on its container, and is rendered there. *)
Definition renderItemsLoop (rend : View -> option string -> World -> Outcome RenderResult)
    (autoIdName : string) :=
  fix loop (l : list Slot) (containers : Handle) (w : World)
      : Completion unit * list Slot * World :=
    match l with
    | [] => (Normal tt, [], w)
    | None :: _ => (Throw (TypeError "Cannot read property 'elPath' of undefined"), l, w)
    | Some item :: r =>
        let '(innerId, w1) :=
          if String.eqb (elPath (cfg item)) autoIdName then
            let '(i, w') := _id w in (Some i, w')
          else (None, w) in
        let w2 := set_document (jq_attr_id (document w1) (take 1 containers) innerId) w1 in
        let '(res, item', w3) := rend item (option_map (fun i => "#" +:+ i) innerId) w2 in
        match res with
        | Throw e => (Throw e, Some item' :: r, w3)
        | Normal _ =>
            let '(res', r', w4) := loop r (drop 1 containers) w3 in
            (res', Some item' :: r', w4)
        end
    end.

Definition not_enough_containers (v : View) (n : nat) : Fault :=
  Error ("Template of view " +:+ quoted (cls v) +:+
         " doesn't contain enough containers for nested views. Expected " +:+
         pretty n +:+ ".").

Definition _renderItems_with (rend : View -> option string -> World -> Outcome RenderResult)
    (v : View) (w : World) : Outcome unit :=
  match items v with
  | None => (Normal tt, v, w)
  | Some its =>
      if Nat.ltb 0 (length its) then
        match el v with
        | None => (Throw (TypeError "Cannot read property 'find' of null"), v, w)
        | Some h =>
            let containers := jq_find (document w) h (containerCls (cfg v)) in
            if Nat.ltb (length containers) (length its) then
              (Throw (not_enough_containers v (length its)), v, w)
            else
              let '(res, its', w') :=
                renderItemsLoop rend (autoIncrementId (cfg v)) its containers w in
              (res, set_items (Some its') v, w')
        end
      else (Normal tt, v, w)
  end.

(** [this._tpl === '' || !N13.isString(this._tpl) ||
     !N13.isObject(this._templateData) && this._templateData !== null] *)
Definition invalid_template_data (v : View) : bool :=
  match _tpl v with
  | VStr "" => true
  | VStr _ =>
      negb (isObject (_templateData v)) &&
      negb (match _templateData v with VNull => true | _ => false end)
  | _ => true
  end.

Definition stack_overflow : Fault := RangeError "Maximum call stack size exceeded".

(** The body of [render]; [rend] renders a nested view. *)
Definition render_with (rend : View -> option string -> World -> Outcome RenderResult)
    (v : View) (containerQuery : option string) (w : World) : Outcome RenderResult :=
  if String.eqb (elPath (cfg v)) "" then
    (Normal RetFalse, v,
     trigger v "error"
       (Some ("Element css path (elPath) is not set for class " +:+ quoted (cls v))) w)
  else if negb (template_ok (cfg v)) then
    (Normal RetFalse, v,
     trigger v "error" (Some ("Invalid template in view: " +:+ quoted (cls v))) w)
  else
    let '(res0, v0, w0) := _updateEl containerQuery v w in
    match res0 with
    | Throw e => (Throw e, v0, w0)
    | Normal _ =>
        if el_missing v0 then
          (Normal RetFalse, v0,
           trigger v0 "error"
             (Some ("Root element (View::el) not found for view " +:+ quoted (cls v0))) w0)
        else
          let w1 := trigger v0 "beforerender" None w0 in
          let w2 := call_hook v0 "onBeforeRender" None w1 in
          if approves (onBeforeRender (hooks (cfg v0))) then
            let '(res1, v1, w3) := clear v0 w2 in
            match res1 with
            | Throw e => (Throw e, v1, w3)
            | Normal _ =>
                if invalid_template_data v1 then
                  (Normal RetFalse, v1,
                   trigger v1 "error"
                     (Some ("Invalid template data in view: " +:+ quoted (cls v1))) w3)
                else
                  match template_engine (js_to_string (_tpl v1)) (_templateData v1) with
                  | Throw e =>
                      (Normal RetFalse, v1,
                       trigger v1 "error"
                         (Some ("Template data is invalid in view " +:+ quoted (cls v1) +:+
                                ". Message: " +:+ quoted (fault_message e))) w3)
                  | Normal markup =>
                      let w4 :=
                        set_document
                          (jq_append (document w3) (default [] (el v1)) markup) w3 in
                      let '(res2, v2, w5) :=
                        _renderItems_with rend v1 w4 in
                      match res2 with
                      | Throw e => (Throw e, v2, w5)
                      | Normal _ =>
                          let v3 := set_rendered true v2 in
                          let w6 := call_hook v3 "onAfterRender" None w5 in
                          (Normal RetThis, v3, trigger v3 "render" None w6)
                      end
                  end
            end
          else (Normal RetThis, v0, w2)
    end.

(** [render], with a bound on the depth of the nested calls. *)
Fixpoint render_fuel (fuel : nat) (v : View) (containerQuery : option string) (w : World)
    : Outcome RenderResult :=
  match fuel with
  | 0 => (Throw stack_overflow, v, w)
  | S fuel' => render_with (render_fuel fuel') v containerQuery w
  end.

Definition render (v : View) (containerQuery : option string) (w : World)
    : Outcome RenderResult :=
  render_fuel (S (height v)) v containerQuery w.

Definition _renderItems (v : View) (w : World) : Outcome unit :=
  _renderItems_with render v w.

(** The body of [destroy]; [destr] destroys a nested view. *)
Definition destroy_with (destr : View -> World -> Outcome unit) (v : View) (w : World)
    : Outcome unit :=
  let w1 := trigger v "beforedestroy" None w in
  let w2 := call_hook v "onBeforeDestroy" None w1 in
  if approves (onBeforeDestroy (hooks (cfg v))) then
    let w3 := emit (CallMixin (cls v) "observe") w2 in
    let '(res, v1, w4) := clear v w3 in
    match res with
    | Throw e => (Throw e, v1, w4)
    | Normal _ =>
        let '(res', v2, w5) := destroyItems destr v1 w4 in
        match res' with
        | Throw e => (Throw e, v2, w5)
        | Normal _ =>
            let w6 := emit (UndelegateEvents (cls v2)) w5 in
            let w7 := call_hook v2 "onAfterDestroy" None w6 in
            (Normal tt, v2, trigger v2 "destroy" None w7)
        end
    end
  else (Normal tt, v, w2).

(** [destroy], with a bound on the depth of the nested calls. *)
Fixpoint destroy_fuel (fuel : nat) (v : View) (w : World) : Outcome unit :=
  match fuel with
  | 0 => (Throw stack_overflow, v, w)
  | S fuel' => destroy_with (destroy_fuel fuel') v w
  end.

Definition destroy (v : View) (w : World) : Outcome unit :=
  destroy_fuel (S (height v)) v w.

(** ** Nested views: lookup and creation *)

(** What [getItem] returns besides [null]: an instance, or a member that
    a lookup map inherits from [Object.prototype] (a function, or the
    prototype itself for ["__proto__"]). *)
Inductive Found : Type :=
  | Instance (c : View)
  | Inherited (member : string).

(** The members of [Object.prototype]; all of them are truthy. *)
Definition object_prototype : list string :=
  ["constructor"; "toString"; "toLocaleString"; "valueOf"; "hasOwnProperty";
   "isPrototypeOf"; "propertyIsEnumerable"; "__defineGetter__"; "__defineSetter__";
   "__lookupGetter__"; "__lookupSetter__"; "__proto__"].

(** [map[key]] on a lookup map of [v], which is a plain object: its own
    property, or else the member of that name of [Object.prototype];
    [None] is [undefined].  (An instance stored under ["__proto__"] is read
    back under that key, as here; that it also becomes the prototype of the
    map is not modelled.) *)
Definition plain_get (v : View) (m : gmap string (Ref View)) (key : string) : option Found :=
  match m !! key with
  | Some r => Instance <$> resolve v r
  | None => if mem_str key object_prototype then Some (Inherited key) else None
  end.

(** [getItem]; [None] in the result is [null]. *)
Definition getItem (id : JsVal) (v : View) : Completion (option Found) :=
  if isString id then
    Normal
      (match plain_get v (_itemIdMap v) (js_to_string id) with
       | Some x => Some x
       | None => plain_get v (_viewMap v) (js_to_string id)
       end)
  else if isNumeric id then
    match items v, id with
    | None, _ => Throw (TypeError ("Cannot read property '" +:+ js_to_string id +:+ "' of null"))
    | Some l, VNum n =>
        Normal (if (n <? 0)%Z then None else Instance <$> mjoin (l !! Z.to_nat n))
    | Some _, _ => Normal None
    end
  else Normal None.

(** The declared [items] of a class: [null], one class name, or an
    array. *)
Inductive ItemsCfg : Type :=
  | CfgNull
  | CfgStr (s : string)
  | CfgArr (l : list JsVal).

(** [new (ns(viewNs + '.' + name, false))(config)] *)
Definition new_view (c : Config) (name : string) (config : option (list (string * JsVal)))
    (w : World) : Completion View * World :=
  match ns_view (viewNs c +:+ "." +:+ name) with
  | None => (Throw (TypeError "undefined is not a constructor"), w)
  | Some ctor => ctor config w
  end.

(** An entry is well formed when it is a string or an object; the class
    it names and the configuration passed to its constructor. *)
Definition well_formed (item : JsVal) : bool := isString item || isObject item.

Definition item_class (item : JsVal) : string :=
  match item with
  | VObj o => js_to_string (prop o "cl")
  | _ => js_to_string item
  end.

Definition item_config (item : JsVal) : option (list (string * JsVal)) :=
  match item with
  | VObj o => Some o
  | _ => None
  end.

(** [viewMap[item] = view; if (view.itemId) { itemIdMap[view.itemId] = view; }]
    for the instance pushed at the position [i] of [instances]. *)
Definition register (key : string) (view : View) (i : nat) (v : View) : View :=
  let vm := <[key := Fresh i view]> (_viewMap v) in
  let im :=
    if truthy (itemId (cfg view)) then
      <[js_to_string (itemId (cfg view)) := Fresh i view]> (_itemIdMap v)
    else _itemIdMap v in
  set_maps vm im v.

(** [this.items = instances]: the instances that the loop made are in
    [items] now, those of the array that it replaces are in the maps
    only. *)
Definition adopt (v : View) (r : Ref View) : option (Ref View) :=
  match r with
  | Fresh i _ => Some (Live i)
  | _ => retire v r
  end.

(** The loop faulted and [items] is as it was: the instances that the
    loop made are in the maps only. *)
Definition abandon (r : Ref View) : Ref View :=
  match r with
  | Fresh _ c => Detached c
  | _ => r
  end.

(** The loop of [_createItems] over the declared entries; [instances]
    is the array built so far. *)
Fixpoint createLoop (l : list JsVal) (instances : list Slot) (v : View) (w : World)
    : Completion (list Slot) * View * World :=
  match l with
  | [] => (Normal instances, v, w)
  | item :: r =>
      if isString item then
        match new_view (cfg v) (js_to_string item) None w with
        | (Throw e, w') => (Throw e, v, w')
        | (Normal view, w') =>
            createLoop r (instances ++ [Some view])
              (register (js_to_string item) view (length instances) v) w'
        end
      else if isObject item then
        let o := match item with VObj o => o | _ => [] end in
        match new_view (cfg v) (js_to_string (prop o "cl")) (Some o) w with
        | (Throw e, w') => (Throw e, v, w')
        | (Normal view, w') =>
            createLoop r (instances ++ [Some view])
              (register (js_to_string item) view (length instances) v) w'
        end
      else
        createLoop r instances v
          (trigger v "debug"
             (Some ("Invalid nested view " +:+ quoted (js_to_string item) +:+ " of view " +:+
                    quoted (cls v) +:+ ". This view will be skipped.")) w)
  end.

Definition _createItems (declared : ItemsCfg) (v : View) (w : World) : Outcome unit :=
  let its :=
    match declared with
    | CfgNull => None
    | CfgStr s => Some [VStr s]
    | CfgArr l => Some l
    end in
  match its with
  | None => (Normal tt, v, w)
  | Some l =>
      match createLoop l [] v w with
      | (Throw e, v', w') =>
          (Throw e, set_maps (abandon <$> _viewMap v') (abandon <$> _itemIdMap v') v', w')
      | (Normal instances, v', w') =>
          (Normal tt,
           set_items (Some instances)
             (set_maps (omap (adopt v') (_viewMap v')) (omap (adopt v') (_itemIdMap v')) v'),
           w')
      end
  end.

(** ** Construction *)

(** [initPrivates]: the call of the interface mixin and the private
    fields. *)
Definition initPrivates (v : View) (w : World) : View * World :=
  (MkView (cfg v) (VStr "") VNull (Some "block") (rendered v) (el v) (_initEvents v)
          ∅ ∅ (items v),
   emit (CallMixin (cls v) "iface") w).

(** [initPublics]: the call of the interface mixin and the public
    fields. *)
Definition initPublics (v : View) (w : World) : View * World :=
  (set_el None (set_rendered false v), emit (CallMixin (cls v) "iface") w).

(** [afterInit]: the call of the interface mixin, then [setTemplate]. *)
Definition afterInit (v : View) (w : World) : View * World :=
  (setTemplate (template (cfg v)) v, emit (CallMixin (cls v) "iface") w).

(** The constructor [init] of an instance with configuration [c] and
    declared items [declared].  [_updateEl] runs before the fields are
    initialised: [initPrivates], [initPublics] and [afterInit] are run by
    the class system during the construction, after [_updateEl] and before
    the mixin calls of [init]. *)
Definition init (c : Config) (declared : ItemsCfg) (w : World) : Completion View * World :=
  let blank := MkView c VUndefined VUndefined None false None false ∅ ∅ None in
  let '(_, u0, w0) := _updateEl None blank w in
  let '(u1, wa) := initPrivates u0 w0 in
  let '(u2, wb) := initPublics u1 wa in
  let '(v2, wc) := afterInit u2 wb in
  let w1 := emit (CallMixin (className c) "iface") wc in
  let w2 := emit (CallMixin (className c) "observe") w1 in
  let w3 := trigger v2 "beforeinit" None w2 in
  let w4 := call_hook v2 "onBeforeInit" None w3 in
  let '(res, v3, w5) := _createItems declared v2 w4 in
  match res with
  | Throw e => (Throw e, w5)
  | Normal _ =>
      let w6 := call_hook v3 "onAfterInit" None w5 in
      let w7 := trigger v3 "init" None w6 in
      if autoRender c then
        let '(res', v4, w8) := render v3 None w7 in
        match res' with
        | Throw e => (Throw e, w8)
        | Normal _ => (Normal v4, w8)
        end
      else (Normal v3, w7)
  end.

End Methods.

(** ** Well-formed trees *)

(** No slot of the tree has been vacated. *)
Fixpoint hole_free (v : View) : bool :=
  match items v with
  | None => true
  | Some l =>
      (fix go (l : list Slot) : bool :=
         match l with
         | [] => true
         | None :: _ => false
         | Some c :: r => hole_free c && go r
         end) l
  end.

(** The nested views of a node, and their class names. *)
Definition children (v : View) : list View := omap id (default [] (items v)).
Definition child_classes (v : View) : list string := cls <$> children v.

(** Every element handle of the tree satisfies [p]. *)
Fixpoint every_el (p : Handle -> bool) (v : View) : bool :=
  match el v with Some h => p h | None => true end &&
  match items v with
  | None => true
  | Some l =>
      (fix go (l : list Slot) : bool :=
         match l with
         | [] => true
         | None :: r => go r
         | Some c :: r => every_el p c && go r
         end) l
  end.

(** A tree on which [show] and [hide] run to completion: below a rendered
    node there is an element and no vacated slot. *)
Fixpoint settled (v : View) : bool :=
  negb (rendered v) ||
  (match el v with Some _ => true | None => false end &&
   match items v with
   | None => true
   | Some l =>
       (fix go (l : list Slot) : bool :=
          match l with
          | [] => true
          | None :: _ => false
          | Some c :: r => settled c && go r
          end) l
   end).

(** ** The lifecycle transitions *)

Inductive Transition : Type :=
  | TRender (containerQuery : option string)
  | TClear
  | TShow
  | THide
  | TDisable
  | TEnable (cssPaths : JsVal)
  | TDestroy.

(** The before-hook of a transition, its name, its argument, and the
    notification that precedes it. *)
Definition before_hook (t : Transition) (h : Hooks) : JsVal :=
  match t with
  | TRender _ => onBeforeRender h
  | TClear => onBeforeClear h
  | TShow => onBeforeShow h
  | THide => onBeforeHide h
  | TDisable => onBeforeDisable h
  | TEnable _ => onBeforeEnable h
  | TDestroy => onBeforeDestroy h
  end.

Definition before_hook_name (t : Transition) : string :=
  match t with
  | TRender _ => "onBeforeRender"
  | TClear => "onBeforeClear"
  | TShow => "onBeforeShow"
  | THide => "onBeforeHide"
  | TDisable => "onBeforeDisable"
  | TEnable _ => "onBeforeEnable"
  | TDestroy => "onBeforeDestroy"
  end.

Definition before_hook_arg (t : Transition) : option JsVal :=
  match t with
  | TEnable a => Some a
  | _ => None
  end.

Definition before_event (t : Transition) : string :=
  match t with
  | TRender _ => "beforerender"
  | TClear => "beforeclear"
  | TShow => "beforeshow"
  | THide => "beforehide"
  | TDisable => "beforedisable"
  | TEnable _ => "beforeenable"
  | TDestroy => "beforedestroy"
  end.

Section Transitions.
Variable ns_tpl : string -> option (list (string * JsVal)).
Variable template_engine : string -> JsVal -> Completion (list Node).

(** The call of a transition on [v]; the result of [render] is kept. *)
Definition perform (t : Transition) (v : View) (w : World)
    : Outcome (option RenderResult) :=
  let void (o : Outcome unit) : Outcome (option RenderResult) :=
    let '(r, v', w') := o in
    (match r with Normal _ => Normal None | Throw e => Throw e end, v', w') in
  match t with
  | TRender cq =>
      let '(r, v', w') := render ns_tpl template_engine v cq w in
      (match r with Normal x => Normal (Some x) | Throw e => Throw e end, v', w')
  | TClear => void (clear v w)
  | TShow => void (show v w)
  | THide => void (hide v w)
  | TDisable => void (disable v w)
  | TEnable a => void (enable a v w)
  | TDestroy => void (destroy v w)
  end.

(** The receiver and the world in which the before-hook of [t] is
    consulted, when the call gets that far: [render] first checks the
    configuration and resolves the element, the visibility, enablement and
    clearing transitions do nothing on a view that is not rendered. *)
Definition at_hook (t : Transition) (v : View) (w : World) : option (View * World) :=
  match t with
  | TRender cq =>
      if String.eqb (elPath (cfg v)) "" then None
      else if negb (template_ok ns_tpl (cfg v)) then None
      else
        match _updateEl cq v w with
        | (Normal _, v0, w0) => if el_missing v0 then None else Some (v0, w0)
        | (Throw _, _, _) => None
        end
  | TDestroy => Some (v, w)
  | _ => if rendered v then Some (v, w) else None
  end.

(** [reached w w']: [w'] is the world after any number of transitions,
    on any views, and of allocations made from the world [w]. *)
Inductive reached (w : World) : World -> Prop :=
  | reached_now : reached w w
  | reached_call w1 t v : reached w w1 -> reached w (snd (perform t v w1))
  | reached_id w1 : reached w w1 -> reached w (snd (_id w1)).

End Transitions.

(** ** A sample application

    A page with one [#root] anchor and two [.dup] elements, three
    templates, and a reusable leaf view; used to run the methods. *)
Module Sample.

Definition elem (n : nat) (t : string) (i : option string) (c : list string)
    (d : string) (k : list Node) : Node :=
  MkNode n t i c d false k.

Definition page : Document :=
  MkDocument
    [elem 0 "html" None [] "block"
       [elem 1 "div" (Some "root") [] "grid" [];
        elem 2 "div" None ["dup"] "block" [];
        elem 3 "div" None ["dup"] "block" []]]
    4.

Definition start : World := MkWorld page 0 [].

(** Every [p] of a template string is a placeholder for a nested view,
    any other character a plain element; the template ["boom"] raises. *)
Definition markup_of (s : string) : list Node :=
  map (fun a =>
         if Ascii.eqb a "p"%char then elem 0 "div" None ["innerContainer"] "block" []
         else elem 0 "span" None [] "inline" [])
      (list_ascii_of_string s).

Definition engine (s : string) (data : JsVal) : Completion (list Node) :=
  if String.eqb s "boom" then Throw (Error "boom is not defined")
  else Normal (markup_of s).

Definition templates (name : string) : option (list (string * JsVal)) :=
  if String.eqb name "App.template.One" then Some [("data", VStr "p")]
  else if String.eqb name "App.template.Two" then Some [("data", VStr "pp")]
  else if String.eqb name "App.template.Leaf" then Some [("data", VStr "x")]
  else None.

Definition no_views (name : string) : option Ctor := None.

Definition leaf_config : Config :=
  MkConfig "Leaf" "auto" "auto" "innerContainer" (Some "Leaf") "App.template" "data"
           "App.view" false VUndefined default_hooks.

Definition Leaf : Ctor := fun _ w => init templates no_views engine leaf_config CfgNull w.

Definition views (name : string) : option Ctor :=
  if String.eqb name "App.view.Leaf" then Some Leaf else None.

Definition root_config (t : option string) (h : Hooks) : Config :=
  MkConfig "Root" "#root" "auto" "innerContainer" t "App.template" "data" "App.view"
           false VUndefined h.

(** [new Root()] for a class with template [t], hooks [h] and declared
    items [declared], in the world [w]; a fault gives a blank instance. *)
Definition make (t : option string) (h : Hooks) (declared : ItemsCfg) (w : World)
    : View * World :=
  match init templates views engine (root_config t h) declared w with
  | (Normal v, w') => (v, w')
  | (Throw _, w') =>
      (MkView (root_config t h) VUndefined VUndefined None false None false ∅ ∅ None, w')
  end.

(** Hooks that veto one transition by returning [false]. *)
Definition veto (t : Transition) : Hooks :=
  let no := VBool false in
  let u := VUndefined in
  match t with
  | TRender _ => MkHooks no u u u u u u
  | TClear => MkHooks u no u u u u u
  | TShow => MkHooks u u no u u u u
  | THide => MkHooks u u u no u u u
  | TDisable => MkHooks u u u u no u u
  | TEnable _ => MkHooks u u u u u no u
  | TDestroy => MkHooks u u u u u u no
  end.

(** A root view with [n] nested leaves, its element resolved to [#root],
    and the page after the markup of the template [s] went into [#root]. *)
Definition with_leaves (n : nat) : View :=
  set_el (Some [1])
    (fst (make (Some "Two") default_hooks (CfgArr (replicate n (VStr "Leaf"))) start)).

Definition with_markup (s : string) : World :=
  MkWorld (jq_append page [1] (markup_of s)) 0 [].

(** A root view of template [t], hooks [h] and declared items
    [declared], after [render()]. *)
Definition rendered_root (t : string) (h : Hooks) (declared : ItemsCfg) : View * World :=
  let '(v, w) := make (Some t) h declared start in
  let '(_, v', w') := render templates engine v None w in
  (v', w').

(** A view whose [elPath] matches the two [.dup] elements. *)
Definition ambiguous (h : Hooks) : View :=
  MkView (MkConfig "Dup" ".dup" "auto" "innerContainer" None "App.template" "data"
            "App.view" false VUndefined h)
         (VStr "x") VNull (Some "block") false None false ∅ ∅ None.

(** A view of a class that sets no [elPath]. *)
Definition unplaced : View :=
  MkView (MkConfig "Unplaced" "" "auto" "innerContainer" None "App.template" "data"
            "App.view" false VUndefined default_hooks)
         (VStr "x") VNull (Some "block") false None false ∅ ∅ None.

End Sample.

(** ** Vocabulary of the statements *)

Section Vocabulary.
Variable ns_view : string -> option Ctor.

(** The message of the notification for an entry that is skipped. *)
Definition debug_message (v : View) (item : JsVal) : string :=
  "Invalid nested view " +:+ quoted (js_to_string item) +:+ " of view " +:+
  quoted (cls v) +:+ ". This view will be skipped.".

(** Every well-formed entry of [l] names a constructor that returns an
    instance and only adds to the trace. *)
Definition constructible (c : Config) (l : list JsVal) : Prop :=
  forall item, item ∈ l -> well_formed item = true ->
  forall w, exists view w' T,
    new_view ns_view c (item_class item) (item_config item) w = (Normal view, w') /\
    log w' = log w ++ T.

(** The instance made for an entry. *)
Definition instance_of (c : Config) (item : JsVal) (s : Slot) : Prop :=
  exists view w0 w1,
    s = Some view /\
    new_view ns_view c (item_class item) (item_config item) w0 = (Normal view, w1).

(** What [clear] keeps of a tree. *)
Definition same_tree (v v' : View) : Prop :=
  hole_free v' = true /\ height v' = height v /\ cfg v' = cfg v /\
  child_classes v' = child_classes v /\ length <$> items v' = length <$> items v.

(** The events of [destroy] before the nested views are cleared, and
    after they are destroyed. *)
Definition destroy_prologue (v : View) : list Event :=
  [Trigger (cls v) "beforedestroy" None; Hook (cls v) "onBeforeDestroy" None;
   CallMixin (cls v) "observe"].

Definition destroy_epilogue (v : View) : list Event :=
  [UndelegateEvents (cls v); Hook (cls v) "onAfterDestroy" None;
   Trigger (cls v) "destroy" None].

(** The world in which [destroy] calls [clear], and the world in which
    it returns, [w] being the world after its loop. *)
Definition destroy_start (v : View) (w : World) : World :=
  emit (CallMixin (cls v) "observe")
    (call_hook v "onBeforeDestroy" None (trigger v "beforedestroy" None w)).

Definition destroy_end (v : View) (w : World) : World :=
  trigger v "destroy" None
    (call_hook v "onAfterDestroy" None (emit (UndelegateEvents (cls v)) w)).

(** [T] is the trace of a [destroy] of the nested view [c] that returned;
    it starts with the ["beforedestroy"] of [c]. *)
Definition destroy_trace (destr : View -> World -> Outcome unit) (c : View)
    (T : list Event) : Prop :=
  (exists T', T = Trigger (cls c) "beforedestroy" None :: T') /\
  exists w0 c' w1, destr c w0 = (Normal tt, c', w1) /\ log w1 = log w0 ++ T.

(** What [hide] keeps of a view. *)
Definition kept (v v' : View) : Prop :=
  settled v' = true /\ rendered v' = rendered v /\ el v' = el v /\ cfg v' = cfg v.

End Vocabulary.

(** The nested views of [l] that [_renderItems] gives a fresh id: those
    whose [elPath] is the auto value. *)
Fixpoint count_auto (autoIdName : string) (l : list Slot) : nat :=
  match l with
  | [] => 0
  | Some c :: r =>
      (if String.eqb (elPath (cfg c)) autoIdName then 1 else 0) + count_auto autoIdName r
  | None :: r => count_auto autoIdName r
  end.

(** Both lookup maps hold nothing but instances of the array [inst] that
    [_createItems] is building, each at its position. *)
Definition registered (inst : list Slot) (v : View) : Prop :=
  forall m, m = _viewMap v \/ m = _itemIdMap v ->
  forall k r, m !! k = Some r -> exists i c, r = Fresh i c /\ inst !! i = Some (Some c).

(** The events of a completed [render] of a view that was not rendered. *)
Definition render_events (v : View) : list Event :=
  [Trigger (cls v) "beforerender" None; Hook (cls v) "onBeforeRender" None;
   Hook (cls v) "onAfterRender" None; Trigger (cls v) "render" None].

(** [rend] with the value it returns replaced by [g] of that value; its
    faults, and what it does to the view and to the world, are kept. *)
Definition returning (g : RenderResult -> RenderResult)
    (rend : View -> option string -> World -> Outcome RenderResult)
    : View -> option string -> World -> Outcome RenderResult :=
  fun c q w =>
    let '(r, c', w') := rend c q w in
    (match r with Normal x => Normal (g x) | Throw e => Throw e end, c', w').

(** The hook calls of a trace that pass an argument pass [undefined]. *)
Definition passes_undefined (T : list Event) : Prop :=
  Forall (fun e => forall who name a, e = Hook who name (Some a) -> a = VUndefined) T.

(** No view of the tree is rendered. *)
Fixpoint unrendered (v : View) : bool :=
  negb (rendered v) &&
  match items v with
  | None => true
  | Some l =>
      (fix go (l : list Slot) : bool :=
         match l with
         | [] => true
         | None :: r => go r
         | Some c :: r => unrendered c && go r
         end) l
  end.

(** Below a view that is not rendered no view is rendered. *)
Fixpoint top_down (v : View) : bool :=
  (rendered v || unrendered v) &&
  match items v with
  | None => true
  | Some l =>
      (fix go (l : list Slot) : bool :=
         match l with
         | [] => true
         | None :: r => go r
         | Some c :: r => top_down c && go r
         end) l
  end.

(** Every [onBeforeClear] of the tree approves. *)
Fixpoint clear_approved (v : View) : bool :=
  approves (onBeforeClear (hooks (cfg v))) &&
  match items v with
  | None => true
  | Some l =>
      (fix go (l : list Slot) : bool :=
         match l with
         | [] => true
         | None :: r => go r
         | Some c :: r => clear_approved c && go r
         end) l
  end.

(** ** Reasoning principles *)

(** Induction on a view with the hypothesis for every nested view. *)
Section ViewInduction.
Variable P : View -> Prop.
Hypothesis step :
  forall v, (forall l, items v = Some l -> Forall (fun s => forall c, s = Some c -> P c) l) -> P v.

Fixpoint View_nested_ind (v : View) : P v.
Proof.
  apply step. destruct v as [c t d dc r e ie vm im its]; simpl.
  intros l Hl. destruct its as [l0|]; [|discriminate].
  injection Hl as <-.
  induction l0 as [|s l0 IH]; constructor; [|exact IH].
  intros c0 Hc. destruct s as [c1|]; [|discriminate].
  injection Hc as <-. apply View_nested_ind.
Defined.
End ViewInduction.

(** Induction on an element with the hypothesis for its children. *)
Section NodeInduction.
Variable P : Node -> Prop.
Hypothesis step : forall n, Forall P (kids n) -> P n.

Fixpoint Node_nested_ind (n : Node) : P n.
Proof.
  apply step. destruct n as [i t a c d b ks]; simpl.
  induction ks as [|k ks IH]; constructor; [apply Node_nested_ind|exact IH].
Defined.
End NodeInduction.

(** Case analysis along the branches of a method. *)
Ltac cases := repeat (cbv zeta in *; case_match); simplify_eq.

(** The trace of the second world extends that of the first. *)
Ltac log_ext :=
  simpl; rewrite <- ?app_assoc;
  first [ eexists; reflexivity | exists []; rewrite app_nil_r; reflexivity ].


Lemma clear_unfold v w :
  clear v w =
  if rendered v then
    let w1 := trigger v "beforeclear" None w in
    let w2 := call_hook v "onBeforeClear" None w1 in
    if approves (onBeforeClear (hooks (cfg v))) then
      let '(res, v1, w3) := eachItem "clear" true clear v w2 in
      match res with
      | Throw e => (Throw e, v1, w3)
      | Normal _ =>
          let w4 := clear_dom v1 w3 in
          let v2 := set_rendered false v1 in
          let w5 := call_hook v2 "onAfterClear" None w4 in
          (Normal tt, v2, trigger v2 "clear" None w5)
      end
    else (Normal tt, v, w2)
  else (Normal tt, v, w).
Proof. destruct v; reflexivity. Qed.

Lemma show_unfold v w :
  show v w =
  if rendered v then
    let w1 := trigger v "beforeshow" None w in
    let w2 := call_hook v "onBeforeShow" None w1 in
    if approves (onBeforeShow (hooks (cfg v))) then
      let '(res, v1, w3) := eachItem "show" true show v w2 in
      match res with
      | Throw e => (Throw e, v1, w3)
      | Normal _ =>
          match el v1 with
          | None => (Throw null_el_fault, v1, w3)
          | Some h =>
              let w4 := set_document (jq_css_set (document w3) h (_displayCssValue v1)) w3 in
              let w5 := call_hook v1 "onAfterShow" None w4 in
              (Normal tt, v1, trigger v1 "show" None w5)
          end
      end
    else (Normal tt, v, w2)
  else (Normal tt, v, w).
Proof. destruct v; reflexivity. Qed.

Lemma hide_unfold v w :
  hide v w =
  if rendered v then
    let w1 := trigger v "beforehide" None w in
    let w2 := call_hook v "onBeforeHide" None w1 in
    if approves (onBeforeHide (hooks (cfg v))) then
      let '(res, v1, w3) := eachItem "hide" true hide v w2 in
      match res with
      | Throw e => (Throw e, v1, w3)
      | Normal _ =>
          match el v1 with
          | None => (Throw null_el_fault, v1, w3)
          | Some h =>
              let v2 := set_displayCssValue (jq_css_get (document w3) h) v1 in
              let w4 := set_document (jq_css_set (document w3) h (Some "none")) w3 in
              let w5 := call_hook v2 "onAfterHide" None w4 in
              (Normal tt, v2, trigger v2 "hide" None w5)
          end
      end
    else (Normal tt, v, w2)
  else (Normal tt, v, w).
Proof. destruct v; reflexivity. Qed.

Lemma disable_unfold v w :
  disable v w =
  if rendered v then
    let w1 := trigger v "beforedisable" None w in
    let w2 := call_hook v "onBeforeDisable" None w1 in
    if approves (onBeforeDisable (hooks (cfg v))) then
      let '(res, v1, w3) := eachItem "disable" true disable v w2 in
      match res with
      | Throw e => (Throw e, v1, w3)
      | Normal _ =>
          let w4 := call_hook v1 "onAfterDisable" None w3 in
          (Normal tt, v1, trigger v1 "disable" None w4)
      end
    else (Normal tt, v, w2)
  else (Normal tt, v, w).
Proof. destruct v; reflexivity. Qed.

Lemma enable_unfold a v w :
  enable a v w =
  if rendered v then
    let w1 := trigger v "beforeenable" None w in
    let w2 := call_hook v "onBeforeEnable" (Some a) w1 in
    if approves (onBeforeEnable (hooks (cfg v))) then
      let '(res, v1, w3) := eachItem "enable" true (enable VUndefined) v w2 in
      match res with
      | Throw e => (Throw e, v1, w3)
      | Normal _ =>
          let w4 := call_hook v1 "onAfterEnable" (Some a) w3 in
          (Normal tt, v1, trigger v1 "enable" None w4)
      end
    else (Normal tt, v, w2)
  else (Normal tt, v, w).
Proof. destruct v; reflexivity. Qed.

(** ** Frame lemmas *)

Section Frames.
Variable ns_tpl : string -> option (list (string * JsVal)).
Variable template_engine : string -> JsVal -> Completion (list Node).

(** [_updateEl] touches [el] and [_initEvents] only, leaves the
    document and the counter alone, and only adds to the trace. *)
Lemma _updateEl_frame cq v w r v' w' :
  _updateEl cq v w = (r, v', w') ->
  cfg v' = cfg v /\ rendered v' = rendered v /\ items v' = items v /\
  _tpl v' = _tpl v /\ _templateData v' = _templateData v /\
  _displayCssValue v' = _displayCssValue v /\
  document w' = document w /\ currentId w' = currentId w /\
  exists T, log w' = log w ++ T.
Proof.
  unfold _updateEl. intros H.
  repeat case_match; simplify_eq; simpl;
    repeat split; try reflexivity; log_ext.
Qed.

Lemma set_items_same v : set_items (items v) v = v.
Proof. destruct v; reflexivity. Qed.

Lemma eachItem_shape m k f v w r v' w' :
  eachItem m k f v w = (r, v', w') -> v' = set_items (items v') v.
Proof.
  unfold eachItem. intros H.
  repeat case_match; simplify_eq; simpl; rewrite ?set_items_same; reflexivity.
Qed.

Lemma eachItem_null m k f v w :
  items v = None -> eachItem m k f v w = (Normal tt, v, w).
Proof. unfold eachItem. intros ->. reflexivity. Qed.

Lemma set_maps_same v : set_maps (_viewMap v) (_itemIdMap v) v = v.
Proof. destruct v; reflexivity. Qed.

(** The loop of [destroy] is the traversal that vacates the slots; it
    changes the maps besides. *)
Lemma destroyLoop_forItems destr l : forall i vm im w,
  exists maps,
    destroyLoop destr i l vm im w =
    (fst (fst (forItems "destroy" false destr l w)),
     snd (fst (forItems "destroy" false destr l w)), maps,
     snd (forItems "destroy" false destr l w)).
Proof.
  induction l as [|s l IH]; intros i vm im w.
  - by exists (vm, im).
  - destruct s as [c|]; [|by exists (vm, im)].
    cbn [destroyLoop forItems]. destruct (destr c w) as [[r c'] w1].
    destruct r as [[]|e]; [|by exists (vm, im)].
    destruct (IH (S i) (release_in i c' vm) (release_in i c' im) w1) as [maps ->].
    exists maps. by destruct (forItems "destroy" false destr l w1) as [[r' l'] w2].
Qed.

Lemma destroyItems_eachItem destr v w :
  exists vm im,
    destroyItems destr v w =
    (fst (fst (eachItem "destroy" false destr v w)),
     set_maps vm im (snd (fst (eachItem "destroy" false destr v w))),
     snd (eachItem "destroy" false destr v w)).
Proof.
  unfold destroyItems, eachItem. destruct (items v) as [l|].
  - destruct (destroyLoop_forItems destr l 0 (_viewMap v) (_itemIdMap v) w) as [[vm im] ->].
    exists vm, im. by destruct (forItems "destroy" false destr l w) as [[r' l'] w2].
  - exists (_viewMap v), (_itemIdMap v). by rewrite set_maps_same.
Qed.

Lemma destroyLoop_agree d1 d2 l :
  (forall c, Some c ∈ l -> forall w0, d1 c w0 = d2 c w0) ->
  forall i vm im w, destroyLoop d1 i l vm im w = destroyLoop d2 i l vm im w.
Proof.
  induction l as [|s l IH]; intros Hl i vm im w; [reflexivity|].
  destruct s as [c|]; [|reflexivity].
  cbn [destroyLoop]. rewrite (Hl c ltac:(constructor)).
  destruct (d2 c w) as [[r c'] w1]. destruct r; [|reflexivity].
  rewrite IH; [reflexivity|]. intros c0 Hc0. apply Hl. by constructor.
Qed.

(** [clear] leaves everything but [rendered] and the nested views. *)
Lemma clear_frame v w r v' w' :
  clear v w = (r, v', w') ->
  cfg v' = cfg v /\ el v' = el v /\ _tpl v' = _tpl v /\
  _templateData v' = _templateData v /\ _displayCssValue v' = _displayCssValue v.
Proof.
  rewrite clear_unfold. intros H.
  cases; simpl; try done;
    match goal with
    | E : eachItem _ _ _ _ _ = _ |- _ =>
        apply eachItem_shape in E; rewrite E; simpl; done
    end.
Qed.

Lemma clear_not_rendered v w : rendered v = false -> clear v w = (Normal tt, v, w).
Proof. intros H. rewrite clear_unfold, H. reflexivity. Qed.

Lemma _renderItems_with_frame rend v w r v' w' :
  _renderItems_with rend v w = (r, v', w') -> v' = set_items (items v') v.
Proof.
  unfold _renderItems_with. intros H.
  repeat case_match; simplify_eq; simpl; rewrite ?set_items_same; reflexivity.
Qed.

End Frames.

(** ** The bound on the depth of the nested calls is never reached *)

Section DepthBound.
Variable ns_tpl : string -> option (list (string * JsVal)).
Variable template_engine : string -> JsVal -> Completion (list Node).

Lemma render_unfold v cq w :
  render ns_tpl template_engine v cq w =
  render_with ns_tpl template_engine (render_fuel ns_tpl template_engine (height v)) v cq w.
Proof. reflexivity. Qed.

Lemma destroy_unfold v w : destroy v w = destroy_with (destroy_fuel (height v)) v w.
Proof. reflexivity. Qed.

Lemma height_unfold v :
  height v =
  match items v with
  | None => 0
  | Some l => S (max_list_with (from_option height 0) l)
  end.
Proof.
  destruct v as [c t d dc r e ie vm im its]; simpl.
  destruct its as [l|]; [|reflexivity]. f_equal.
  induction l as [|[c0|] l IH]; simpl; [reflexivity| |exact IH].
  rewrite IH. reflexivity.
Qed.

Lemma forItems_keep_height m f l w :
  Forall (fun s => forall c, s = Some c -> forall w0, height (snd (fst (f c w0))) = height c) l ->
  max_list_with (from_option height 0) (snd (fst (forItems m true f l w))) =
  max_list_with (from_option height 0) l.
Proof.
  intros Hl. revert w. induction Hl as [|s l Hs _ IH]; intros w; [reflexivity|].
  simpl. destruct s as [c|]; [|reflexivity].
  specialize (Hs c eq_refl w). destruct (f c w) as [[r c'] w1]. simpl in Hs.
  destruct r.
  - specialize (IH w1). destruct (forItems m true f l w1) as [[r' l'] w2].
    simpl in *. rewrite Hs, IH. reflexivity.
  - simpl. rewrite Hs. reflexivity.
Qed.

Lemma height_set_items v l :
  height (set_items (Some l) v) = S (max_list_with (from_option height 0) l).
Proof. rewrite height_unfold. reflexivity. Qed.

Lemma eachItem_keep_height m f v w :
  (forall l, items v = Some l ->
     Forall (fun s => forall c, s = Some c ->
                      forall w0, height (snd (fst (f c w0))) = height c) l) ->
  height (snd (fst (eachItem m true f v w))) = height v.
Proof.
  intros H. unfold eachItem. destruct (items v) as [l|] eqn:Hi; [|reflexivity].
  pose proof (forItems_keep_height m f l w (H l eq_refl)) as Hl.
  destruct (forItems m true f l w) as [[r l'] w']. cbn [fst snd] in *.
  rewrite height_set_items, Hl, (height_unfold v), Hi. reflexivity.
Qed.

Lemma height_same_items v v' : items v' = items v -> height v' = height v.
Proof. intros H. rewrite !height_unfold, H. reflexivity. Qed.

Lemma clear_height v : forall w, height (snd (fst (clear v w))) = height v.
Proof.
  induction v as [v IH] using View_nested_ind. intros w.
  rewrite clear_unfold. destruct (rendered v); [|reflexivity]. cbv zeta.
  destruct (approves _); [|reflexivity].
  pose proof (eachItem_keep_height "clear" clear v
                (call_hook v "onBeforeClear" None (trigger v "beforeclear" None w)) IH) as H.
  destruct (eachItem _ _ _ _ _) as [[r v1] w3]. simpl in H.
  destruct r; cbn [fst snd]; [|exact H].
  rewrite <- H. apply height_same_items. reflexivity.
Qed.

(** The nested views of a view are less deep than the view. *)
Lemma height_items v l c : items v = Some l -> Some c ∈ l -> height c < height v.
Proof.
  intros Hi Hin. rewrite (height_unfold v), Hi. clear Hi.
  induction l as [|s l IH]; [by apply elem_of_nil in Hin|].
  cbn [max_list_with]. apply elem_of_cons in Hin as [<-|Hin].
  - simpl. lia.
  - specialize (IH Hin). lia.
Qed.

Lemma renderItemsLoop_agree rend1 rend2 auto l :
  (forall c, Some c ∈ l -> forall q w0, rend1 c q w0 = rend2 c q w0) ->
  forall cs w, renderItemsLoop rend1 auto l cs w = renderItemsLoop rend2 auto l cs w.
Proof.
  induction l as [|s l IH]; intros H cs w; [reflexivity|]. simpl.
  destruct s as [c|]; [|reflexivity].
  destruct (if String.eqb _ _ then _ else _) as [innerId w1].
  rewrite (H c ltac:(constructor)).
  destruct (rend2 c _ _) as [[r c'] w3]. destruct r; [|reflexivity].
  rewrite IH; [reflexivity|]. intros c0 Hc0. apply H. by constructor.
Qed.

Lemma _renderItems_with_agree rend1 rend2 v w :
  (forall c, height c < height v -> forall q w0, rend1 c q w0 = rend2 c q w0) ->
  _renderItems_with rend1 v w = _renderItems_with rend2 v w.
Proof.
  intros H. unfold _renderItems_with.
  destruct (items v) as [its|] eqn:Hi; [|reflexivity].
  destruct (Nat.ltb 0 (length its)); [|reflexivity].
  destruct (el v) as [h|]; [|reflexivity].
  destruct (Nat.ltb _ _); [reflexivity|].
  rewrite (renderItemsLoop_agree rend1 rend2); [reflexivity|].
  intros c Hc. apply H. eapply height_items; eassumption.
Qed.

Lemma render_with_agree rend1 rend2 v cq w :
  (forall c, height c < height v -> forall q w0, rend1 c q w0 = rend2 c q w0) ->
  render_with ns_tpl template_engine rend1 v cq w =
  render_with ns_tpl template_engine rend2 v cq w.
Proof.
  intros H. unfold render_with.
  destruct (String.eqb _ _); [reflexivity|].
  destruct (negb _); [reflexivity|].
  destruct (_updateEl cq v w) as [[r0 v0] w0] eqn:E0.
  apply _updateEl_frame in E0 as (_ & _ & Hi0 & _).
  destruct r0; [|reflexivity].
  destruct (el_missing v0); [reflexivity|]. cbv zeta.
  destruct (approves _); [|reflexivity].
  match goal with
  | |- context [clear v0 ?x] =>
      pose proof (clear_height v0 x) as Hh; destruct (clear v0 x) as [[r1 v1] w3]
  end.
  simpl in Hh.
  destruct r1; [|reflexivity].
  destruct (invalid_template_data v1); [reflexivity|].
  destruct (template_engine _ _); [|reflexivity]. cbv zeta.
  rewrite (_renderItems_with_agree rend1 rend2); [reflexivity|].
  intros c Hc. apply H. rewrite Hh, (height_same_items v v0 Hi0) in Hc. exact Hc.
Qed.

Lemma render_fuel_enough f1 : forall f2 v cq w,
  height v < f1 -> height v < f2 ->
  render_fuel ns_tpl template_engine f1 v cq w = render_fuel ns_tpl template_engine f2 v cq w.
Proof.
  induction f1 as [|f1 IH]; intros f2 v cq w H1 H2; [lia|].
  destruct f2 as [|f2]; [lia|]. simpl.
  apply render_with_agree. intros c Hc q w0. apply IH; lia.
Qed.

(** [render] satisfies the equation of the method: the nested views are
    rendered by [render]. *)
Lemma render_eq v cq w :
  render ns_tpl template_engine v cq w =
  render_with ns_tpl template_engine (render ns_tpl template_engine) v cq w.
Proof.
  rewrite render_unfold. apply render_with_agree.
  intros c Hc q w0. unfold render. apply render_fuel_enough; lia.
Qed.

Lemma destroy_with_agree d1 d2 v w :
  (forall c, height c < height v -> forall w0, d1 c w0 = d2 c w0) ->
  destroy_with d1 v w = destroy_with d2 v w.
Proof.
  intros H. unfold destroy_with. cbv zeta.
  destruct (approves _); [|reflexivity].
  match goal with
  | |- context [clear v ?x] =>
      pose proof (clear_height v x) as Hh; destruct (clear v x) as [[r1 v1] w4]
  end.
  simpl in Hh. destruct r1; [|reflexivity].
  assert (He : destroyItems d1 v1 w4 = destroyItems d2 v1 w4).
  { unfold destroyItems. destruct (items v1) as [l|] eqn:Hi; [|reflexivity].
    rewrite (destroyLoop_agree d1 d2 l); [reflexivity|].
    intros c Hc. apply H. rewrite <- Hh. eapply height_items; eassumption. }
  rewrite He. reflexivity.
Qed.

Lemma destroy_fuel_enough f1 : forall f2 v w,
  height v < f1 -> height v < f2 -> destroy_fuel f1 v w = destroy_fuel f2 v w.
Proof.
  induction f1 as [|f1 IH]; intros f2 v w H1 H2; [lia|].
  destruct f2 as [|f2]; [lia|]. simpl.
  apply destroy_with_agree. intros c Hc w0. apply IH; lia.
Qed.

(** [destroy] satisfies the equation of the method. *)
Lemma destroy_eq v w : destroy v w = destroy_with destroy v w.
Proof.
  rewrite destroy_unfold. apply destroy_with_agree.
  intros c Hc w0. unfold destroy. apply destroy_fuel_enough; lia.
Qed.

End DepthBound.

(** ** The child lookup accessor *)

Section Lookup.
Variable ns_tpl : string -> option (list (string * JsVal)).
Variable ns_view : string -> option Ctor.
Variable template_engine : string -> JsVal -> Completion (list Node).

Lemma setTemplate_items t v : items (setTemplate ns_tpl t v) = items v.
Proof. unfold setTemplate. case_match; reflexivity. Qed.

Lemma clear_items_null v w r v' w' :
  items v = None -> clear v w = (r, v', w') -> items v' = None.
Proof.
  intros Hi. rewrite clear_unfold. cbv zeta. rewrite (eachItem_null _ _ _ _ _ Hi).
  intros H. cases; simpl; done.
Qed.

Lemma _renderItems_with_null rend v w :
  items v = None -> _renderItems_with rend v w = (Normal tt, v, w).
Proof. unfold _renderItems_with. intros ->. reflexivity. Qed.

Lemma render_with_items_null rend v cq w r v' w' :
  items v = None ->
  render_with ns_tpl template_engine rend v cq w = (r, v', w') ->
  items v' = None.
Proof.
  intros Hi H. unfold render_with in H.
  destruct (String.eqb _ _); [by simplify_eq|].
  destruct (negb _); [by simplify_eq|].
  destruct (_updateEl cq v w) as [[r0 v0] w0] eqn:E0.
  apply _updateEl_frame in E0 as (_ & _ & E0 & _). rewrite Hi in E0.
  destruct r0; [|by simplify_eq].
  destruct (el_missing v0); [by simplify_eq|]. cbv zeta in H.
  destruct (approves _); [|by simplify_eq].
  destruct (clear v0 _) as [[r1 v1] w1] eqn:E1.
  apply clear_items_null in E1; [|done].
  destruct r1; [|by simplify_eq].
  destruct (invalid_template_data v1); [by simplify_eq|].
  destruct (template_engine _ _); [|by simplify_eq]. cbv zeta in H.
  rewrite (_renderItems_with_null _ _ _ E1) in H. by simplify_eq.
Qed.

(** [init], with the three initializers run: the fields are those of a new
    instance, but for [_initEvents]. *)
Lemma init_unfold c declared w :
  init ns_tpl ns_view template_engine c declared w =
  let blank := MkView c VUndefined VUndefined None false None false ∅ ∅ None in
  let '(_, v0, w0) := _updateEl None blank w in
  let iface := CallMixin (className c) "iface" in
  let w1 := emit iface (emit iface (emit iface (emit iface w0))) in
  let v1 := MkView c (VStr "") VNull (Some "block") false None (_initEvents v0) ∅ ∅ None in
  let v2 := setTemplate ns_tpl (template c) v1 in
  let w2 := emit (CallMixin (className c) "observe") w1 in
  let w3 := trigger v2 "beforeinit" None w2 in
  let w4 := call_hook v2 "onBeforeInit" None w3 in
  let '(res, v3, w5) := _createItems ns_view declared v2 w4 in
  match res with
  | Throw e => (Throw e, w5)
  | Normal _ =>
      let w6 := call_hook v3 "onAfterInit" None w5 in
      let w7 := trigger v3 "init" None w6 in
      if autoRender c then
        let '(res', v4, w8) := render ns_tpl template_engine v3 None w7 in
        match res' with
        | Throw e => (Throw e, w8)
        | Normal _ => (Normal v4, w8)
        end
      else (Normal v3, w7)
  end.
Proof.
  unfold init. cbv zeta.
  destruct (_updateEl None _ w) as [[r0 v0] w0] eqn:E0.
  apply _updateEl_frame in E0 as (Hc & _ & Hi & _).
  unfold afterInit, initPublics, initPrivates, cls.
  cbn [cfg rendered el _initEvents items set_el set_rendered] in *.
  rewrite Hc, Hi. reflexivity.
Qed.

Lemma init_null_items c w v w' :
  init ns_tpl ns_view template_engine c CfgNull w = (Normal v, w') -> items v = None.
Proof.
  rewrite init_unfold. unfold _createItems. intros H. cases.
  - unfold render, render_fuel in *.
    eapply render_with_items_null; [|eassumption]. apply setTemplate_items.
  - apply setTemplate_items.
Qed.

(** C10: [getItem] with a number on a node constructed without declared
    items indexes into [null] and faults; once [items] is an array the
    call returns the nested view at that position, or [null]. *)
Theorem C10_getItem_number_on_null_items :
  (forall c w v w' n,
      init ns_tpl ns_view template_engine c CfgNull w = (Normal v, w') ->
      items v = None /\
      getItem (VNum n) v =
        Throw (TypeError ("Cannot read property '" +:+ pretty n +:+ "' of null"))) /\
  (forall v l n,
      items v = Some l ->
      getItem (VNum n) v =
        Normal (if (n <? 0)%Z then None else Instance <$> mjoin (l !! Z.to_nat n))).
Proof.
  split.
  - intros c w v w' n H. apply init_null_items in H.
    split; [exact H|]. unfold getItem; simpl. rewrite H. reflexivity.
  - intros v l n H. unfold getItem; simpl. rewrite H. reflexivity.
Qed.

End Lookup.

(** A root view without declared items: the lookup at position 0 faults;
    with one nested leaf it returns the leaf. *)
Lemma C10_getItem_number_on_null_items_witness :
  (let v := fst (Sample.make None default_hooks CfgNull Sample.start) in
   items v = None /\ is_normal (getItem (VNum 0) v) = false) /\
  (let v := fst (Sample.make None default_hooks (CfgStr "Leaf") Sample.start) in
   exists l, items v = Some l /\ length l = 1 /\
             getItem (VNum 0) v = Normal (Instance <$> mjoin (l !! 0))).
Proof.
  pose proof (C10_getItem_number_on_null_items Sample.templates Sample.views Sample.engine)
    as [H1 H2].
  split.
  - destruct (H1 (Sample.root_config None default_hooks) Sample.start
                (fst (Sample.make None default_hooks CfgNull Sample.start))
                (snd (Sample.make None default_hooks CfgNull Sample.start)) 0%Z)
      as [Ha Hb]; [reflexivity|].
    split; [exact Ha|]. rewrite Hb. reflexivity.
  - intros v.
    assert (Hl : items v = Some (default [] (items v))) by reflexivity.
    exists (default [] (items v)). split; [exact Hl|]. split; [reflexivity|].
    exact (H2 v _ 0%Z Hl).
Defined.

(** ** Placement of the nested views *)

Section Placement.
Variable rend : View -> option string -> World -> Outcome RenderResult.

(** A fault of the loop is the fault of a vacated slot or of the
    [render] of a nested view. *)
Lemma renderItemsLoop_fault auto l cs w f l' w' :
  renderItemsLoop rend auto l cs w = (Throw f, l', w') ->
  None ∈ l \/
  exists c q w1 c' w2, Some c ∈ l /\ rend c q w1 = (Throw f, c', w2).
Proof.
  revert cs w l' w'. induction l as [|s l IH]; intros cs w l' w' H; simpl in H.
  - discriminate.
  - destruct s as [c|]; [|left; constructor].
    destruct (if String.eqb _ _ then _ else _) as [innerId w1] eqn:E1.
    destruct (rend c _ _) as [[r c'] w3] eqn:E2.
    destruct r.
    + destruct (renderItemsLoop rend auto l _ w3) as [[r' l1] w4] eqn:E3.
      simplify_eq. apply IH in E3 as [Hn | (c0 & q & wa & c1 & wb & Hin & Hr)].
      * left. by constructor.
      * right. exists c0, q, wa, c1, wb. split; [by constructor | exact Hr].
    + simplify_eq. right. do 5 eexists. split; [constructor | exact E2].
Qed.

Lemma _renderItems_with_deficit v w its h :
  items v = Some its -> 0 < length its -> el v = Some h ->
  length (jq_find (document w) h (containerCls (cfg v))) < length its ->
  _renderItems_with rend v w = (Throw (not_enough_containers v (length its)), v, w).
Proof.
  intros Hi Hn He Hlt. unfold _renderItems_with. rewrite Hi, He.
  assert (Nat.ltb 0 (length its) = true) as -> by (apply Nat.ltb_lt; lia).
  assert (Nat.ltb (length (jq_find (document w) h (containerCls (cfg v)))) (length its) = true)
    as -> by (apply Nat.ltb_lt; lia).
  reflexivity.
Qed.

(** With at least one nested view, [_renderItems] throws an [Error]
    when the node's element holds fewer elements of the container class
    than there are nested views; with enough of them the nested views are
    rendered in order. *)
Lemma _renderItems_with_placement v w its h :
  items v = Some its -> 0 < length its -> el v = Some h ->
  let containers := jq_find (document w) h (containerCls (cfg v)) in
  (length containers < length its ->
     _renderItems_with rend v w = (Throw (not_enough_containers v (length its)), v, w)) /\
  (length its <= length containers ->
     (forall res its' w',
         renderItemsLoop rend (autoIncrementId (cfg v)) its containers w = (res, its', w') ->
         _renderItems_with rend v w = (res, set_items (Some its') v, w')) /\
     (forall f v' w',
         _renderItems_with rend v w = (Throw f, v', w') ->
         None ∈ its \/
         exists c q w1 c' w2, Some c ∈ its /\ rend c q w1 = (Throw f, c', w2))).
Proof.
  intros Hi Hn He containers.
  assert (Hpos : Nat.ltb 0 (length its) = true) by (apply Nat.ltb_lt; lia).
  split; [|intros Hle; split].
  - intros Hlt. by apply (_renderItems_with_deficit v w its h).
  - intros res its' w' Hloop. unfold _renderItems_with. rewrite Hi, Hpos, He.
    fold containers.
    assert (Nat.ltb (length containers) (length its) = false) as ->
      by (apply Nat.ltb_ge; lia).
    rewrite Hloop. reflexivity.
  - intros f v' w' H. unfold _renderItems_with in H. rewrite Hi, Hpos, He in H.
    fold containers in H.
    assert (Nat.ltb (length containers) (length its) = false) as Hge
      by (apply Nat.ltb_ge; lia).
    rewrite Hge in H.
    destruct (renderItemsLoop _ _ _ _ _) as [[r l1] w1] eqn:E.
    simplify_eq. eapply renderItemsLoop_fault; eassumption.
Qed.

End Placement.

Section PlacementInRender.
Variable ns_tpl : string -> option (list (string * JsVal)).
Variable template_engine : string -> JsVal -> Completion (list Node).

(** [render] up to the call of [_renderItems]: the configuration lets it
    start, [_updateEl] resolves the element, the before-hook approves,
    [clear] returns, and the templating engine accepts the template. *)
Lemma render_reaches_renderItems v cq w v0 w0 v1 w3 markup :
  elPath (cfg v) <> "" -> template_ok ns_tpl (cfg v) = true ->
  _updateEl cq v w = (Normal tt, v0, w0) -> el_missing v0 = false ->
  approves (onBeforeRender (hooks (cfg v))) = true ->
  clear v0 (call_hook v0 "onBeforeRender" None (trigger v0 "beforerender" None w0)) =
    (Normal tt, v1, w3) ->
  invalid_template_data v1 = false ->
  template_engine (js_to_string (_tpl v1)) (_templateData v1) = Normal markup ->
  render ns_tpl template_engine v cq w =
    let w4 := set_document (jq_append (document w3) (default [] (el v1)) markup) w3 in
    let '(res2, v2, w5) := _renderItems_with (render ns_tpl template_engine) v1 w4 in
    match res2 with
    | Throw e => (Throw e, v2, w5)
    | Normal _ =>
        let v3 := set_rendered true v2 in
        (Normal RetThis, v3, trigger v3 "render" None (call_hook v3 "onAfterRender" None w5))
    end.
Proof.
  intros Hp Ht E0 Hm Ha E1 Hinv Heng.
  rewrite render_eq. unfold render_with.
  apply String.eqb_neq in Hp. rewrite Hp, Ht. cbn [negb].
  pose proof (_updateEl_frame _ _ _ _ _ _ E0) as (Hc0 & _).
  rewrite E0, Hm. cbv zeta. rewrite Hc0, Ha, E1, Hinv, Heng. reflexivity.
Qed.

(** C6: in [render], once the markup of the template is in the
    element, with at least one nested view: when the element holds fewer
    elements of the container class than there are nested views, [render]
    itself ends with the thrown [Error] of [_renderItems].  Nothing is
    notified, no nested view is rendered, [rendered] is not set, and
    neither the after-hook nor ["render"] follow: the view and the world
    are those left by [clear] and the append.  With enough containers the
    check passes and [render] ends as the loop over the nested views ends;
    a fault of [render] can then only come from a vacated slot or from the
    [render] of a nested view. *)
Theorem C6_not_enough_containers_throws v cq w v0 w0 v1 w3 markup its :
  elPath (cfg v) <> "" -> template_ok ns_tpl (cfg v) = true ->
  _updateEl cq v w = (Normal tt, v0, w0) -> el_missing v0 = false ->
  approves (onBeforeRender (hooks (cfg v))) = true ->
  clear v0 (call_hook v0 "onBeforeRender" None (trigger v0 "beforerender" None w0)) =
    (Normal tt, v1, w3) ->
  invalid_template_data v1 = false ->
  template_engine (js_to_string (_tpl v1)) (_templateData v1) = Normal markup ->
  items v1 = Some its -> 0 < length its ->
  let rend := render ns_tpl template_engine in
  let h := default [] (el v1) in
  let w4 := set_document (jq_append (document w3) h markup) w3 in
  let containers := jq_find (document w4) h (containerCls (cfg v)) in
  (length containers < length its ->
     rend v cq w = (Throw (not_enough_containers v (length its)), v1, w4) /\
     log w4 = log w3) /\
  (length its <= length containers ->
     (forall res its' w5,
         renderItemsLoop rend (autoIncrementId (cfg v)) its containers w4 = (res, its', w5) ->
         rend v cq w =
           match res with
           | Throw f => (Throw f, set_items (Some its') v1, w5)
           | Normal _ =>
               let v3 := set_rendered true (set_items (Some its') v1) in
               (Normal RetThis, v3,
                trigger v3 "render" None (call_hook v3 "onAfterRender" None w5))
           end) /\
     (forall f v' w',
         rend v cq w = (Throw f, v', w') ->
         None ∈ its \/
         exists c q wa c' wb, Some c ∈ its /\ rend c q wa = (Throw f, c', wb))).
Proof.
  intros Hp Ht E0 Hm Ha E1 Hinv Heng Hi Hn rend h w4 containers.
  pose proof (render_reaches_renderItems v cq w v0 w0 v1 w3 markup
                Hp Ht E0 Hm Ha E1 Hinv Heng) as Hrender.
  cbv zeta in Hrender. fold rend h w4 in Hrender.
  pose proof (_updateEl_frame _ _ _ _ _ _ E0) as (Hc0 & _).
  pose proof (clear_frame _ _ _ _ _ E1) as (Hc1 & He1 & _).
  assert (Hc : cfg v1 = cfg v) by congruence.
  assert (He : el v1 = Some h).
  { unfold h. unfold el_missing in Hm. rewrite He1. destruct (el v0); [reflexivity|done]. }
  assert (Hpos : Nat.ltb 0 (length its) = true) by (apply Nat.ltb_lt; lia).
  assert (Hitems : _renderItems_with rend v1 w4 =
            if Nat.ltb (length containers) (length its) then
              (Throw (not_enough_containers v (length its)), v1, w4)
            else
              let '(res, its', w') :=
                renderItemsLoop rend (autoIncrementId (cfg v)) its containers w4 in
              (res, set_items (Some its') v1, w')).
  { unfold _renderItems_with. rewrite Hi, Hpos, He, Hc.
    unfold not_enough_containers, cls. rewrite Hc. reflexivity. }
  rewrite Hitems in Hrender. clear Hitems.
  split; [|intros Hle; split].
  - intros Hlt. apply Nat.ltb_lt in Hlt. rewrite Hlt in Hrender. split; [exact Hrender|reflexivity].
  - intros res its' w5 Hloop. apply Nat.ltb_ge in Hle. rewrite Hle, Hloop in Hrender.
    rewrite Hrender. destruct res; reflexivity.
  - intros f v' w' H. apply Nat.ltb_ge in Hle. rewrite Hle in Hrender.
    destruct (renderItemsLoop _ _ _ _ _) as [[r l1] w1] eqn:E.
    rewrite Hrender in H. destruct r; [discriminate|]. simplify_eq.
    eapply renderItemsLoop_fault; eassumption.
Qed.

End PlacementInRender.

(** Two declared leaves: with the template of one container [render]
    faults after the before-hook; with the template of two containers a
    fault could only come from a leaf. *)
Lemma C6_not_enough_containers_throws_witness :
  let rend := render Sample.templates Sample.engine in
  let leaves := CfgArr [VStr "Leaf"; VStr "Leaf"] in
  let one := Sample.make (Some "One") default_hooks leaves Sample.start in
  let two := Sample.make (Some "Two") default_hooks leaves Sample.start in
  (exists v1 w4,
      rend (fst one) None (snd one) = (Throw (not_enough_containers (fst one) 2), v1, w4) /\
      rendered v1 = false /\ last (log w4) = Some (Hook "Root" "onBeforeRender" None)) /\
  (forall f v' w',
      rend (fst two) None (snd two) = (Throw f, v', w') ->
      None ∈ default [] (items (fst two)) \/
      exists c q wa c' wb,
        Some c ∈ default [] (items (fst two)) /\ rend c q wa = (Throw f, c', wb)).
Proof.
  intros rend leaves one two.
  split.
  - set (v := fst one). set (w := snd one).
    set (o0 := _updateEl None v w). set (v0 := snd (fst o0)).
    set (o1 := clear v0 (call_hook v0 "onBeforeRender" None
                           (trigger v0 "beforerender" None (snd o0)))).
    destruct (C6_not_enough_containers_throws Sample.templates Sample.engine
                v None w v0 (snd o0) (snd (fst o1)) (snd o1) (Sample.markup_of "p")
                (default [] (items v))) as [H _];
      try (vm_compute; reflexivity).
    + vm_compute. discriminate.
    + vm_compute. lia.
    + destruct H as [H _]; [vm_compute; lia|].
      do 2 eexists. split; [exact H|]. split; vm_compute; reflexivity.
  - set (v := fst two). set (w := snd two).
    set (o0 := _updateEl None v w). set (v0 := snd (fst o0)).
    set (o1 := clear v0 (call_hook v0 "onBeforeRender" None
                           (trigger v0 "beforerender" None (snd o0)))).
    destruct (C6_not_enough_containers_throws Sample.templates Sample.engine
                v None w v0 (snd o0) (snd (fst o1)) (snd o1) (Sample.markup_of "pp")
                (default [] (items v))) as [_ H];
      try (vm_compute; reflexivity).
    + vm_compute. discriminate.
    + vm_compute. lia.
    + destruct H as [_ H]; [vm_compute; lia|]. exact H.
Defined.

(** Two declared leaves and a template with a single container: the
    fault; nothing is rendered. *)
Example render_two_leaves_one_container :
  let '(v, w) :=
    Sample.make (Some "One") default_hooks (CfgArr [VStr "Leaf"; VStr "Leaf"]) Sample.start in
  let '(r, v', w') := render Sample.templates Sample.engine v None w in
  r = Throw (not_enough_containers v 2) /\ rendered v' = false /\
  Forall (fun s => exists c, s = Some c /\ rendered c = false) (default [] (items v')).
Proof.
  vm_compute. split; [reflexivity|]. split; [reflexivity|].
  repeat constructor; eexists; (split; [reflexivity|reflexivity]).
Qed.

(** ** Cancellation by a before-hook *)

Section Cancellation.
Variable ns_tpl : string -> option (list (string * JsVal)).
Variable template_engine : string -> JsVal -> Completion (list Node).

(** C4 (amended): when the before-hook of a transition is consulted and
    returns a value that is neither [undefined] nor [true], the call
    returns at once.  After the point at which the hook is consulted only
    the before-notification and the hook call are in the trace: no error,
    no after-hook, no completion notification.  [rendered], the nested
    views and the document are as before the call; for every transition
    but [render] the receiver and the world at the hook are those of the
    call, and [render] has only resolved its element before. *)
Theorem C4_vetoed_transition_is_noop t v w v0 w0 :
  approves (before_hook t (hooks (cfg v))) = false ->
  at_hook ns_tpl t v w = Some (v0, w0) ->
  perform ns_tpl template_engine t v w =
    (Normal (match t with TRender _ => Some RetThis | _ => None end), v0,
     call_hook v0 (before_hook_name t) (before_hook_arg t)
       (trigger v0 (before_event t) None w0)) /\
  rendered v0 = rendered v /\ items v0 = items v /\ document w0 = document w /\
  match t with
  | TRender cq => _updateEl cq v w = (Normal tt, v0, w0)
  | _ => v0 = v /\ w0 = w
  end.
Proof.
  intros Hv Hh. destruct t; simpl in Hv, Hh.
  - (* render *)
    destruct (String.eqb (elPath (cfg v)) "") eqn:E1; [discriminate|].
    destruct (negb (template_ok ns_tpl (cfg v))) eqn:E2; [discriminate|].
    destruct (_updateEl containerQuery v w) as [[r0 v1] w1] eqn:E3.
    destruct r0 as [[]|]; [|discriminate].
    destruct (el_missing v1) eqn:E4; [discriminate|]. simplify_eq.
    pose proof (_updateEl_frame _ _ _ _ _ _ E3) as (Hc & Hr & Hi & _ & _ & _ & Hd & _ & _).
    split; [|done].
    unfold perform. rewrite render_unfold. unfold render_with.
    rewrite E1, E2, E3, E4. cbv zeta. rewrite Hc, Hv. reflexivity.
  - destruct (rendered v) eqn:E; [|discriminate]. simplify_eq.
    split; [|done]. unfold perform. rewrite clear_unfold, E. cbv zeta.
    rewrite Hv. reflexivity.
  - destruct (rendered v) eqn:E; [|discriminate]. simplify_eq.
    split; [|done]. unfold perform. rewrite show_unfold, E. cbv zeta.
    rewrite Hv. reflexivity.
  - destruct (rendered v) eqn:E; [|discriminate]. simplify_eq.
    split; [|done]. unfold perform. rewrite hide_unfold, E. cbv zeta.
    rewrite Hv. reflexivity.
  - destruct (rendered v) eqn:E; [|discriminate]. simplify_eq.
    split; [|done]. unfold perform. rewrite disable_unfold, E. cbv zeta.
    rewrite Hv. reflexivity.
  - destruct (rendered v) eqn:E; [|discriminate]. simplify_eq.
    split; [|done]. unfold perform. rewrite enable_unfold, E. cbv zeta.
    rewrite Hv. reflexivity.
  - simplify_eq. split; [|done].
    unfold perform. rewrite destroy_unfold. unfold destroy_with. cbv zeta.
    rewrite Hv. reflexivity.
Qed.

End Cancellation.

(** C4, as stated, fails for [render] on an ambiguous anchor: the hook
    vetoes, and the call has yet notified an error. *)
Lemma C4_counterexample :
  let v := Sample.ambiguous (Sample.veto (TRender None)) in
  let '(r, v', w') := render Sample.templates Sample.engine v None Sample.start in
  approves (onBeforeRender (hooks (cfg v))) = false /\
  r = Normal RetThis /\
  log Sample.start = [] /\
  log w' = [Trigger "Dup" "error" (Some ("Found duplicate ids for view " +:+ quoted "Dup"));
            Trigger "Dup" "beforerender" None;
            Hook "Dup" "onBeforeRender" None].
Proof. vm_compute. repeat split. Qed.

(** A rendered view whose [onBeforeHide] returns [false]: [hide()] only
    notifies [beforehide] and consults the hook. *)
Lemma C4_vetoed_transition_is_noop_witness :
  let v := fst (Sample.rendered_root "Leaf" (Sample.veto THide) CfgNull) in
  let w := snd (Sample.rendered_root "Leaf" (Sample.veto THide) CfgNull) in
  rendered v = true /\
  perform Sample.templates Sample.engine THide v w =
    (Normal None, v, call_hook v "onBeforeHide" None (trigger v "beforehide" None w)).
Proof.
  intros v w. split; [reflexivity|].
  exact (proj1 (C4_vetoed_transition_is_noop Sample.templates Sample.engine
                  THide v w v w eq_refl eq_refl)).
Defined.

(** ** The result of render *)

Section RenderResults.
Variable ns_tpl : string -> option (list (string * JsVal)).
Variable ns_view : string -> option Ctor.
Variable template_engine : string -> JsVal -> Completion (list Node).

Lemma createLoop_frame l inst v w r v' w' :
  createLoop ns_view l inst v w = (r, v', w') ->
  cfg v' = cfg v /\ rendered v' = rendered v /\ el v' = el v /\ _tpl v' = _tpl v /\
  _templateData v' = _templateData v /\ _initEvents v' = _initEvents v /\ items v' = items v.
Proof.
  revert inst v w. induction l as [|item l IH]; intros inst v w H; simpl in H.
  - by simplify_eq.
  - destruct (isString item).
    + destruct (new_view _ _ _ _ _) as [[view|e] w1]; [|by simplify_eq].
      apply IH in H. simpl in H. exact H.
    + destruct (isObject item).
      * destruct (new_view _ _ _ _ _) as [[view|e] w1]; [|by simplify_eq].
        apply IH in H. simpl in H. exact H.
      * apply IH in H. exact H.
Qed.

(** The instance that [init] returns when it does not render. *)
Lemma init_fresh c declared w v w' :
  autoRender c = false ->
  init ns_tpl ns_view template_engine c declared w = (Normal v, w') ->
  cfg v = c /\ rendered v = false /\ el v = None /\ _templateData v = VNull /\
  _tpl v = match template_class ns_tpl c (template c) with
           | Some Tpl => prop Tpl (templateDataProp c)
           | None => VStr ""
           end.
Proof.
  intros Ha H. rewrite init_unfold in H. cbv zeta in H. rewrite Ha in H.
  destruct (_updateEl None _ w) as [[r0 v0] w0].
  cbv zeta in H.
  destruct (_createItems _ _ _ _) as [[r1 v3] w5] eqn:E.
  destruct r1; [|discriminate]. simplify_eq.
  unfold _createItems in E.
  set (v2 := setTemplate ns_tpl (template c) _) in *.
  assert (Hv2 : cfg v2 = c /\ rendered v2 = false /\ el v2 = None /\
                _templateData v2 = VNull /\
                _tpl v2 = match template_class ns_tpl c (template c) with
                          | Some Tpl => prop Tpl (templateDataProp c)
                          | None => VStr ""
                          end).
  { unfold v2, setTemplate. simpl. destruct (template_class _ _ _); done. }
  destruct declared; cbv beta iota zeta in E.
  - by simplify_eq.
  - destruct (createLoop _ _ _ _ _) as [[[inst|e] u] w1] eqn:E1; [|discriminate].
    simplify_eq. apply createLoop_frame in E1 as (Q1 & Q2 & Q3 & Q4 & Q5 & _).
    simpl. rewrite Q1, Q2, Q3, Q4, Q5. exact Hv2.
  - destruct (createLoop _ _ _ _ _) as [[[inst|e] u] w1] eqn:E1; [|discriminate].
    simplify_eq. apply createLoop_frame in E1 as (Q1 & Q2 & Q3 & Q4 & Q5 & _).
    simpl. rewrite Q1, Q2, Q3, Q4, Q5. exact Hv2.
Qed.

Lemma log_trigger v name msg w : log (trigger v name msg w) = log w ++ [Trigger (cls v) name msg].
Proof. reflexivity. Qed.

Lemma last_log_trigger v name msg w :
  last (log (trigger v name msg w)) = Some (Trigger (cls v) name msg).
Proof. simpl. apply last_snoc. Qed.

Lemma last_log_hook v name a w :
  last (log (call_hook v name a w)) = Some (Hook (cls v) name a).
Proof. simpl. apply last_snoc. Qed.

(** C1 (amended): a node configured with [template = null] (no template
    class is registered under that name), a concrete [elPath] that resolves
    to one element, constructed without rendering: [render()] does not
    succeed.  [rendered] stays [false] and nothing is inserted; when the
    before-hook approves the call notifies the error of an invalid template
    and returns [false]. *)
Theorem C1_null_template_render_fails c declared w0 v w e :
  template c = None ->
  template_class ns_tpl c None = None ->
  autoRender c = false ->
  init ns_tpl ns_view template_engine c declared w0 = (Normal v, w) ->
  elPath c <> "" -> elPath c <> autoIncrementId c ->
  jq (document w) (Some (elPath c)) = Normal [e] ->
  exists v' w',
    render ns_tpl template_engine v None w =
      (Normal (if approves (onBeforeRender (hooks c)) then RetFalse else RetThis), v', w') /\
    rendered v' = false /\ document w' = document w /\
    (approves (onBeforeRender (hooks c)) = true ->
     last (log w') =
       Some (Trigger (className c) "error"
               (Some ("Invalid template data in view: " +:+ quoted (className c))))).
Proof.
  intros Ht Hns Ha Hinit Hp Hauto Hjq.
  destruct (init_fresh _ _ _ _ _ Ha Hinit) as (Hc & Hr & He & _ & Htpl).
  rewrite Ht, Hns in Htpl.
  apply String.eqb_neq in Hp, Hauto.
  assert (Hu : exists w1, _updateEl None v w = (Normal tt, set_el (Some [e]) v, w1) /\
                          document w1 = document w).
  { unfold _updateEl, anchor_query, el_missing. rewrite He, Hc, Hauto, Hjq. simpl.
    destruct (_initEvents v); eexists; (split; reflexivity). }
  destruct Hu as (w1 & Hu & Hd).
  rewrite render_unfold. unfold render_with.
  rewrite Hc, Hp. unfold template_ok. rewrite Ht, Hu. cbv beta iota zeta.
  change (negb true) with false. cbv iota.
  change (el_missing (set_el (Some [e]) v)) with false.
  change (cfg (set_el (Some [e]) v)) with (cfg v). rewrite Hc. cbv iota.
  destruct (approves (onBeforeRender (hooks c))) eqn:Eh.
  - rewrite clear_not_rendered by exact Hr.
    unfold invalid_template_data.
    change (_tpl (set_el (Some [e]) v)) with (_tpl v). rewrite Htpl.
    do 2 eexists. split; [reflexivity|]. simpl.
    split; [exact Hr|]. split; [exact Hd|].
    intros _. unfold cls. simpl. rewrite Hc. apply last_snoc.
  - do 2 eexists. split; [reflexivity|]. simpl.
    split; [exact Hr|]. split; [exact Hd|]. discriminate.
Qed.

End RenderResults.

(** C1, as stated, fails on its own scenario: [template = null], no
    declared items, [elPath = "#root"] matching one element; [render()]
    returns [false] and [rendered] stays [false]. *)
Lemma C1_counterexample :
  let '(v, w) := Sample.make None default_hooks CfgNull Sample.start in
  template (cfg v) = None /\ items v = None /\ elPath (cfg v) = "#root" /\
  jq (document w) (Some "#root") = Normal [1] /\
  let '(r, v', w') := render Sample.templates Sample.engine v None w in
  r = Normal RetFalse /\ rendered v' = false.
Proof. vm_compute. repeat split. Qed.

Lemma C1_null_template_render_fails_witness :
  let v := fst (Sample.make None default_hooks CfgNull Sample.start) in
  let w := snd (Sample.make None default_hooks CfgNull Sample.start) in
  exists v' w',
    render Sample.templates Sample.engine v None w = (Normal RetFalse, v', w') /\
    rendered v' = false /\ document w' = document w.
Proof.
  intros v w.
  destruct (C1_null_template_render_fails Sample.templates Sample.views Sample.engine
              (Sample.root_config None default_hooks) CfgNull Sample.start v w 1
              eq_refl eq_refl eq_refl eq_refl ltac:(discriminate) ltac:(discriminate) eq_refl)
    as (v' & w' & H1 & H2 & H3 & _).
  exists v', w'. split; [exact H1|]. split; [exact H2|exact H3].
Defined.

Section RenderContract.
Variable ns_tpl : string -> option (list (string * JsVal)).
Variable template_engine : string -> JsVal -> Completion (list Node).

(** C2 (amended): when [render()] returns, it returns [false] only
    after notifying an error, and [this] in two cases: the render was
    completed ([rendered] is set and ["render"] was notified last), or
    [onBeforeRender] did not approve (the hook call is the last thing in
    the trace and [rendered] is as before). *)
Theorem C2_render_result v cq w r v' w' :
  render ns_tpl template_engine v cq w = (Normal r, v', w') ->
  match r with
  | RetFalse => exists msg, last (log w') = Some (Trigger (cls v) "error" (Some msg))
  | RetThis =>
      (approves (onBeforeRender (hooks (cfg v))) = true /\ rendered v' = true /\
       last (log w') = Some (Trigger (cls v) "render" None)) \/
      (approves (onBeforeRender (hooks (cfg v))) = false /\ rendered v' = rendered v /\
       last (log w') = Some (Hook (cls v) "onBeforeRender" None))
  end.
Proof.
  rewrite render_unfold. unfold render_with. intros H.
  destruct (String.eqb _ _).
  { simplify_eq. eexists. apply last_log_trigger. }
  destruct (negb _).
  { simplify_eq. eexists. apply last_log_trigger. }
  destruct (_updateEl cq v w) as [[r0 v0] w0] eqn:E0.
  apply _updateEl_frame in E0 as (Hc0 & Hr0 & _).
  assert (Hcls0 : cls v0 = cls v) by (unfold cls; congruence).
  destruct r0; [|discriminate].
  destruct (el_missing v0).
  { simplify_eq. rewrite <- Hcls0. eexists. apply last_log_trigger. }
  cbv zeta in H. rewrite Hc0 in H.
  destruct (approves (onBeforeRender (hooks (cfg v)))) eqn:Eh.
  2:{ simplify_eq. right. rewrite <- Hcls0. split; [done|]. split; [done|].
      apply last_log_hook. }
  destruct (clear v0 _) as [[r1 v1] w3] eqn:E1.
  apply clear_frame in E1 as (Hc1 & _).
  assert (Hcls1 : cls v1 = cls v) by (unfold cls; congruence).
  destruct r1; [|discriminate].
  destruct (invalid_template_data v1).
  { simplify_eq. rewrite <- Hcls1. eexists. apply last_log_trigger. }
  destruct (template_engine _ _).
  2:{ simplify_eq. rewrite <- Hcls1. eexists. apply last_log_trigger. }
  cbv zeta in H.
  destruct (_renderItems_with _ _ _) as [[r2 v2] w5] eqn:E2.
  apply _renderItems_with_frame in E2.
  destruct r2; [|discriminate]. simplify_eq.
  left. split; [done|]. split; [reflexivity|].
  rewrite last_log_trigger. unfold cls. simpl. rewrite E2. simpl. by rewrite Hc1, Hc0.
Qed.

End RenderContract.

(** C2, as stated, fails where [onBeforeRender] returns [false]: the
    render is aborted and [render()] returns [this]. *)
Lemma C2_counterexample :
  let '(v, w) := Sample.make (Some "Leaf") (Sample.veto (TRender None)) CfgNull Sample.start in
  let '(r, v', w') := render Sample.templates Sample.engine v None w in
  approves (onBeforeRender (hooks (cfg v))) = false /\
  r = Normal RetThis /\ r <> Normal RetFalse /\ rendered v' = false.
Proof. vm_compute. repeat split. discriminate. Qed.

Lemma C2_render_result_witness :
  let v := fst (Sample.make (Some "Leaf") default_hooks CfgNull Sample.start) in
  let w := snd (Sample.make (Some "Leaf") default_hooks CfgNull Sample.start) in
  let v' := snd (fst (render Sample.templates Sample.engine v None w)) in
  let w' := snd (render Sample.templates Sample.engine v None w) in
  rendered v' = true /\ last (log w') = Some (Trigger "Root" "render" None).
Proof.
  intros v w v' w'.
  destruct (C2_render_result Sample.templates Sample.engine v None w RetThis v' w' eq_refl)
    as [(_ & H1 & H2) | (H0 & _)].
  - split; [exact H1|exact H2].
  - discriminate H0.
Defined.

(** ** Failures of render *)

Section RenderFailures.
Variable ns_tpl : string -> option (list (string * JsVal)).
Variable template_engine : string -> JsVal -> Completion (list Node).

Lemma _updateEl_ambiguous v cq w h :
  el_missing v = true ->
  jq (document w) (anchor_query v cq) = Normal h -> 1 < length h ->
  _updateEl cq v w =
    (Normal tt, set_el (Some h) v,
     let w1 :=
       trigger v "error" (Some ("Found duplicate ids for view " +:+ quoted (cls v))) w in
     if _initEvents v then emit (DelegateEvents (cls v)) w1 else w1) /\
  el_missing (set_el (Some h) v) = false.
Proof.
  intros Hm Hq Hl. unfold _updateEl. rewrite Hm, Hq.
  destruct h as [|a [|b h]]; [simpl in Hl; lia | simpl in Hl; lia |]. simpl.
  split; [|reflexivity]. destruct (_initEvents v); reflexivity.
Qed.

Lemma _updateEl_resolved v q w h :
  el_missing v = false -> jq (document w) (Some q) = Normal h ->
  _updateEl (Some q) v w = (Normal tt, set_el (Some h) v, w).
Proof. intros Hm Hq. unfold _updateEl. rewrite Hm, Hq. reflexivity. Qed.

(** C3 (amended): whenever [render()] returns [false] it has notified
    an error last, and nothing after it.  When the failure is found before
    [_updateEl] (no [elPath], unknown template) the view and the rest of the
    world are untouched; when no element is found, the view is as
    [_updateEl] left it, with [rendered], the nested views and the document
    as before the call.  When the template or its data are rejected, or the
    templating engine raises, the view and the world are what [clear()]
    made of the view that [_updateEl] returned, in the world after
    ["beforerender"] and [onBeforeRender]: untouched if the node was not
    rendered, cleared otherwise.  An ambiguous anchor never makes [render]
    fail: while the element is unresolved [_updateEl] notifies it as an
    error, keeps all the matches and goes on; once the element is resolved,
    a container query with several matches replaces the element and nothing
    is notified. *)
Theorem C3_render_failure :
  (forall v cq w v' w',
      render ns_tpl template_engine v cq w = (Normal RetFalse, v', w') ->
      exists msg,
        last (log w') = Some (Trigger (cls v) "error" (Some msg)) /\
        ((v' = v /\ w' = trigger v "error" (Some msg) w /\ document w' = document w) \/
         (exists w0,
             _updateEl cq v w = (Normal tt, v', w0) /\ el_missing v' = true /\
             w' = trigger v' "error" (Some msg) w0 /\
             rendered v' = rendered v /\ items v' = items v /\ document w' = document w) \/
         (exists v0 w0 w1,
             _updateEl cq v w = (Normal tt, v0, w0) /\ el_missing v0 = false /\
             approves (onBeforeRender (hooks (cfg v))) = true /\
             clear v0 (call_hook v0 "onBeforeRender" None (trigger v0 "beforerender" None w0)) =
               (Normal tt, v', w1) /\
             w' = trigger v' "error" (Some msg) w1 /\
             (rendered v = false ->
              v' = v0 /\ rendered v' = false /\ items v' = items v /\
              document w' = document w)))) /\
  (forall v cq w h,
      1 < length h ->
      (el_missing v = true -> jq (document w) (anchor_query v cq) = Normal h ->
       _updateEl cq v w =
         (Normal tt, set_el (Some h) v,
          let w1 :=
            trigger v "error"
              (Some ("Found duplicate ids for view " +:+ quoted (cls v))) w in
          if _initEvents v then emit (DelegateEvents (cls v)) w1 else w1) /\
       el_missing (set_el (Some h) v) = false) /\
      (forall q,
          el_missing v = false -> jq (document w) (Some q) = Normal h ->
          _updateEl (Some q) v w = (Normal tt, set_el (Some h) v, w))).
Proof.
  split.
  2:{ intros v cq w h Hl. split.
      - intros Hm Hq. by apply _updateEl_ambiguous.
      - intros q Hm Hq. by apply _updateEl_resolved. }
  intros v cq w v' w'. rewrite render_unfold. unfold render_with. intros H.
  destruct (String.eqb _ _).
  { simplify_eq. eexists. split; [apply last_log_trigger | left; by repeat split]. }
  destruct (negb _).
  { simplify_eq. eexists. split; [apply last_log_trigger | left; by repeat split]. }
  destruct (_updateEl cq v w) as [[r0 v0] w0] eqn:E0.
  pose proof (_updateEl_frame _ _ _ _ _ _ E0) as (Hc0 & Hr0 & Hi0 & _ & _ & _ & Hd0 & _).
  assert (Hcls0 : cls v0 = cls v) by (unfold cls; congruence).
  destruct r0 as [[]|]; [|discriminate].
  destruct (el_missing v0) eqn:Em.
  { simplify_eq. rewrite <- Hcls0. eexists. split; [apply last_log_trigger |].
    right; left. exists w0. repeat split; done. }
  cbv zeta in H. rewrite Hc0 in H.
  destruct (approves (onBeforeRender (hooks (cfg v)))) eqn:Eh; [|discriminate].
  destruct (clear v0 _) as [[r1 v1] w3] eqn:E1.
  pose proof (clear_frame _ _ _ _ _ E1) as (Hc1 & _).
  assert (Hcls1 : cls v1 = cls v) by (unfold cls; congruence).
  destruct r1 as [[]|]; [|discriminate].
  assert (Hstate :
    rendered v = false ->
    v1 = v0 /\ rendered v1 = false /\ items v1 = items v /\ document w3 = document w).
  { intros Er. rewrite <- Hr0 in Er.
    rewrite clear_not_rendered in E1 by exact Er. simplify_eq.
    split; [reflexivity|]. split; [exact Er|]. split; [exact Hi0|exact Hd0]. }
  destruct (invalid_template_data v1).
  { simplify_eq. rewrite <- Hcls1. eexists. split; [apply last_log_trigger |].
    right; right. exists v0, w0, w3. repeat split; try done; by apply Hstate. }
  destruct (template_engine _ _).
  2:{ simplify_eq. rewrite <- Hcls1. eexists. split; [apply last_log_trigger |].
      right; right. exists v0, w0, w3. repeat split; try done; by apply Hstate. }
  cbv zeta in H.
  destruct (_renderItems_with _ _ _) as [[r2 v2] w5]. destruct r2; discriminate.
Qed.

End RenderFailures.

(** C3, as stated, fails for an invalid data mapping on a rendered
    node: the error is notified and [false] returned, but the node was
    cleared first, so [rendered] and the content of its element are not as
    before the call. *)
Lemma C3_counterexample :
  let '(v, w) := Sample.rendered_root "Leaf" default_hooks CfgNull in
  let '(r, v', w') :=
    render Sample.templates Sample.engine (setData (VNum 7) v) None w in
  rendered v = true /\ jq_children (document w) [1] = [4] /\
  r = Normal RetFalse /\ rendered v' = false /\ jq_children (document w') [1] = [].
Proof. vm_compute. repeat split. Qed.

(** The render of the template-less root fails before anything is
    changed; the unresolved view on the two [.dup] elements notifies the
    ambiguity; the resolved root, given the query [.dup], takes both
    elements and notifies nothing. *)
Lemma C3_render_failure_witness :
  (let v := fst (Sample.make None default_hooks CfgNull Sample.start) in
   let w := snd (Sample.make None default_hooks CfgNull Sample.start) in
   let v' := snd (fst (render Sample.templates Sample.engine v None w)) in
   let w' := snd (render Sample.templates Sample.engine v None w) in
   (exists msg, last (log w') = Some (Trigger "Root" "error" (Some msg))) /\
   rendered v' = false /\ document w' = document w) /\
  (let v := Sample.ambiguous default_hooks in
   _updateEl None v Sample.start =
     (Normal tt, set_el (Some [2; 3]) v,
      MkWorld Sample.page 0
        [Trigger "Dup" "error" (Some ("Found duplicate ids for view " +:+ quoted "Dup"))])) /\
  (let v := fst (Sample.rendered_root "Leaf" default_hooks CfgNull) in
   let w := snd (Sample.rendered_root "Leaf" default_hooks CfgNull) in
   el v = Some [1] /\ _updateEl (Some ".dup") v w = (Normal tt, set_el (Some [2; 3]) v, w)).
Proof.
  pose proof (C3_render_failure Sample.templates Sample.engine) as [H1 H2].
  split; [|split].
  - intros v w v' w'.
    destruct (H1 v None w v' w' eq_refl) as (msg & Hm & [(Ha & _ & Hd) | [Hb | Hb]]).
    + split; [by exists msg|]. split; [rewrite Ha; reflexivity|exact Hd].
    + destruct Hb as (w0 & _ & _ & _ & Hr & _ & Hd). split; [by exists msg|].
      split; [exact Hr|exact Hd].
    + destruct Hb as (v0 & w0 & w1 & _ & _ & _ & _ & _ & Hs). split; [by exists msg|].
      destruct (Hs eq_refl) as (_ & Hr & _ & Hd). split; [exact Hr|exact Hd].
  - intros v.
    exact (proj1 (proj1 (H2 v None Sample.start [2; 3] ltac:(simpl; lia)) eq_refl eq_refl)).
  - intros v w. split; [reflexivity|].
    exact (proj2 (H2 v None w [2; 3] ltac:(simpl; lia)) ".dup" eq_refl eq_refl).
Defined.


(** ** What the methods do to the world *)

(** A preorder on worlds that every primitive step respects is respected
    by every method. *)
Section WorldOrder.
Variable ns_tpl : string -> option (list (string * JsVal)).
Variable template_engine : string -> JsVal -> Completion (list Node).
Variable R : World -> World -> Prop.
Hypothesis R_refl : forall w, R w w.
Hypothesis R_trans : forall w1 w2 w3, R w1 w2 -> R w2 w3 -> R w1 w3.
Hypothesis R_emit : forall e w, R w (emit e w).
Hypothesis R_doc : forall d w, R w (set_document d w).
Hypothesis R_id : forall w, R w (snd (_id w)).

Local Ltac step :=
  first [ eassumption
        | apply R_refl
        | eapply R_trans; [|apply R_emit]
        | eapply R_trans; [|apply R_doc] ].

Lemma forItems_R m k f l w :
  Forall (fun s => forall c, s = Some c -> forall w0, R w0 (snd (f c w0))) l ->
  R w (snd (forItems m k f l w)).
Proof.
  intros Hl. revert w. induction Hl as [|s l Hs Hl IH]; intros w; simpl.
  - apply R_refl.
  - destruct s as [c|]; [|apply R_refl].
    specialize (Hs c eq_refl w).
    destruct (f c w) as [[r c'] w1]. simpl in Hs.
    destruct r; [|exact Hs].
    specialize (IH w1). destruct (forItems m k f l w1) as [[r' l'] w2].
    simpl in *. eapply R_trans; eassumption.
Qed.

Lemma eachItem_R m k f v w :
  (forall l, items v = Some l ->
             Forall (fun s => forall c, s = Some c -> forall w0, R w0 (snd (f c w0))) l) ->
  R w (snd (eachItem m k f v w)).
Proof.
  intros H. unfold eachItem. destruct (items v) as [l|]; [|apply R_refl].
  specialize (H l eq_refl). apply (forItems_R m k) with (w := w) in H.
  destruct (forItems m k f l w) as [[r l'] w']. exact H.
Qed.

Lemma clear_dom_R v w : R w (clear_dom v w).
Proof. unfold clear_dom. destruct (el v); [apply R_doc | apply R_refl]. Qed.

Lemma clear_R v : forall w, R w (snd (clear v w)).
Proof.
  induction v as [v IH] using View_nested_ind. intros w.
  rewrite clear_unfold. destruct (rendered v); [|apply R_refl]. cbv zeta.
  destruct (approves _); [|unfold trigger, call_hook; simpl; repeat step].
  pose proof (eachItem_R "clear" true clear v
                (call_hook v "onBeforeClear" None (trigger v "beforeclear" None w)) IH) as H.
  destruct (eachItem _ _ _ _ _) as [[r v1] w3]. simpl in H.
  assert (R w w3) by (eapply R_trans; [|exact H]; unfold trigger, call_hook; repeat step).
  destruct r; simpl; [|assumption].
  unfold trigger, call_hook. do 2 step. eapply R_trans; [eassumption|apply clear_dom_R].
Qed.

Lemma show_R v : forall w, R w (snd (show v w)).
Proof.
  induction v as [v IH] using View_nested_ind. intros w.
  rewrite show_unfold. destruct (rendered v); [|apply R_refl]. cbv zeta.
  destruct (approves _); [|unfold trigger, call_hook; simpl; repeat step].
  pose proof (eachItem_R "show" true show v
                (call_hook v "onBeforeShow" None (trigger v "beforeshow" None w)) IH) as H.
  destruct (eachItem _ _ _ _ _) as [[r v1] w3]. simpl in H.
  assert (R w w3) by (eapply R_trans; [|exact H]; unfold trigger, call_hook; repeat step).
  destruct r; simpl; [|assumption].
  destruct (el v1); simpl; [|assumption].
  unfold trigger, call_hook. repeat step.
Qed.

Lemma hide_R v : forall w, R w (snd (hide v w)).
Proof.
  induction v as [v IH] using View_nested_ind. intros w.
  rewrite hide_unfold. destruct (rendered v); [|apply R_refl]. cbv zeta.
  destruct (approves _); [|unfold trigger, call_hook; simpl; repeat step].
  pose proof (eachItem_R "hide" true hide v
                (call_hook v "onBeforeHide" None (trigger v "beforehide" None w)) IH) as H.
  destruct (eachItem _ _ _ _ _) as [[r v1] w3]. simpl in H.
  assert (R w w3) by (eapply R_trans; [|exact H]; unfold trigger, call_hook; repeat step).
  destruct r; simpl; [|assumption].
  destruct (el v1); simpl; [|assumption].
  unfold trigger, call_hook. repeat step.
Qed.

Lemma disable_R v : forall w, R w (snd (disable v w)).
Proof.
  induction v as [v IH] using View_nested_ind. intros w.
  rewrite disable_unfold. destruct (rendered v); [|apply R_refl]. cbv zeta.
  destruct (approves _); [|unfold trigger, call_hook; simpl; repeat step].
  pose proof (eachItem_R "disable" true disable v
                (call_hook v "onBeforeDisable" None (trigger v "beforedisable" None w)) IH)
    as H.
  destruct (eachItem _ _ _ _ _) as [[r v1] w3]. simpl in H.
  assert (R w w3) by (eapply R_trans; [|exact H]; unfold trigger, call_hook; repeat step).
  destruct r; simpl; [|assumption].
  unfold trigger, call_hook. repeat step.
Qed.

Lemma enable_R v : forall a w, R w (snd (enable a v w)).
Proof.
  induction v as [v IH] using View_nested_ind. intros a w.
  rewrite enable_unfold. destruct (rendered v); [|apply R_refl]. cbv zeta.
  destruct (approves _); [|unfold trigger, call_hook; simpl; repeat step].
  assert (IH' : forall l, items v = Some l ->
            Forall (fun s => forall c, s = Some c ->
                              forall w0, R w0 (snd (enable VUndefined c w0))) l).
  { intros l Hl. eapply Forall_impl; [exact (IH l Hl)|]. simpl. intros s Hs c Hc w0.
    exact (Hs c Hc VUndefined w0). }
  pose proof (eachItem_R "enable" true (enable VUndefined) v
                (call_hook v "onBeforeEnable" (Some a) (trigger v "beforeenable" None w)) IH')
    as H.
  destruct (eachItem _ _ _ _ _) as [[r v1] w3]. simpl in H.
  assert (R w w3) by (eapply R_trans; [|exact H]; unfold trigger, call_hook; repeat step).
  destruct r; simpl; [|assumption].
  unfold trigger, call_hook. repeat step.
Qed.

Lemma _updateEl_R cq v w : R w (snd (_updateEl cq v w)).
Proof.
  unfold _updateEl, trigger.
  repeat case_match; simplify_eq; simpl; repeat step.
Qed.

Lemma renderItemsLoop_R rend auto l :
  (forall c q w0, R w0 (snd (rend c q w0))) ->
  forall cs w, R w (snd (renderItemsLoop rend auto l cs w)).
Proof.
  intros Hrend. induction l as [|s l IH]; intros cs w; simpl.
  - apply R_refl.
  - destruct s as [c|]; [|apply R_refl].
    destruct (String.eqb _ _).
    + match goal with
      | |- context [rend c ?q ?x] =>
          pose proof (Hrend c q x) as Hc; destruct (rend c q x) as [[r c'] w3]
      end.
      simpl in Hc.
      assert (R w w3).
      { eapply R_trans; [|exact Hc]. eapply R_trans; [exact (R_id w)|apply R_doc]. }
      destruct r; simpl; [|assumption].
      specialize (IH (drop 1 cs) w3).
      destruct (renderItemsLoop rend auto l _ w3) as [[r' l'] w4]. simpl in *.
      eapply R_trans; eassumption.
    + match goal with
      | |- context [rend c ?q ?x] =>
          pose proof (Hrend c q x) as Hc; destruct (rend c q x) as [[r c'] w3]
      end.
      simpl in Hc.
      assert (R w w3) by (eapply R_trans; [|exact Hc]; step; apply R_refl).
      destruct r; simpl; [|assumption].
      specialize (IH (drop 1 cs) w3).
      destruct (renderItemsLoop rend auto l _ w3) as [[r' l'] w4]. simpl in *.
      eapply R_trans; eassumption.
Qed.

Lemma _renderItems_with_R rend v w :
  (forall c q w0, R w0 (snd (rend c q w0))) ->
  R w (snd (_renderItems_with rend v w)).
Proof.
  intros Hrend. unfold _renderItems_with.
  destruct (items v) as [its|]; [|apply R_refl].
  destruct (Nat.ltb 0 (length its)); [|apply R_refl].
  destruct (el v) as [h|]; [|apply R_refl].
  destruct (Nat.ltb _ _); [apply R_refl|].
  pose proof (renderItemsLoop_R rend (autoIncrementId (cfg v)) its Hrend
                (jq_find (document w) h (containerCls (cfg v))) w) as H.
  destruct (renderItemsLoop _ _ _ _ _) as [[r l'] w']. exact H.
Qed.

Lemma render_with_R rend v cq w :
  (forall c q w0, R w0 (snd (rend c q w0))) ->
  R w (snd (render_with ns_tpl template_engine rend v cq w)).
Proof.
  intros Hrend. unfold render_with.
  destruct (String.eqb _ _); [unfold trigger; simpl; step; apply R_refl|].
  destruct (negb _); [unfold trigger; simpl; step; apply R_refl|].
  pose proof (_updateEl_R cq v w) as H0.
  destruct (_updateEl cq v w) as [[r0 v0] w0]. simpl in H0.
  destruct r0; [|exact H0].
  destruct (el_missing v0); [unfold trigger; simpl; step; exact H0|]. cbv zeta.
  destruct (approves _); [|unfold trigger, call_hook; simpl; do 2 step; exact H0].
  match goal with
  | |- context [clear v0 ?x] =>
      pose proof (clear_R v0 x) as H1; destruct (clear v0 x) as [[r1 v1] w3]
  end.
  simpl in H1.
  assert (H3 : R w w3).
  { eapply R_trans; [|exact H1]. unfold trigger, call_hook. do 2 step. exact H0. }
  destruct r1; [|exact H3].
  destruct (invalid_template_data v1); [unfold trigger; simpl; step; exact H3|].
  destruct (template_engine _ _); [|unfold trigger; simpl; step; exact H3].
  cbv zeta.
  match goal with
  | |- context [_renderItems_with rend v1 ?x] =>
      pose proof (_renderItems_with_R rend v1 x Hrend) as H2;
      destruct (_renderItems_with rend v1 x) as [[r2 v2] w5]
  end.
  simpl in H2.
  assert (H5 : R w w5).
  { eapply R_trans; [|exact H2]. step. exact H3. }
  destruct r2; [|exact H5].
  unfold trigger, call_hook. simpl. do 2 step. exact H5.
Qed.

Lemma render_fuel_R fuel : forall v cq w, R w (snd (render_fuel ns_tpl template_engine fuel v cq w)).
Proof.
  induction fuel as [|fuel IH]; intros v cq w; simpl.
  - apply R_refl.
  - apply render_with_R. exact IH.
Qed.

Lemma destroy_with_R destr v w :
  (forall c w0, R w0 (snd (destr c w0))) ->
  R w (snd (destroy_with destr v w)).
Proof.
  intros Hd. unfold destroy_with. cbv zeta.
  destruct (approves _); [|unfold trigger, call_hook; simpl; repeat step].
  match goal with
  | |- context [clear v ?x] =>
      pose proof (clear_R v x) as H1; destruct (clear v x) as [[r1 v1] w4]
  end.
  simpl in H1.
  assert (H4 : R w w4).
  { eapply R_trans; [|exact H1]. unfold trigger, call_hook. repeat step. }
  destruct r1; [|exact H4].
  assert (He : R w4 (snd (eachItem "destroy" false destr v1 w4))).
  { apply eachItem_R. intros l _. apply Forall_forall. intros s _ c _ w0. apply Hd. }
  destruct (destroyItems_eachItem destr v1 w4) as (vm & im & ->).
  destruct (eachItem _ _ _ _ _) as [[r2 v2] w5]. simpl in He. cbn [fst snd].
  assert (H5 : R w w5) by (eapply R_trans; eassumption).
  destruct r2; [|exact H5].
  unfold trigger, call_hook. simpl. do 3 step. exact H5.
Qed.

Lemma destroy_fuel_R fuel : forall v w, R w (snd (destroy_fuel fuel v w)).
Proof.
  induction fuel as [|fuel IH]; intros v w; simpl.
  - apply R_refl.
  - apply destroy_with_R. exact IH.
Qed.

(** Every transition respects the preorder. *)
Lemma perform_R t v w : R w (snd (perform ns_tpl template_engine t v w)).
Proof.
  destruct t; simpl.
  - pose proof (render_fuel_R (S (height v)) v containerQuery w) as H.
    unfold render. destruct (render_fuel _ _ _ _ _ _) as [[r v'] w']. exact H.
  - pose proof (clear_R v w) as H. destruct (clear v w) as [[r v'] w']. exact H.
  - pose proof (show_R v w) as H. destruct (show v w) as [[r v'] w']. exact H.
  - pose proof (hide_R v w) as H. destruct (hide v w) as [[r v'] w']. exact H.
  - pose proof (disable_R v w) as H. destruct (disable v w) as [[r v'] w']. exact H.
  - pose proof (enable_R v cssPaths w) as H.
    destruct (enable cssPaths v w) as [[r v'] w']. exact H.
  - pose proof (destroy_fuel_R (S (height v)) v w) as H.
    unfold destroy. destruct (destroy_fuel _ _ _) as [[r v'] w']. exact H.
Qed.

End WorldOrder.

(** ** The identifier allocator *)

Section Allocator.
Variable ns_tpl : string -> option (list (string * JsVal)).
Variable template_engine : string -> JsVal -> Completion (list Node).

Lemma perform_counter t v w :
  (currentId w <= currentId (snd (perform ns_tpl template_engine t v w)))%N.
Proof.
  apply (perform_R ns_tpl template_engine (fun w w' => (currentId w <= currentId w')%N)).
  - intros; lia.
  - intros; lia.
  - intros; simpl; lia.
  - intros; simpl; lia.
  - intros; simpl; lia.
Qed.

Lemma render_counter v cq w :
  (currentId w <= currentId (snd (render ns_tpl template_engine v cq w)))%N.
Proof.
  pose proof (perform_counter (TRender cq) v w) as H. cbn [perform] in H.
  destruct (render ns_tpl template_engine v cq w) as [[r v'] w']. exact H.
Qed.

Lemma renderItemsLoop_counter auto l cs w :
  (currentId w <=
   currentId (snd (renderItemsLoop (render ns_tpl template_engine) auto l cs w)))%N.
Proof.
  apply (renderItemsLoop_R (fun w w' => (currentId w <= currentId w')%N)).
  - intros; lia.
  - intros; lia.
  - intros; simpl; lia.
  - intros; simpl; lia.
  - intros c q w0. apply render_counter.
Qed.

Lemma reached_counter w w' :
  reached ns_tpl template_engine w w' -> (currentId w <= currentId w')%N.
Proof.
  induction 1 as [|w1 t v _ IH|w1 _ IH].
  - lia.
  - pose proof (perform_counter t v w1). lia.
  - simpl. lia.
Qed.

Lemma _id_later w1 w2 :
  (currentId (snd (_id w1)) <= currentId w2)%N -> fst (_id w1) <> fst (_id w2).
Proof.
  intros Hr Heq. simpl in Hr. unfold _id in Heq. cbn [fst] in Heq.
  apply (inj (String.append "view-")) in Heq.
  apply (inj pretty) in Heq. lia.
Qed.

(** The loop after a prefix that returned goes on with the rest of the
    array, in the world and with the containers the prefix left. *)
Lemma renderItemsLoop_app rend auto l1 l2 cs w l1' w1 :
  renderItemsLoop rend auto l1 cs w = (Normal tt, l1', w1) ->
  renderItemsLoop rend auto (l1 ++ l2) cs w =
    let '(res, l2', w2) := renderItemsLoop rend auto l2 (drop (length l1) cs) w1 in
    (res, l1' ++ l2', w2).
Proof.
  revert cs w l1' w1. induction l1 as [|s l1 IH]; intros cs w l1' w1 H.
  - simpl in H. simplify_eq. simpl. rewrite drop_0.
    destruct (renderItemsLoop rend auto l2 cs w1) as [[r l] w2]. reflexivity.
  - destruct s as [c|]; [|simpl in H; discriminate].
    cbn [renderItemsLoop app] in *.
    destruct (if String.eqb _ _ then _ else _) as [innerId wa]. cbv zeta in *.
    destruct (rend c _ _) as [[r c'] w3].
    destruct r; [|discriminate].
    destruct (renderItemsLoop rend auto l1 (drop 1 cs) w3) as [[r1 l1''] w4] eqn:E.
    simplify_eq. rewrite (IH _ _ _ _ E). rewrite drop_drop. cbn [length].
    replace (1 + length l1) with (S (length l1)) by lia.
    destruct (renderItemsLoop rend auto l2 _ w1) as [[r2 l2'] w2]. reflexivity.
Qed.

(** C9: the allocator is one counter in the state shared by all
    instances; [_id] returns the prefix ["view-"] followed by the
    incremented counter.  No transition on any view, and no run of the
    loop of [_renderItems], lowers the counter, so an identifier returned
    once is never returned again by a call made in any later world,
    whatever transitions (a [destroy] of the node that holds it included)
    and allocations happen in between.  In the loop of [_renderItems], the
    nested view at a position whose [elPath] is the auto value is rendered
    into ["#"] followed by the identifier allocated in the world that the
    views before it left, and that identifier is the [id] set on its
    container; two such views of one array therefore never get the same
    identifier. *)
Theorem C9_identifiers_are_never_reused :
  let rend := render ns_tpl template_engine in
  (forall w,
      _id w = ("view-" +:+ pretty (currentId w + 1)%N,
               MkWorld (document w) (currentId w + 1) (log w))) /\
  (forall t v w, (currentId w <= currentId (snd (perform ns_tpl template_engine t v w)))%N) /\
  (forall auto l cs w, (currentId w <= currentId (snd (renderItemsLoop rend auto l cs w)))%N) /\
  (forall w1 w2,
      (currentId (snd (_id w1)) <= currentId w2)%N -> fst (_id w1) <> fst (_id w2)) /\
  (forall w1 w2,
      reached ns_tpl template_engine (snd (_id w1)) w2 -> fst (_id w1) <> fst (_id w2)) /\
  (forall auto l1 item l2 cs w l1' w1,
      renderItemsLoop rend auto l1 cs w = (Normal tt, l1', w1) ->
      elPath (cfg item) = auto ->
      renderItemsLoop rend auto (l1 ++ Some item :: l2) cs w =
        let id := fst (_id w1) in
        let w2 :=
          set_document
            (jq_attr_id (document (snd (_id w1))) (take 1 (drop (length l1) cs)) (Some id))
            (snd (_id w1)) in
        let '(res, item', w3) := rend item (Some ("#" +:+ id)) w2 in
        match res with
        | Throw e => (Throw e, l1' ++ Some item' :: l2, w3)
        | Normal _ =>
            let '(res', r', w4) :=
              renderItemsLoop rend auto l2 (drop (S (length l1)) cs) w3 in
            (res', l1' ++ Some item' :: r', w4)
        end) /\
  (forall auto l1 a l2 cs w l1' wa l2' wb,
      elPath (cfg a) = auto ->
      renderItemsLoop rend auto l1 cs w = (Normal tt, l1', wa) ->
      renderItemsLoop rend auto (l1 ++ Some a :: l2) cs w = (Normal tt, l2', wb) ->
      fst (_id wa) <> fst (_id wb)).
Proof.
  intros rend.
  assert (Hpos : forall auto l1 item l2 cs w l1' w1,
      renderItemsLoop rend auto l1 cs w = (Normal tt, l1', w1) ->
      elPath (cfg item) = auto ->
      renderItemsLoop rend auto (l1 ++ Some item :: l2) cs w =
        let id := fst (_id w1) in
        let w2 :=
          set_document
            (jq_attr_id (document (snd (_id w1))) (take 1 (drop (length l1) cs)) (Some id))
            (snd (_id w1)) in
        let '(res, item', w3) := rend item (Some ("#" +:+ id)) w2 in
        match res with
        | Throw e => (Throw e, l1' ++ Some item' :: l2, w3)
        | Normal _ =>
            let '(res', r', w4) :=
              renderItemsLoop rend auto l2 (drop (S (length l1)) cs) w3 in
            (res', l1' ++ Some item' :: r', w4)
        end).
  { intros auto l1 item l2 cs w l1' w1 H Ha.
    rewrite (renderItemsLoop_app rend auto l1 (Some item :: l2) cs w l1' w1 H).
    cbn [renderItemsLoop]. rewrite Ha, String.eqb_refl. cbv zeta.
    cbn [option_map]. unfold _id at 1. cbv zeta.
    destruct (rend item _ _) as [[r item'] w3].
    destruct r; [|reflexivity].
    rewrite drop_drop. replace (length l1 + 1) with (S (length l1)) by lia.
    destruct (renderItemsLoop rend auto l2 _ w3) as [[r2 l2'] w4]. reflexivity. }
  split; [reflexivity|]. split; [exact perform_counter|].
  split; [exact renderItemsLoop_counter|]. split; [exact _id_later|].
  split; [|split; [exact Hpos|]].
  - intros w1 w2 Hr. apply _id_later. by apply reached_counter.
  - intros auto l1 a l2 cs w l1' wa l2' wb Ha H1 H2.
    rewrite (Hpos auto l1 a l2 cs w l1' wa H1 Ha) in H2. cbv zeta in H2.
    apply _id_later.
    lazymatch type of H2 with
    | context [rend a ?q ?w2] =>
        pose proof (render_counter a q w2) as Hr; fold rend in Hr;
        destruct (rend a q w2) as [[r a'] w3]
    end.
    destruct r; [|discriminate]. cbn [snd] in Hr.
    lazymatch type of H2 with
    | context [renderItemsLoop rend auto l2 ?cs' w3] =>
        pose proof (renderItemsLoop_counter auto l2 cs' w3) as Hl; fold rend in Hl;
        destruct (renderItemsLoop rend auto l2 cs' w3) as [[r2 l2''] w4]
    end.
    simplify_eq. cbn [snd] in Hl. simpl in Hr. simpl. lia.
Qed.

End Allocator.

(** Two auto-positioned leaves of one root get [view-1] and [view-2];
    an identifier allocated before a render and a destroy of the tree is
    not the one allocated after them. *)
Lemma C9_identifiers_are_never_reused_witness :
  let rend := render Sample.templates Sample.engine in
  let its := default [] (items (Sample.with_leaves 2)) in
  let w := Sample.with_markup "pp" in
  let cs := jq_find (document w) [1] "innerContainer" in
  let wb := snd (renderItemsLoop rend "auto" (take 1 its) cs w) in
  let made :=
    Sample.make (Some "Two") default_hooks (CfgArr [VStr "Leaf"; VStr "Leaf"]) Sample.start in
  let w0 := snd made in
  let r := perform Sample.templates Sample.engine (TRender None) (fst made) (snd (_id w0)) in
  let w2 := snd (perform Sample.templates Sample.engine TDestroy (snd (fst r)) (snd r)) in
  (length its = 2 /\ fst (_id w) = "view-1" /\ fst (_id wb) = "view-2" /\
   fst (_id w) <> fst (_id wb)) /\
  (fst (_id w0) = "view-1" /\ fst (_id w2) = "view-4" /\ fst (_id w0) <> fst (_id w2)).
Proof.
  intros rend its w cs wb made w0 r w2.
  pose proof (C9_identifiers_are_never_reused Sample.templates Sample.engine)
    as (_ & _ & _ & _ & Hreached & _ & Hsiblings).
  split.
  - split; [reflexivity|]. split; [reflexivity|]. split; [vm_compute; reflexivity|].
    set (a := default Sample.unplaced (mjoin (its !! 0))).
    apply (Hsiblings "auto" [] a [] cs w [] w
             (snd (fst (renderItemsLoop rend "auto" (take 1 its) cs w))) wb).
    + reflexivity.
    + reflexivity.
    + vm_compute. reflexivity.
  - split; [reflexivity|]. split; [vm_compute; reflexivity|].
    apply Hreached. apply reached_call, reached_call, reached_now.
Defined.

(** A root view with two auto-positioned leaves and a template with two
    containers: the containers get the ids [view-1] and [view-2], and both
    leaves are rendered there. *)
Example render_two_auto_leaves :
  let '(v, w) :=
    Sample.make (Some "Two") default_hooks (CfgArr [VStr "Leaf"; VStr "Leaf"]) Sample.start in
  let '(r, v', w') := render Sample.templates Sample.engine v None w in
  r = Normal RetThis /\ rendered v' = true /\
  jq (document w') (Some "#view-1") = Normal [4] /\
  jq (document w') (Some "#view-2") = Normal [5] /\
  (fun c => (rendered c, el c)) <$> omap id (default [] (items v')) =
    [(true, Some [4]); (true, Some [5])].
Proof. vm_compute. repeat split. Qed.

(** ** Creation of the nested views *)

Section Creation.
Variable ns_view : string -> option Ctor.

Lemma createLoop_cons_well_formed item l inst v w :
  well_formed item = true ->
  createLoop ns_view (item :: l) inst v w =
  match new_view ns_view (cfg v) (item_class item) (item_config item) w with
  | (Throw e, w') => (Throw e, v, w')
  | (Normal view, w') =>
      createLoop ns_view l (inst ++ [Some view])
        (register (js_to_string item) view (length inst) v) w'
  end.
Proof.
  intros Hwf. simpl. destruct item; try discriminate; reflexivity.
Qed.

Lemma createLoop_cons_malformed item l inst v w :
  well_formed item = false ->
  createLoop ns_view (item :: l) inst v w =
  createLoop ns_view l inst v (trigger v "debug" (Some (debug_message v item)) w).
Proof.
  intros Hwf. simpl. destruct item; try discriminate; reflexivity.
Qed.

Lemma createLoop_app l1 l2 inst v w :
  createLoop ns_view (l1 ++ l2) inst v w =
  match createLoop ns_view l1 inst v w with
  | (Normal inst', v', w') => createLoop ns_view l2 inst' v' w'
  | (Throw e, v', w') => (Throw e, v', w')
  end.
Proof.
  revert inst v w. induction l1 as [|item l1 IH]; intros inst v w; [reflexivity|].
  rewrite <- app_comm_cons.
  destruct (well_formed item) eqn:Hwf.
  - rewrite !createLoop_cons_well_formed by exact Hwf.
    destruct (new_view _ _ _ _ _) as [[view|e] w1]; [apply IH|reflexivity].
  - rewrite !createLoop_cons_malformed by exact Hwf. apply IH.
Qed.

Lemma createLoop_constructible l : forall inst v w,
  constructible ns_view (cfg v) l ->
  exists new v' w' T,
    createLoop ns_view l inst v w = (Normal (inst ++ new), v', w') /\
    cfg v' = cfg v /\ log w' = log w ++ T /\
    Forall2 (instance_of ns_view (cfg v)) (filter (fun i => well_formed i = true) l) new /\
    forall item, item ∈ l -> well_formed item = false ->
                 Trigger (cls v) "debug" (Some (debug_message v item)) ∈ T.
Proof.
  induction l as [|item l IH]; intros inst v w Hc.
  - exists [], v, w, []. simpl. rewrite !app_nil_r.
    split; [reflexivity|]. split; [reflexivity|]. split; [reflexivity|].
    split; [constructor|]. intros item Hin. by apply elem_of_nil in Hin.
  - assert (Hc' : constructible ns_view (cfg v) l).
    { intros i Hi. apply Hc. by constructor. }
    destruct (well_formed item) eqn:Hwf.
    + rewrite createLoop_cons_well_formed by exact Hwf.
      destruct (Hc item ltac:(constructor) Hwf w) as (view & w1 & T1 & Hn & Hl1).
      rewrite Hn.
      destruct (IH (inst ++ [Some view]) (register (js_to_string item) view (length inst) v) w1 Hc')
        as (new & v' & w' & T & Hloop & Hcfg & Hlog & Hall & Hdbg).
      exists (Some view :: new), v', w', (T1 ++ T).
      rewrite Hloop, <- app_assoc. split; [reflexivity|]. split; [exact Hcfg|].
      split; [rewrite Hlog, Hl1, <- app_assoc; reflexivity|].
      split.
      * rewrite filter_cons_True by exact Hwf. constructor; [|exact Hall].
        exists view, w, w1. split; [reflexivity|exact Hn].
      * intros i Hi Hwfi. apply elem_of_cons in Hi as [->|Hi]; [congruence|].
        apply elem_of_app. right. exact (Hdbg i Hi Hwfi).
    + rewrite createLoop_cons_malformed by exact Hwf.
      destruct (IH inst v (trigger v "debug" (Some (debug_message v item)) w) Hc')
        as (new & v' & w' & T & Hloop & Hcfg & Hlog & Hall & Hdbg).
      exists new, v', w', (Trigger (cls v) "debug" (Some (debug_message v item)) :: T).
      split; [exact Hloop|]. split; [exact Hcfg|].
      split; [rewrite Hlog; simpl; rewrite <- app_assoc; reflexivity|].
      split.
      * rewrite filter_cons_False by (rewrite Hwf; discriminate). exact Hall.
      * intros i Hi Hwfi. apply elem_of_cons in Hi as [->|Hi]; [by constructor|].
        constructor. exact (Hdbg i Hi Hwfi).
Qed.

End Creation.

Section Materialization.
Variable ns_tpl : string -> option (list (string * JsVal)).
Variable ns_view : string -> option Ctor.
Variable template_engine : string -> JsVal -> Completion (list Node).

(** A class without declared items that does not render on
    construction always constructs. *)
Lemma init_without_items c w :
  autoRender c = false ->
  exists v w' T,
    init ns_tpl ns_view template_engine c CfgNull w = (Normal v, w') /\
    log w' = log w ++ T.
Proof.
  intros Ha. unfold init. rewrite Ha.
  destruct (_updateEl None _ w) as [[r0 v0] w0] eqn:E0.
  apply _updateEl_frame in E0 as (_ & _ & _ & _ & _ & _ & _ & _ & T & HT).
  simpl. do 3 eexists. split; [reflexivity|]. simpl. rewrite HT.
  rewrite <- !app_assoc. reflexivity.
Qed.

(** C8 (amended): an entry that is neither a string nor an object is
    skipped with a ["debug"] notification, and, when every string or object
    entry names a constructor that returns an instance, [items] becomes the
    array of the instances of those entries, in the order of declaration.
    An entry whose class does not resolve is not skipped: the
    instantiation faults, and [items] is not replaced. *)
Theorem C8_createItems_skips_malformed_entries :
  (forall l v w,
      constructible ns_view (cfg v) l ->
      exists its v' w' T,
        _createItems ns_view (CfgArr l) v w = (Normal tt, v', w') /\
        items v' = Some its /\
        Forall2 (instance_of ns_view (cfg v)) (filter (fun i => well_formed i = true) l) its /\
        log w' = log w ++ T /\
        forall item, item ∈ l -> well_formed item = false ->
                     Trigger (cls v) "debug" (Some (debug_message v item)) ∈ T) /\
  (forall pre item post v w,
      constructible ns_view (cfg v) pre ->
      well_formed item = true ->
      ns_view (viewNs (cfg v) +:+ "." +:+ item_class item) = None ->
      exists v' w',
        _createItems ns_view (CfgArr (pre ++ item :: post)) v w =
          (Throw (TypeError "undefined is not a constructor"), v', w') /\
        items v' = items v).
Proof.
  split.
  - intros l v w Hc. unfold _createItems.
    destruct (createLoop_constructible ns_view l [] v w Hc)
      as (new & v' & w' & T & Hloop & Hcfg & Hlog & Hall & Hdbg).
    rewrite Hloop. simpl.
    eexists new, _, w', T.
    split; [reflexivity|]. split; [reflexivity|]. split; [exact Hall|].
    split; [exact Hlog|exact Hdbg].
  - intros pre item post v w Hc Hwf Hns. unfold _createItems.
    rewrite createLoop_app.
    destruct (createLoop_constructible ns_view pre [] v w Hc)
      as (new & v' & w' & T & Hloop & Hcfg & _).
    rewrite Hloop. pose proof (createLoop_frame _ _ _ _ _ _ _ _ Hloop) as (_ & _ & _ & _ & _ & _ & Hi).
    rewrite createLoop_cons_well_formed by exact Hwf.
    unfold new_view. rewrite Hcfg, Hns.
    eexists _, w'. split; [reflexivity|exact Hi].
Qed.

End Materialization.

(** C8, as stated, fails for an entry whose class is not
    registered: the constructor of the root faults, nothing is skipped,
    and the leaf declared next to it is never created. *)
Lemma C8_counterexample :
  Sample.views "App.view.Missing" = None /\
  (exists c, Sample.views "App.view.Leaf" = Some c) /\
  let '(r, w') :=
    init Sample.templates Sample.views Sample.engine
      (Sample.root_config (Some "Two") default_hooks)
      (CfgArr [VStr "Missing"; VStr "Leaf"]) Sample.start in
  r = Throw (TypeError "undefined is not a constructor") /\
  log w' = [CallMixin "Root" "iface"; CallMixin "Root" "iface";
            CallMixin "Root" "iface"; CallMixin "Root" "iface";
            CallMixin "Root" "observe";
            Trigger "Root" "beforeinit" None; Hook "Root" "onBeforeInit" None].
Proof. vm_compute. split; [reflexivity|]. split; [eexists; reflexivity|]. split; reflexivity. Qed.

Lemma Sample_constructible :
  constructible Sample.views (Sample.root_config (Some "Two") default_hooks)
    [VStr "Leaf"; VNum 3; VStr "Leaf"].
Proof.
  intros item Hin Hwf w.
  assert (item = VStr "Leaf") as ->.
  { repeat (apply elem_of_cons in Hin as [->|Hin]); try reflexivity; try discriminate.
    by apply elem_of_nil in Hin. }
  unfold new_view. simpl.
  apply (init_without_items Sample.templates Sample.no_views Sample.engine Sample.leaf_config w).
  reflexivity.
Defined.

(** Two leaves around a number: the number is notified and skipped, the
    two leaves are created. *)
Lemma C8_createItems_skips_malformed_entries_witness :
  let made :=
    Sample.make (Some "Two") default_hooks (CfgArr []) Sample.start in
  exists its v' w' T,
    _createItems Sample.views (CfgArr [VStr "Leaf"; VNum 3; VStr "Leaf"]) (fst made) (snd made) =
      (Normal tt, v', w') /\
    items v' = Some its /\ length its = 2 /\
    log w' = log (snd made) ++ T /\
    Trigger "Root" "debug" (Some (debug_message (fst made) (VNum 3))) ∈ T.
Proof.
  intros made.
  destruct (proj1 (C8_createItems_skips_malformed_entries Sample.views)
              [VStr "Leaf"; VNum 3; VStr "Leaf"] (fst made) (snd made) Sample_constructible)
    as (its & v' & w' & T & H1 & H2 & H3 & H4 & H5).
  exists its, v', w', T.
  split; [exact H1|]. split; [exact H2|].
  split; [apply Forall2_length in H3; rewrite <- H3; reflexivity|].
  split; [exact H4|].
  apply (H5 (VNum 3)); [|reflexivity].
  apply elem_of_cons. right. apply elem_of_cons. left. reflexivity.
Defined.

(** ** Destruction *)

Section Destruction.

Lemma hole_free_unfold v :
  hole_free v =
  match items v with
  | None => true
  | Some l => forallb (fun s => match s with Some c => hole_free c | None => false end) l
  end.
Proof.
  destruct v as [c t d dc r e ie vm im its]; simpl.
  destruct its as [l|]; [|reflexivity].
  induction l as [|[c0|] l IH]; simpl; [reflexivity| |reflexivity].
  rewrite IH. reflexivity.
Qed.

(** The nested views of a tree without vacated slots. *)
Lemma hole_free_items v l :
  hole_free v = true -> items v = Some l ->
  Forall (fun s => exists c, s = Some c /\ hole_free c = true /\ height c < height v) l.
Proof.
  intros Hf Hi. rewrite hole_free_unfold, Hi in Hf. rewrite height_unfold, Hi.
  clear Hi. induction l as [|s l IH]; [constructor|].
  simpl in Hf. apply andb_true_iff in Hf as [Hs Hl].
  destruct s as [c|]; [|discriminate]. constructor.
  - exists c. split; [reflexivity|]. split; [exact Hs|].
    cbn [max_list_with from_option]. lia.
  - eapply Forall_impl; [exact (IH Hl)|]. cbv beta.
    intros s (c0 & -> & H1 & H2). exists c0. split; [reflexivity|]. split; [exact H1|].
    cbn [max_list_with from_option]. lia.
Qed.

(** A loop that keeps the slots, over nested views on each of which the
    call returns. *)
Lemma forItems_keep_normal (Q : View -> View -> Prop) m f l :
  Forall (fun s => exists c, s = Some c /\
                   forall w, exists c' w', f c w = (Normal tt, c', w') /\ Q c c') l ->
  forall w, exists l' w',
    forItems m true f l w = (Normal tt, l', w') /\
    Forall2 (fun s s' => exists c c', s = Some c /\ s' = Some c' /\ Q c c') l l'.
Proof.
  induction 1 as [|s l (c & -> & Hc) Hl IH]; intros w; simpl.
  - exists [], w. split; [reflexivity|constructor].
  - destruct (Hc w) as (c' & w1 & -> & HQ).
    destruct (IH w1) as (l' & w2 & -> & Hall).
    exists (Some c' :: l'), w2. split; [reflexivity|].
    constructor; [|exact Hall]. exists c, c'. done.
Qed.

Lemma same_tree_slots l l' :
  Forall2 (fun s s' => exists c c', s = Some c /\ s' = Some c' /\ same_tree c c') l l' ->
  forallb (fun s => match s with Some c => hole_free c | None => false end) l' = true /\
  max_list_with (from_option height 0) l' = max_list_with (from_option height 0) l /\
  cls <$> omap id l' = cls <$> omap id l.
Proof.
  induction 1 as [|s s' l l' (c & c' & -> & -> & Hf & Hh & Hc & _) _ (IH1 & IH2 & IH3)];
    [done|].
  split; [|split].
  - simpl. rewrite Hf, IH1. reflexivity.
  - cbn [max_list_with from_option]. rewrite Hh, IH2. reflexivity.
  - change (omap id (Some c' :: l')) with (c' :: omap id l').
    change (omap id (Some c :: l)) with (c :: omap id l).
    rewrite !fmap_cons, IH3. unfold cls. rewrite Hc. reflexivity.
Qed.

Lemma clear_hole_free v :
  hole_free v = true ->
  forall w, exists v' w', clear v w = (Normal tt, v', w') /\ same_tree v v'.
Proof.
  induction v as [v IH] using View_nested_ind. intros Hf w.
  assert (Hrefl : same_tree v v) by done.
  rewrite clear_unfold. destruct (rendered v); [|by exists v, w]. cbv zeta.
  destruct (approves _); [|by eexists v, _].
  unfold eachItem. destruct (items v) as [l|] eqn:Hi.
  - assert (Hl : Forall (fun s => exists c, s = Some c /\
                   forall w, exists c' w', clear c w = (Normal tt, c', w') /\ same_tree c c') l).
    { pose proof (hole_free_items v l Hf Hi) as Hl. specialize (IH l eq_refl).
      rewrite Forall_forall in IH, Hl. apply Forall_forall. intros s Hs.
      destruct (Hl s Hs) as (c & -> & Hc & _). exists c. split; [reflexivity|].
      exact (IH _ Hs c eq_refl Hc). }
    match goal with
    | |- context [forItems "clear" true clear l ?x] =>
        destruct (forItems_keep_normal same_tree "clear" clear l Hl x) as (l' & w' & -> & Hall)
    end.
    pose proof (Forall2_length _ _ _ Hall) as Hlen.
    apply same_tree_slots in Hall as (H1 & H2 & H3).
    do 2 eexists. split; [reflexivity|].
    unfold same_tree. rewrite hole_free_unfold, !height_unfold. unfold child_classes, children.
    simpl. rewrite Hi. simpl. rewrite H1, H2, H3, Hlen. done.
  - do 2 eexists. split; [reflexivity|].
    unfold same_tree. rewrite hole_free_unfold, !height_unfold. unfold child_classes, children.
    simpl. rewrite Hi. done.
Qed.

Lemma clear_log v w : exists T, log (snd (clear v w)) = log w ++ T.
Proof.
  apply (clear_R (fun w w' => exists T, log w' = log w ++ T)).
  - intros w0. exists []. by rewrite app_nil_r.
  - intros w1 w2 w3 [T1 H1] [T2 H2]. exists (T1 ++ T2). by rewrite H2, H1, app_assoc.
  - intros e w0. by exists [e].
  - intros d w0. exists []. simpl. by rewrite app_nil_r.
Qed.

(** The loop of [destroy]: every slot is vacated, and the traces of the
    nested calls follow each other in the order of the slots. *)
Lemma destroyLoop_trace destr l :
  Forall (fun s => exists c, s = Some c /\
            forall w, exists c' w' T,
              destr c w = (Normal tt, c', w') /\
              log w' = log w ++ Trigger (cls c) "beforedestroy" None :: T) l ->
  forall i vm im w, exists maps w' Ts,
    destroyLoop destr i l vm im w = (Normal tt, replicate (length l) None, maps, w') /\
    log w' = log w ++ concat Ts /\
    Forall2 (destroy_trace destr) (omap id l) Ts.
Proof.
  induction 1 as [|s l (c & -> & Hc) Hl IH]; intros i vm im w.
  - exists (vm, im), w, []. simpl. rewrite app_nil_r. split; [reflexivity|].
    split; [reflexivity|]. constructor.
  - cbn [destroyLoop]. destruct (Hc w) as (c' & w1 & T & E & Hlog). rewrite E.
    destruct (IH (S i) (release_in i c' vm) (release_in i c' im) w1)
      as (maps & w2 & Ts & -> & Hlog2 & Hall).
    exists maps, w2, ((Trigger (cls c) "beforedestroy" None :: T) :: Ts).
    split; [reflexivity|]. split.
    + rewrite Hlog2, Hlog. simpl. rewrite <- app_assoc. reflexivity.
    + cbn [omap]. constructor; [|exact Hall].
      split; [by eexists|]. exists w, c', w1. split; [exact E|exact Hlog].
Qed.

Lemma destroy_with_hole_free destr v w :
  hole_free v = true ->
  approves (onBeforeDestroy (hooks (cfg v))) = true ->
  (forall c, hole_free c = true -> height c < height v ->
             forall w0, exists c' w' T,
               destr c w0 = (Normal tt, c', w') /\
               log w' = log w0 ++ Trigger (cls c) "beforedestroy" None :: T) ->
  exists v1 w1 v' w5 Tclear Ts,
    clear v (destroy_start v w) = (Normal tt, v1, w1) /\
    log w1 = log w ++ destroy_prologue v ++ Tclear /\
    child_classes v1 = child_classes v /\
    destroyItems destr v1 w1 = (Normal tt, v', w5) /\
    log w5 = log w1 ++ concat Ts /\
    Forall2 (destroy_trace destr) (children v1) Ts /\
    destroy_with destr v w = (Normal tt, v', destroy_end v' w5) /\
    cls v' = cls v /\
    items v' = (fun l => replicate (length l) None) <$> items v.
Proof.
  intros Hf Ha Hd.
  destruct (clear_log v (destroy_start v w)) as [Tclear Hclear].
  destruct (clear_hole_free v Hf (destroy_start v w))
    as (v1 & w1 & Hc & Hf1 & Hh1 & Hcfg1 & Hcls1 & Hlen1).
  rewrite Hc in Hclear. cbn [snd] in Hclear.
  assert (Hloop : exists v' w5 Ts,
             destroyItems destr v1 w1 = (Normal tt, v', w5) /\
             log w5 = log w1 ++ concat Ts /\
             Forall2 (destroy_trace destr) (children v1) Ts /\
             cls v' = cls v1 /\
             items v' = (fun l => replicate (length l) None) <$> items v1).
  { unfold destroyItems, children. destruct (items v1) as [l1|] eqn:Hi1.
    - assert (Hl1 : Forall (fun s => exists c, s = Some c /\
                      forall w0, exists c' w' T,
                        destr c w0 = (Normal tt, c', w') /\
                        log w' = log w0 ++ Trigger (cls c) "beforedestroy" None :: T) l1).
      { pose proof (hole_free_items v1 l1 Hf1 Hi1) as H1.
        eapply Forall_impl; [exact H1|]. cbv beta.
        intros s (c & -> & H2 & H3). exists c. split; [reflexivity|].
        apply Hd; [exact H2|lia]. }
      destruct (destroyLoop_trace destr l1 Hl1 0 (_viewMap v1) (_itemIdMap v1) w1)
        as (maps & w5 & Ts & -> & Hlog & Hall).
      eexists _, w5, Ts. split; [reflexivity|]. split; [exact Hlog|].
      split; [exact Hall|]. split; reflexivity.
    - exists v1, w1, []. split; [reflexivity|]. cbn [concat].
      split; [by rewrite app_nil_r|]. split; [constructor|].
      split; [reflexivity|by rewrite Hi1]. }
  destruct Hloop as (v' & w5 & Ts & Hdi & Hlog5 & Hall & Hcls & Hitems).
  exists v1, w1, v', w5, Tclear, Ts.
  split; [exact Hc|]. split.
  { rewrite Hclear. unfold destroy_start, destroy_prologue. simpl.
    rewrite <- !app_assoc. reflexivity. }
  split; [exact Hcls1|]. split; [exact Hdi|]. split; [exact Hlog5|].
  split; [exact Hall|]. split.
  { unfold destroy_with. cbv zeta. rewrite Ha.
    change (emit (CallMixin (cls v) "observe")
              (call_hook v "onBeforeDestroy" None (trigger v "beforedestroy" None w)))
      with (destroy_start v w).
    rewrite Hc. cbv beta iota. rewrite Hdi. reflexivity. }
  split; [rewrite Hcls; unfold cls; by rewrite Hcfg1|].
  rewrite Hitems. destruct (items v1) as [l1|], (items v) as [l|]; simplify_eq; [|done].
  simpl in Hlen1. simplify_eq. cbn. by rewrite Hlen1.
Qed.

Lemma destroy_fuel_hole_free fuel : forall v w,
  height v < fuel -> hole_free v = true ->
  exists v' w' T,
    destroy_fuel fuel v w = (Normal tt, v', w') /\
    log w' = log w ++ Trigger (cls v) "beforedestroy" None :: T.
Proof.
  induction fuel as [|fuel IH]; intros v w Hh Hf; [lia|].
  change (destroy_fuel (S fuel) v w) with (destroy_with (destroy_fuel fuel) v w).
  destruct (approves (onBeforeDestroy (hooks (cfg v)))) eqn:Ha.
  - destruct (destroy_with_hole_free (destroy_fuel fuel) v w Hf Ha)
      as (v1 & w1 & v' & w5 & Tclear & Ts & _ & Hlog1 & _ & _ & Hlog5 & _ & Hd & _).
    { intros c Hc Hlt w0. apply IH; [lia|exact Hc]. }
    eexists v', _, _. split; [exact Hd|].
    unfold destroy_end. cbn [log emit trigger call_hook]. rewrite Hlog5, Hlog1.
    unfold destroy_prologue. simpl. rewrite <- !app_assoc. reflexivity.
  - unfold destroy_with. cbv zeta. rewrite Ha.
    do 3 eexists. split; [reflexivity|]. simpl. rewrite <- app_assoc. reflexivity.
Qed.

(** C5 (amended): on a tree without vacated slots, an approved
    [destroy()] returns, and runs in this order.  After the
    before-notification, the hook and the detaching of the observers
    ([destroy_start]) comes [clear()], which returns [v1]; then the loop of
    [destroy()] over the nested views of [v1], which are those of [v] in
    the order of declaration: its trace is the traces of their
    [destroy()], one after the other; and only then ([destroy_end]) the
    unbinding of the node's own events, the after-hook and the ["destroy"]
    notification.  The [items] array keeps its length, every slot of it is
    vacated. *)
Theorem C5_destroy_children_first v w :
  hole_free v = true ->
  approves (onBeforeDestroy (hooks (cfg v))) = true ->
  exists v1 w1 v' w5 Tclear Ts,
    clear v (destroy_start v w) = (Normal tt, v1, w1) /\
    log w1 = log w ++ destroy_prologue v ++ Tclear /\
    child_classes v1 = child_classes v /\
    destroyItems destroy v1 w1 = (Normal tt, v', w5) /\
    log w5 = log w1 ++ concat Ts /\
    Forall2 (destroy_trace destroy) (children v1) Ts /\
    destroy v w = (Normal tt, v', destroy_end v' w5) /\
    log (destroy_end v' w5) =
      log w ++ destroy_prologue v ++ Tclear ++ concat Ts ++ destroy_epilogue v /\
    items v' = (fun l => replicate (length l) None) <$> items v.
Proof.
  intros Hf Ha.
  destruct (destroy_with_hole_free destroy v w Hf Ha)
    as (v1 & w1 & v' & w5 & Tclear & Ts & H1 & H2 & H3 & H4 & H5 & H6 & H7 & H8 & H9).
  { intros c Hc Hlt w0. apply destroy_fuel_hole_free; [lia|exact Hc]. }
  exists v1, w1, v', w5, Tclear, Ts.
  split; [exact H1|]. split; [exact H2|]. split; [exact H3|]. split; [exact H4|].
  split; [exact H5|]. split; [exact H6|]. split; [by rewrite destroy_eq|].
  split; [|exact H9].
  unfold destroy_end, destroy_epilogue. cbn [log emit trigger call_hook].
  rewrite H8, H5, H2, <- !app_assoc. reflexivity.
Qed.

End Destruction.

(** C5, as stated, fails on the [items] sequence: after the
    [destroy()] of a rendered root with two leaves the array still has two
    slots, both vacated. *)
Lemma C5_counterexample :
  let '(v, w) :=
    Sample.rendered_root "Two" default_hooks (CfgArr [VStr "Leaf"; VStr "Leaf"]) in
  let '(r, v', w') := destroy v w in
  approves (onBeforeDestroy (hooks (cfg v))) = true /\
  r = Normal tt /\ items v' = Some [None; None] /\
  length <$> items v' = Some 2 /\ items v' <> Some [].
Proof. vm_compute. repeat split. discriminate. Qed.

(** A rendered root with two leaves: [clear] unrenders it, then the two
    leaves are destroyed in turn, then the root unbinds. *)
Lemma C5_destroy_children_first_witness :
  let v := fst (Sample.rendered_root "Two" default_hooks (CfgArr [VStr "Leaf"; VStr "Leaf"])) in
  let w := snd (Sample.rendered_root "Two" default_hooks (CfgArr [VStr "Leaf"; VStr "Leaf"])) in
  exists v1 w1 v' w5 T1 T2,
    clear v (destroy_start v w) = (Normal tt, v1, w1) /\
    destroyItems destroy v1 w1 = (Normal tt, v', w5) /\
    log w5 =
      log w1 ++ (Trigger "Leaf" "beforedestroy" None :: T1) ++
      (Trigger "Leaf" "beforedestroy" None :: T2) /\
    destroy v w = (Normal tt, v', destroy_end v' w5) /\
    items v' = Some [None; None].
Proof.
  intros v w.
  assert (Hf : hole_free v = true) by (vm_compute; reflexivity).
  assert (Ha : approves (onBeforeDestroy (hooks (cfg v))) = true) by (vm_compute; reflexivity).
  assert (Hi : (fun l => replicate (length l) (@None View)) <$> items v = Some [None; None])
    by (vm_compute; reflexivity).
  assert (Hc : child_classes v = ["Leaf"; "Leaf"]) by (vm_compute; reflexivity).
  destruct (C5_destroy_children_first v w Hf Ha)
    as (v1 & w1 & v' & w5 & Tclear & Ts & H1 & H2 & H3 & H4 & H5 & H6 & H7 & H8 & H9).
  rewrite Hi in H9. clearbody v w. rewrite <- H3 in Hc. unfold child_classes in Hc.
  destruct (children v1) as [|a [|b [|c r]]]; try discriminate.
  injection Hc as Ha1 Hb1.
  apply Forall2_cons_inv_l in H6 as (Ta & Ts' & ((T1 & ->) & _) & H6 & ->).
  apply Forall2_cons_inv_l in H6 as (Tb & Ts'' & ((T2 & ->) & _) & H6 & ->).
  apply Forall2_nil_inv_l in H6 as ->.
  exists v1, w1, v', w5, T1, T2.
  split; [exact H1|]. split; [exact H4|]. split.
  { rewrite H5, Ha1, Hb1. cbn [concat]. rewrite app_nil_r. reflexivity. }
  split; [exact H7|exact H9].
Defined.

(** ** The display property *)


Section Display.

Lemma update_in_display_nid h s n : nid (update_in h (set_display s) n) = nid n.
Proof. destruct n; simpl. destruct (mem_nat _ _); reflexivity. Qed.

Lemma update_in_display h s n :
  display (update_in h (set_display s) n) = if mem_nat (nid n) h then s else display n.
Proof. destruct n; simpl. destruct (mem_nat _ _); reflexivity. Qed.

Lemma update_in_display_kids h s n :
  kids (update_in h (set_display s) n) = map (update_in h (set_display s)) (kids n).
Proof. destruct n; simpl. destruct (mem_nat _ _); reflexivity. Qed.

Lemma flatten_unfold n : flatten n = n :: flat_map flatten (kids n).
Proof. destruct n; reflexivity. Qed.

Lemma flatten_update_in h s n :
  flatten (update_in h (set_display s) n) = map (update_in h (set_display s)) (flatten n).
Proof.
  induction n as [n IH] using Node_nested_ind.
  rewrite (flatten_unfold n), (flatten_unfold (update_in _ _ n)), update_in_display_kids.
  simpl. f_equal.
  induction IH as [|k ks Hk _ IHks]; simpl; [reflexivity|].
  rewrite Hk, IHks, map_app. reflexivity.
Qed.

Lemma flatten_all_update_all h s l :
  flatten_all (update_all h (set_display s) l) =
  map (update_in h (set_display s)) (flatten_all l).
Proof.
  unfold flatten_all, update_all. induction l as [|n l IH]; simpl; [reflexivity|].
  rewrite flatten_update_in, IH, map_app. reflexivity.
Qed.

Lemma head_filter_nid h s e l :
  head (filter (fun n => Nat.eqb (nid n) e) (map (update_in h (set_display s)) l)) =
  update_in h (set_display s) <$> head (filter (fun n => Nat.eqb (nid n) e) l).
Proof.
  induction l as [|n l IH]; simpl; [reflexivity|].
  rewrite !filter_cons, update_in_display_nid.
  destruct (decide _); simpl; [reflexivity|exact IH].
Qed.

(** Reading [display] at [e] after setting it on [h]. *)
Lemma css_get_set d h s e es :
  jq_css_get (jq_css_set d h (Some s)) (e :: es) =
  (fun x => if mem_nat e h then s else x) <$> jq_css_get d (e :: es).
Proof.
  unfold jq_css_get, jq_css_set. simpl roots.
  rewrite flatten_all_update_all, head_filter_nid.
  destruct (head _) as [n|] eqn:E; simpl; [|reflexivity].
  rewrite update_in_display. f_equal.
  apply head_Some in E as [l' E].
  assert (Hn : n ∈ filter (fun n => Nat.eqb (nid n) e) (flatten_all (roots d)))
    by (rewrite E; constructor).
  apply list_elem_of_filter in Hn as [Hn _].
  apply Is_true_true, Nat.eqb_eq in Hn. rewrite Hn. reflexivity.
Qed.

Lemma mem_nat_head e es : mem_nat e (e :: es) = true.
Proof. unfold mem_nat. simpl. rewrite Nat.eqb_refl. reflexivity. Qed.

End Display.

(** [hide] and [show] change the document only by setting [display] on
    the elements of the views of the tree. *)
Section DisplayOrder.
Variable R : World -> World -> Prop.
Variable p : Handle -> bool.
Hypothesis R_refl : forall w, R w w.
Hypothesis R_trans : forall w1 w2 w3, R w1 w2 -> R w2 w3 -> R w1 w3.
Hypothesis R_emit : forall e w, R w (emit e w).
Hypothesis R_css :
  forall h s w, p h = true -> R w (set_document (jq_css_set (document w) h s) w).

Lemma every_el_unfold v :
  every_el p v =
  match el v with Some h => p h | None => true end &&
  match items v with
  | None => true
  | Some l => forallb (fun s => match s with Some c => every_el p c | None => true end) l
  end.
Proof.
  destruct v as [c t d dc r e ie vm im its]; simpl. f_equal.
  destruct its as [l|]; [|reflexivity].
  induction l as [|[c0|] l IH]; simpl; [reflexivity| |exact IH].
  rewrite IH. reflexivity.
Qed.

Lemma every_el_items v l :
  every_el p v = true -> items v = Some l ->
  Forall (fun s => forall c, s = Some c -> every_el p c = true) l.
Proof.
  intros H Hi. rewrite every_el_unfold, Hi in H. apply andb_true_iff in H as [_ H].
  apply Forall_forall. intros s Hs c ->.
  rewrite forallb_forall in H. apply (H (Some c)). by apply list_elem_of_In.
Qed.

Lemma every_el_root v h : every_el p v = true -> el v = Some h -> p h = true.
Proof.
  intros H He. rewrite every_el_unfold, He in H. by apply andb_true_iff in H as [H _].
Qed.

Local Ltac step :=
  first [ eassumption | apply R_refl | eapply R_trans; [|apply R_emit] ].

Lemma nested_display (f : View -> World -> Outcome unit) m v w :
  (forall l, items v = Some l ->
     Forall (fun s => forall c, s = Some c -> every_el p c = true ->
                                forall w0, R w0 (snd (f c w0))) l) ->
  every_el p v = true ->
  R w (snd (eachItem m true f v w)).
Proof.
  intros IH Hp. apply eachItem_R; [exact R_refl|exact R_trans|].
  intros l Hl. specialize (IH l Hl). pose proof (every_el_items v l Hp Hl) as Hl'.
  rewrite Forall_forall in IH, Hl'. apply Forall_forall.
  intros s Hs c Hc w0. exact (IH s Hs c Hc (Hl' s Hs c Hc) w0).
Qed.

Lemma hide_display v : every_el p v = true -> forall w, R w (snd (hide v w)).
Proof.
  induction v as [v IH] using View_nested_ind. intros Hp w.
  rewrite hide_unfold. destruct (rendered v); [|apply R_refl]. cbv zeta.
  destruct (approves _); [|unfold trigger, call_hook; simpl; repeat step].
  pose proof (nested_display hide "hide" v
                (call_hook v "onBeforeHide" None (trigger v "beforehide" None w)) IH Hp) as H.
  destruct (eachItem _ _ _ _ _) as [[r v1] w3] eqn:E. simpl in H.
  assert (R w w3) by (eapply R_trans; [|exact H]; unfold trigger, call_hook; repeat step).
  destruct r; cbn [snd]; [|assumption].
  apply eachItem_shape in E.
  destruct (el v1) as [h|] eqn:He; cbn [snd]; [|assumption].
  unfold trigger, call_hook. do 2 step. eapply R_trans; [eassumption|].
  apply R_css. apply (every_el_root v h Hp). rewrite E in He. exact He.
Qed.

Lemma show_display v : every_el p v = true -> forall w, R w (snd (show v w)).
Proof.
  induction v as [v IH] using View_nested_ind. intros Hp w.
  rewrite show_unfold. destruct (rendered v); [|apply R_refl]. cbv zeta.
  destruct (approves _); [|unfold trigger, call_hook; simpl; repeat step].
  pose proof (nested_display show "show" v
                (call_hook v "onBeforeShow" None (trigger v "beforeshow" None w)) IH Hp) as H.
  destruct (eachItem _ _ _ _ _) as [[r v1] w3] eqn:E. simpl in H.
  assert (R w w3) by (eapply R_trans; [|exact H]; unfold trigger, call_hook; repeat step).
  destruct r; cbn [snd]; [|assumption].
  apply eachItem_shape in E.
  destruct (el v1) as [h|] eqn:He; cbn [snd]; [|assumption].
  unfold trigger, call_hook. do 2 step. eapply R_trans; [eassumption|].
  apply R_css. apply (every_el_root v h Hp). rewrite E in He. exact He.
Qed.

End DisplayOrder.

Section HideShow.

Lemma settled_unfold v :
  settled v =
  negb (rendered v) ||
  (match el v with Some _ => true | None => false end &&
   match items v with
   | None => true
   | Some l => forallb (fun s => match s with Some c => settled c | None => false end) l
   end).
Proof.
  destruct v as [c t d dc r e ie vm im its]; simpl. do 2 f_equal.
  destruct its as [l|]; [|reflexivity].
  induction l as [|[c0|] l IH]; simpl; [reflexivity| |reflexivity].
  rewrite IH. reflexivity.
Qed.

(** The nested views of a rendered, settled node. *)
Lemma settled_items v l :
  settled v = true -> rendered v = true -> items v = Some l ->
  Forall (fun s => exists c, s = Some c /\ settled c = true) l.
Proof.
  intros Hs Hr Hi. rewrite settled_unfold, Hr, Hi in Hs. simpl in Hs.
  apply andb_true_iff in Hs as [_ Hs]. rewrite forallb_forall in Hs.
  apply Forall_forall. intros s Hin. apply list_elem_of_In, Hs in Hin.
  destruct s as [c|]; [|discriminate]. by exists c.
Qed.

Lemma settled_el v : settled v = true -> rendered v = true -> exists h, el v = Some h.
Proof.
  intros Hs Hr. rewrite settled_unfold, Hr in Hs. simpl in Hs.
  apply andb_true_iff in Hs as [Hs _]. destruct (el v) as [h|]; [by exists h|discriminate].
Qed.

Lemma settled_slots (Q : View -> View -> Prop) l l' :
  (forall c c', Q c c' -> settled c' = true) ->
  Forall2 (fun s s' => exists c c', s = Some c /\ s' = Some c' /\ Q c c') l l' ->
  forallb (fun s => match s with Some c => settled c | None => false end) l' = true.
Proof.
  intros HQ. induction 1 as [|s s' k k' (c & c' & -> & -> & H) _ IH]; simpl; [done|].
  rewrite (HQ _ _ H), IH. reflexivity.
Qed.

Lemma hide_settled v :
  settled v = true ->
  forall w, exists v' w', hide v w = (Normal tt, v', w') /\ kept v v'.
Proof.
  induction v as [v IH] using View_nested_ind. intros Hs w.
  rewrite hide_unfold. destruct (rendered v) eqn:Hr; [|by exists v, w]. cbv zeta.
  destruct (approves _); [|by eexists v, _].
  destruct (settled_el v Hs Hr) as [h He].
  unfold eachItem. destruct (items v) as [l|] eqn:Hi.
  - assert (Hl : Forall (fun s => exists c, s = Some c /\
                   forall w, exists c' w', hide c w = (Normal tt, c', w') /\ kept c c') l).
    { pose proof (settled_items v l Hs Hr Hi) as Hl. specialize (IH l eq_refl).
      rewrite Forall_forall in IH, Hl. apply Forall_forall. intros s Hin.
      destruct (Hl s Hin) as (c & -> & Hc). exists c. split; [reflexivity|].
      exact (IH _ Hin c eq_refl Hc). }
    match goal with
    | |- context [forItems "hide" true hide l ?x] =>
        destruct (forItems_keep_normal kept "hide" hide l Hl x) as (l' & w' & -> & Hall)
    end.
    apply (settled_slots kept) in Hall; [|by intros c c' (H & _)].
    cbn [el set_items]. rewrite He.
    do 2 eexists. split; [reflexivity|].
    unfold kept. rewrite settled_unfold. cbn. rewrite He, Hall, Hr. done.
  - rewrite He. do 2 eexists. split; [reflexivity|].
    unfold kept. rewrite settled_unfold. cbn. rewrite He, Hi, Hr. done.
Qed.

Lemma show_settled v :
  settled v = true ->
  forall w, exists v' w', show v w = (Normal tt, v', w').
Proof.
  induction v as [v IH] using View_nested_ind. intros Hs w.
  rewrite show_unfold. destruct (rendered v) eqn:Hr; [|by exists v, w]. cbv zeta.
  destruct (approves _); [|by eexists v, _].
  destruct (settled_el v Hs Hr) as [h He].
  unfold eachItem. destruct (items v) as [l|] eqn:Hi.
  - assert (Hl : Forall (fun s => exists c, s = Some c /\
                   forall w, exists c' w', show c w = (Normal tt, c', w') /\ True) l).
    { pose proof (settled_items v l Hs Hr Hi) as Hl. specialize (IH l eq_refl).
      rewrite Forall_forall in IH, Hl. apply Forall_forall. intros s Hin.
      destruct (Hl s Hin) as (c & -> & Hc). exists c. split; [reflexivity|].
      intros w0. destruct (IH _ Hin c eq_refl Hc w0) as (c' & w' & H). by exists c', w'. }
    match goal with
    | |- context [forItems "show" true show l ?x] =>
        destruct (forItems_keep_normal (fun _ _ => True) "show" show l Hl x)
          as (l' & w' & -> & _)
    end.
    cbn [el set_items]. rewrite He. by do 2 eexists.
  - rewrite He. by do 2 eexists.
Qed.

Lemma every_el_any v : every_el (fun _ => true) v = true.
Proof.
  induction v as [v IH] using View_nested_ind.
  rewrite every_el_unfold.
  assert (match el v with Some _ => true | None => true end = true) as ->
    by (destruct (el v); reflexivity).
  destruct (items v) as [l|]; [|reflexivity]. specialize (IH l eq_refl).
  apply forallb_forall. intros [c|] Hin; [|reflexivity].
  rewrite Forall_forall in IH. apply (IH (Some c)); [by apply list_elem_of_In|reflexivity].
Qed.

End HideShow.

Section Restore.

Lemma document_set_document d w : document (set_document d w) = d.
Proof. reflexivity. Qed.

Lemma document_trigger v name msg w : document (trigger v name msg w) = document w.
Proof. reflexivity. Qed.

Lemma document_call_hook v name a w : document (call_hook v name a w) = document w.
Proof. reflexivity. Qed.

Lemma nested_hide_keeps_display e es v w :
  Forall (fun c => every_el (fun h => negb (mem_nat e h)) c = true) (children v) ->
  jq_css_get (document (snd (eachItem "hide" true hide v w))) (e :: es) =
  jq_css_get (document w) (e :: es).
Proof.
  intros Hap.
  apply (eachItem_R
           (fun w w' => jq_css_get (document w') (e :: es) = jq_css_get (document w) (e :: es))).
  - reflexivity.
  - intros w1 w2 w3 H1 H2. by rewrite H2.
  - intros l Hl. apply Forall_forall. intros s Hin c -> w0.
    apply (hide_display
             (fun w w' => jq_css_get (document w') (e :: es) = jq_css_get (document w) (e :: es))
             (fun h => negb (mem_nat e h))).
    + reflexivity.
    + intros w1 w2 w3 H1 H2. by rewrite H2.
    + reflexivity.
    + intros h [s|] w1 Hp; [|reflexivity]. rewrite document_set_document.
      rewrite css_get_set. apply negb_true_iff in Hp. rewrite Hp.
      by destruct (jq_css_get _ _).
    + rewrite Forall_forall in Hap. apply Hap.
      unfold children. rewrite Hl. simpl. apply list_elem_of_omap.
      exists (Some c). done.
Qed.

Lemma nested_show_keeps_element e es v w :
  is_Some (jq_css_get (document w) (e :: es)) ->
  is_Some (jq_css_get (document (snd (eachItem "show" true show v w))) (e :: es)).
Proof.
  apply (eachItem_R
           (fun w w' => is_Some (jq_css_get (document w) (e :: es)) ->
                        is_Some (jq_css_get (document w') (e :: es)))).
  - done.
  - intros w1 w2 w3 H1 H2 H. auto.
  - intros l Hl. apply Forall_forall. intros s Hin c -> w0.
    apply (show_display
             (fun w w' => is_Some (jq_css_get (document w) (e :: es)) ->
                          is_Some (jq_css_get (document w') (e :: es)))
             (fun _ => true)).
    + done.
    + intros w1 w2 w3 H1 H2 H. auto.
    + done.
    + intros h [s|] w1 _ H; [|exact H]. rewrite document_set_document.
      rewrite css_get_set. by apply fmap_is_Some.
    + apply every_el_any.
Qed.

(** C7 (amended): on a rendered node whose before-hooks approve, whose
    [show] and [hide] run to completion (below every rendered node of
    the tree there is an element and no vacated slot) and whose element is
    not the element of a nested view, [hide()] stores the current value of
    [display] and sets ["none"], and [show()] sets the stored value again,
    whatever that value is. *)
Theorem C7_hide_then_show_restores_display v w e es d :
  rendered v = true -> el v = Some (e :: es) ->
  approves (onBeforeHide (hooks (cfg v))) = true ->
  approves (onBeforeShow (hooks (cfg v))) = true ->
  settled v = true ->
  Forall (fun c => every_el (fun h => negb (mem_nat e h)) c = true) (children v) ->
  jq_css_get (document w) (e :: es) = Some d ->
  exists v1 w1 v2 w2,
    hide v w = (Normal tt, v1, w1) /\
    show v1 w1 = (Normal tt, v2, w2) /\
    jq_css_get (document w1) (e :: es) = Some "none" /\
    _displayCssValue v1 = Some d /\
    jq_css_get (document w2) (e :: es) = Some d.
Proof.
  intros Hr He Hh Hs Hset Hap Hd.
  destruct (hide_settled v Hset w) as (v1 & w1 & Hhide & Hset1 & Hr1 & He1 & Hc1).
  destruct (show_settled v1 Hset1 w1) as (v2 & w2 & Hshow).
  exists v1, w1, v2, w2. split; [exact Hhide|]. split; [exact Hshow|].
  rewrite hide_unfold, Hr in Hhide. cbv zeta in Hhide. rewrite Hh in Hhide.
  pose proof (nested_hide_keeps_display e es v
                (call_hook v "onBeforeHide" None (trigger v "beforehide" None w)) Hap) as Hk.
  destruct (eachItem "hide" true hide v _) as [[r u] w3] eqn:E.
  cbn [snd] in Hk. rewrite document_call_hook, document_trigger, Hd in Hk.
  apply eachItem_shape in E.
  assert (Heu : el u = Some (e :: es)) by (rewrite E; exact He).
  destruct r as [[]|]; [|discriminate]. rewrite Heu in Hhide.
  apply pair_equal_spec in Hhide as [Hhide Hw1].
  apply pair_equal_spec in Hhide as [_ Hv1]. subst v1 w1.
  assert (H1 : jq_css_get
                 (document (trigger (set_displayCssValue (jq_css_get (document w3) (e :: es)) u)
                    "hide" None
                    (call_hook (set_displayCssValue (jq_css_get (document w3) (e :: es)) u)
                       "onAfterHide" None
                       (set_document (jq_css_set (document w3) (e :: es) (Some "none")) w3))))
                 (e :: es) = Some "none").
  { rewrite document_trigger, document_call_hook, document_set_document.
    rewrite css_get_set, Hk, mem_nat_head. reflexivity. }
  split; [exact H1|]. split; [exact Hk|].
  rewrite show_unfold in Hshow. rewrite Hr1, Hr in Hshow. cbv zeta in Hshow.
  rewrite Hc1, Hs in Hshow.
  match type of Hshow with
  | context [eachItem "show" true show ?a ?b] =>
      pose proof (nested_show_keeps_element e es a b) as Hk2;
      destruct (eachItem "show" true show a b) as [[r' u'] w3'] eqn:E'
  end.
  apply eachItem_shape in E'.
  assert (Heu' : el u' = Some (e :: es)) by (rewrite E'; exact Heu).
  assert (Hdu' : _displayCssValue u' = Some d) by (rewrite E'; exact Hk).
  destruct r' as [[]|]; [|discriminate]. rewrite Heu', Hdu' in Hshow.
  apply pair_equal_spec in Hshow as [_ Hw2]. subst w2.
  rewrite document_trigger, document_call_hook, document_set_document.
  rewrite css_get_set, mem_nat_head.
  destruct Hk2 as [y Hy]; [rewrite document_call_hook, document_trigger, H1; by eexists|].
  cbn [snd] in Hy. rewrite Hy. reflexivity.
Qed.

End Restore.

(** C7, as stated, fails where [onBeforeHide] vetoes: [hide()] does
    nothing, and [show()] then sets the initial ["block"] on an element
    displayed as ["grid"]. *)
Lemma C7_counterexample :
  let '(v, w) := Sample.rendered_root "Leaf" (Sample.veto THide) CfgNull in
  let '(r1, v1, w1) := hide v w in
  let '(r2, v2, w2) := show v1 w1 in
  rendered v = true /\ el v = Some [1] /\
  jq_css_get (document w) [1] = Some "grid" /\
  r1 = Normal tt /\ r2 = Normal tt /\
  jq_css_get (document w2) [1] = Some "block".
Proof. vm_compute. repeat split. Qed.

(** A rendered root with two rendered leaves, displayed as ["grid"]. *)
Lemma C7_hide_then_show_restores_display_witness :
  let v := fst (Sample.rendered_root "Two" default_hooks (CfgArr [VStr "Leaf"; VStr "Leaf"])) in
  let w := snd (Sample.rendered_root "Two" default_hooks (CfgArr [VStr "Leaf"; VStr "Leaf"])) in
  exists v1 w1 v2 w2,
    hide v w = (Normal tt, v1, w1) /\
    show v1 w1 = (Normal tt, v2, w2) /\
    jq_css_get (document w1) [1] = Some "none" /\
    jq_css_get (document w2) [1] = Some "grid".
Proof.
  intros v w.
  assert (H1 : rendered v = true) by (vm_compute; reflexivity).
  assert (H2 : el v = Some [1]) by (vm_compute; reflexivity).
  assert (H3 : approves (onBeforeHide (hooks (cfg v))) = true) by (vm_compute; reflexivity).
  assert (H4 : approves (onBeforeShow (hooks (cfg v))) = true) by (vm_compute; reflexivity).
  assert (H5 : settled v = true) by (vm_compute; reflexivity).
  assert (H6 : Forall (fun c => every_el (fun h => negb (mem_nat 1 h)) c = true) (children v)).
  { apply Forall_forall. intros c Hc.
    assert (Hb : forallb (every_el (fun h => negb (mem_nat 1 h))) (children v) = true)
      by (vm_compute; reflexivity).
    rewrite forallb_forall in Hb. apply Hb. by apply list_elem_of_In. }
  assert (H7 : jq_css_get (document w) [1] = Some "grid") by (vm_compute; reflexivity).
  destruct (C7_hide_then_show_restores_display v w 1 [] "grid" H1 H2 H3 H4 H5 H6 H7)
    as (v1 & w1 & v2 & w2 & Ha & Hb & Hc & _ & Hd).
  exists v1, w1, v2, w2. split; [exact Ha|]. split; [exact Hb|]. split; [exact Hc|exact Hd].
Defined.

(** ** Further properties of the lifecycle

    What the methods do besides the above: which of them allocate, what a
    completed or a repeated call leaves, and how the calls compose. *)

Section Untouched.

(** X1: [_id] is called by [_renderItems] only: [clear], [show], [hide]
    and [destroy], on any tree and whatever they return, leave the static
    counter as it is. *)
Theorem only_render_allocates v w :
  currentId (snd (clear v w)) = currentId w /\
  currentId (snd (show v w)) = currentId w /\
  currentId (snd (hide v w)) = currentId w /\
  currentId (snd (destroy v w)) = currentId w.
Proof.
  set (R := fun w1 w2 : World => currentId w2 = currentId w1).
  assert (Hr : forall w0, R w0 w0) by reflexivity.
  assert (Ht : forall w1 w2 w3, R w1 w2 -> R w2 w3 -> R w1 w3).
  { unfold R. intros w1 w2 w3 H1 H2. rewrite H2. exact H1. }
  assert (He : forall e w0, R w0 (emit e w0)) by reflexivity.
  assert (Hd : forall d w0, R w0 (set_document d w0)) by reflexivity.
  repeat split.
  - exact (clear_R R Hr Ht He Hd v w).
  - exact (show_R R Hr Ht He Hd v w).
  - exact (hide_R R Hr Ht He Hd v w).
  - exact (destroy_fuel_R R Hr Ht He Hd _ v w).
Qed.

(** X2: [disable] and [enable] of the base class only notify and call
    hooks: on any tree, and whatever they return, the document and the
    static counter are the same after the call. *)
Theorem disable_enable_leave_document v w a :
  document (snd (disable v w)) = document w /\
  currentId (snd (disable v w)) = currentId w /\
  document (snd (enable a v w)) = document w /\
  currentId (snd (enable a v w)) = currentId w.
Proof.
  set (R := fun w1 w2 : World => document w2 = document w1 /\ currentId w2 = currentId w1).
  assert (Hr : forall w0, R w0 w0) by done.
  assert (Ht : forall w1 w2 w3, R w1 w2 -> R w2 w3 -> R w1 w3).
  { unfold R. intros w1 w2 w3 [H1 H1'] [H2 H2']. rewrite H2, H2'. done. }
  assert (He : forall e w0, R w0 (emit e w0)) by done.
  destruct (disable_R R Hr Ht He v w) as [D1 D2].
  destruct (enable_R R Hr Ht He v a w) as [E1 E2].
  done.
Qed.

End Untouched.

Section Allocation.
Variable ns_tpl : string -> option (list (string * JsVal)).
Variable template_engine : string -> JsVal -> Completion (list Node).

Lemma clear_counter v w : currentId (snd (clear v w)) = currentId w.
Proof.
  apply (clear_R (fun w1 w2 => currentId w2 = currentId w1)); try reflexivity.
  intros w1 w2 w3 H1 H2. rewrite H2. exact H1.
Qed.

(** The [render] of a view without nested views allocates nothing. *)
Lemma render_leaf_counter v cq w :
  items v = None ->
  currentId (snd (render ns_tpl template_engine v cq w)) = currentId w.
Proof.
  intros Hi. rewrite render_eq. unfold render_with.
  destruct (String.eqb _ _); [reflexivity|].
  destruct (negb _); [reflexivity|].
  destruct (_updateEl cq v w) as [[r0 v0] w0] eqn:E0.
  apply _updateEl_frame in E0 as (_ & _ & E0 & _ & _ & _ & _ & Ec & _).
  rewrite Hi in E0.
  destruct r0; [|exact Ec].
  destruct (el_missing v0); [exact Ec|]. cbv zeta.
  destruct (approves _); [|exact Ec].
  pose proof (clear_counter v0 (call_hook v0 "onBeforeRender" None
                                  (trigger v0 "beforerender" None w0))) as Hc.
  destruct (clear v0 _) as [[r1 v1] w1] eqn:E1.
  apply clear_items_null in E1; [|done]. cbn [snd] in Hc.
  assert (Hw1 : currentId w1 = currentId w) by (rewrite Hc; exact Ec).
  destruct r1; [|exact Hw1].
  destruct (invalid_template_data v1); [exact Hw1|].
  destruct (template_engine _ _); [|exact Hw1]. cbv zeta.
  rewrite (_renderItems_with_null _ _ _ E1). exact Hw1.
Qed.

Lemma renderItemsLoop_count auto l : forall cs w l' w',
  Forall (fun s => forall c, s = Some c -> items c = None) l ->
  renderItemsLoop (render ns_tpl template_engine) auto l cs w = (Normal tt, l', w') ->
  currentId w' = (currentId w + N.of_nat (count_auto auto l))%N.
Proof.
  induction l as [|s r IH]; intros cs w l' w' Hl H.
  - simpl in H. simplify_eq. simpl. lia.
  - apply Forall_cons in Hl as [Hs Hr].
    destruct s as [c|]; [|discriminate].
    cbn [renderItemsLoop count_auto] in H |- *.
    specialize (Hs c eq_refl).
    destruct (String.eqb (elPath (cfg c)) auto).
    + unfold _id in H. cbv zeta in H.
      lazymatch type of H with
      | context [render _ _ c ?q ?w0] =>
          pose proof (render_leaf_counter c q w0 Hs) as Hc;
          destruct (render ns_tpl template_engine c q w0) as [[res c'] w3]
      end.
      destruct res; [|discriminate].
      destruct (renderItemsLoop _ _ r _ w3) as [[res' r'] w4] eqn:E.
      simplify_eq. apply IH in E; [|exact Hr].
      rewrite E. cbn [snd] in Hc. rewrite Hc. simpl. lia.
    + cbv zeta in H.
      lazymatch type of H with
      | context [render _ _ c ?q ?w0] =>
          pose proof (render_leaf_counter c q w0 Hs) as Hc;
          destruct (render ns_tpl template_engine c q w0) as [[res c'] w3]
      end.
      destruct res; [|discriminate].
      destruct (renderItemsLoop _ _ r _ w3) as [[res' r'] w4] eqn:E.
      simplify_eq. apply IH in E; [|exact Hr].
      rewrite E. cbn [snd] in Hc. rewrite Hc. simpl. lia.
Qed.

(** X3: a [_renderItems] that returns, on a view whose nested views have
    no nested views of their own, has called [_id] once for every nested
    view whose [elPath] is the auto value of the parent, and for no
    other: the counter went up by their number. *)
Theorem renderItems_allocates_per_auto_item v w its v' w' :
  items v = Some its ->
  Forall (fun s => forall c, s = Some c -> items c = None) its ->
  _renderItems ns_tpl template_engine v w = (Normal tt, v', w') ->
  currentId w' = (currentId w + N.of_nat (count_auto (autoIncrementId (cfg v)) its))%N.
Proof.
  intros Hi Hl H. unfold _renderItems, _renderItems_with in H. rewrite Hi in H.
  cbv beta iota zeta in H.
  destruct (Nat.ltb 0 (length its)) eqn:En.
  - destruct (el v) as [h|]; [|discriminate].
    destruct (Nat.ltb (length (jq_find _ _ _)) _); [discriminate|].
    destruct (renderItemsLoop _ _ _ _ _) as [[res its'] w1] eqn:E.
    simplify_eq. eapply renderItemsLoop_count; eassumption.
  - simplify_eq. destruct its; [simpl; lia|simpl in En; discriminate].
Qed.

End Allocation.

(** Two auto leaves in a template with two containers: the counter goes from 0 to 2. *)
Lemma renderItems_allocates_per_auto_item_witness :
  let v := Sample.with_leaves 2 in
  let w := Sample.with_markup "pp" in
  let o := _renderItems Sample.templates Sample.engine v w in
  fst (fst o) = Normal tt /\ currentId w = 0%N /\ currentId (snd o) = 2%N.
Proof.
  cbv zeta.
  set (v := Sample.with_leaves 2). set (w := Sample.with_markup "pp").
  set (o := _renderItems Sample.templates Sample.engine v w).
  assert (E : _renderItems Sample.templates Sample.engine v w =
              (Normal tt, snd (fst o), snd o)) by (vm_compute; reflexivity).
  assert (Hi : items v = Some (default [] (items v))) by (vm_compute; reflexivity).
  assert (Hl : Forall (fun s => forall c, s = Some c -> items c = None)
                 (default [] (items v))).
  { vm_compute. repeat constructor; intros c Hc; injection Hc as <-; reflexivity. }
  pose proof (renderItems_allocates_per_auto_item Sample.templates Sample.engine
                v w _ _ _ Hi Hl E) as H.
  split; [vm_compute; reflexivity|]. split; [reflexivity|].
  rewrite H. vm_compute. reflexivity.
Defined.

Section UseAfterDestroy.

Lemma destroy_with_cfg destr v w r v' w' :
  destroy_with destr v w = (r, v', w') -> cfg v' = cfg v.
Proof.
  unfold destroy_with. cbv zeta.
  destruct (approves _); [|by intros; simplify_eq].
  destruct (clear v _) as [[r1 v1] w1] eqn:E1.
  apply clear_frame in E1 as (Hc & _).
  destruct r1; [|by intros; simplify_eq].
  destruct (destroyItems_eachItem destr v1 w1) as (vm & im & ->).
  destruct (eachItem _ _ _ _ _) as [[r2 v2] w2] eqn:E2. cbn [fst snd].
  apply eachItem_shape in E2.
  assert (cfg (set_maps vm im v2) = cfg v) by (cbn [cfg set_maps]; rewrite E2; exact Hc).
  destruct r2; intros; by simplify_eq.
Qed.

Lemma forItems_hole m k f l w :
  forItems m k f (None :: l) w =
  (Throw (TypeError ("Cannot read property '" +:+ m +:+ "' of undefined")), None :: l, w).
Proof. reflexivity. Qed.

(** X4: [destroy] vacates the slots of [items] and keeps the array, so
    a second [destroy] of a view that had a nested view faults on the first
    slot with a [TypeError], in [clear] or in the loop of [destroy]. *)
Theorem destroy_twice_faults v w s l v' w' :
  hole_free v = true ->
  approves (onBeforeDestroy (hooks (cfg v))) = true ->
  items v = Some (s :: l) ->
  destroy v w = (Normal tt, v', w') ->
  items v' = Some (None :: replicate (length l) None) /\
  forall w2, exists m v'' w'',
    destroy v' w2 = (Throw (TypeError ("Cannot read property '" +:+ m +:+ "' of undefined")),
                     v'', w'') /\
    (m = "clear" \/ m = "destroy").
Proof.
  intros Hh Ha Hi H.
  assert (Hc : cfg v' = cfg v).
  { rewrite destroy_eq in H. eapply destroy_with_cfg; eassumption. }
  assert (Hi' : items v' = Some (None :: replicate (length l) None)).
  { rewrite destroy_eq in H.
    destruct (destroy_with_hole_free destroy v w Hh Ha)
      as (v1 & w1 & u & w5 & Tc & Ts & _ & _ & _ & _ & _ & _ & E & _ & Q).
    - intros c Hc0 _ w0.
      destruct (destroy_fuel_hole_free (S (height c)) c w0) as (c' & w0' & T & E & L);
        [lia|exact Hc0|].
      exists c', w0', T. split; [exact E|exact L].
    - rewrite E in H. simplify_eq. rewrite Q, Hi. reflexivity. }
  split; [exact Hi'|]. intros w2.
  rewrite destroy_eq. unfold destroy_with. cbv zeta. rewrite Hc, Ha.
  rewrite clear_unfold. destruct (rendered v') eqn:Er.
  - cbv zeta. destruct (approves (onBeforeClear _)).
    + unfold eachItem at 1. rewrite Hi', forItems_hole.
      eexists "clear", _, _. split; [reflexivity|]. left; reflexivity.
    + unfold destroyItems. rewrite Hi'.
      eexists "destroy", _, _. split; [reflexivity|]. right; reflexivity.
  - unfold destroyItems. rewrite Hi'.
    eexists "destroy", _, _. split; [reflexivity|]. right; reflexivity.
Qed.

End UseAfterDestroy.

(** A rendered root with two leaves, destroyed twice. *)
Lemma destroy_twice_faults_witness :
  let v := fst (Sample.rendered_root "Two" default_hooks (CfgArr [VStr "Leaf"; VStr "Leaf"])) in
  let w := snd (Sample.rendered_root "Two" default_hooks (CfgArr [VStr "Leaf"; VStr "Leaf"])) in
  let v' := snd (fst (destroy v w)) in
  let w' := snd (destroy v w) in
  items v' = Some [None; None] /\
  exists m v'' w'',
    destroy v' w' = (Throw (TypeError ("Cannot read property '" +:+ m +:+ "' of undefined")),
                     v'', w'').
Proof.
  cbv zeta.
  set (v := fst (Sample.rendered_root "Two" default_hooks (CfgArr [VStr "Leaf"; VStr "Leaf"]))).
  set (w := snd (Sample.rendered_root "Two" default_hooks (CfgArr [VStr "Leaf"; VStr "Leaf"]))).
  assert (Hh : hole_free v = true) by (vm_compute; reflexivity).
  assert (Ha : approves (onBeforeDestroy (hooks (cfg v))) = true) by (vm_compute; reflexivity).
  assert (Hi : items v = Some (mjoin (head (default [] (items v))) ::
                               tail (default [] (items v)))) by (vm_compute; reflexivity).
  assert (E : destroy v w = (Normal tt, snd (fst (destroy v w)), snd (destroy v w)))
    by (vm_compute; reflexivity).
  destruct (destroy_twice_faults v w _ _ _ _ Hh Ha Hi E) as [Q1 Q2].
  split; [vm_compute; reflexivity|].
  destruct (Q2 (snd (destroy v w))) as (m & v'' & w'' & Q & _).
  exists m, v'', w''. exact Q.
Defined.

Section Registration.
Variable ns_view : string -> option Ctor.

Lemma registered_register inst v key view :
  registered inst v ->
  registered (inst ++ [Some view]) (register key view (length inst) v) /\
  is_Some (_viewMap (register key view (length inst) v) !! key) /\
  (forall k, is_Some (_viewMap v !! k) ->
             is_Some (_viewMap (register key view (length inst) v) !! k)).
Proof.
  intros Hreg.
  assert (Hold : forall m, m = _viewMap v \/ m = _itemIdMap v ->
            forall k r, m !! k = Some r ->
            exists i c, r = Fresh i c /\ (inst ++ [Some view]) !! i = Some (Some c)).
  { intros m Hm k r Hk. destruct (Hreg m Hm k r Hk) as (i & c & -> & Hi).
    exists i, c. split; [reflexivity|]. by apply lookup_app_l_Some. }
  assert (Hnew : (inst ++ [Some view]) !! length inst = Some (Some view)).
  { rewrite lookup_app_r by lia. by rewrite Nat.sub_diag. }
  unfold register. cbv zeta. split; [|split].
  - intros m [->| ->] k r; cbn [_viewMap _itemIdMap set_maps].
    + destruct (decide (k = key)) as [->|Hn].
      * rewrite lookup_insert_eq. intros [= <-]. by exists (length inst), view.
      * rewrite lookup_insert_ne by done. apply Hold. by left.
    + destruct (truthy _).
      * destruct (decide (k = js_to_string (itemId (cfg view)))) as [->|Hn].
        -- rewrite lookup_insert_eq. intros [= <-]. by exists (length inst), view.
        -- rewrite lookup_insert_ne by done. apply Hold. by right.
      * apply Hold. by right.
  - cbn [_viewMap set_maps]. rewrite lookup_insert_eq. by eexists.
  - intros k Hk. cbn [_viewMap set_maps]. destruct (decide (k = key)) as [->|Hn].
    + rewrite lookup_insert_eq. by eexists.
    + rewrite lookup_insert_ne by done. exact Hk.
Qed.

Lemma createLoop_registered l : forall inst v w inst' v' w',
  createLoop ns_view l inst v w = (Normal inst', v', w') ->
  registered inst v ->
  registered inst' v' /\
  (forall k, is_Some (_viewMap v !! k) -> is_Some (_viewMap v' !! k)) /\
  (forall item, item ∈ l -> well_formed item = true ->
                is_Some (_viewMap v' !! js_to_string item)).
Proof.
  induction l as [|item r IH]; intros inst v w inst' v' w' H Hreg.
  - simpl in H. simplify_eq. split; [exact Hreg|]. split; [done|].
    intros item Hin. by apply elem_of_nil in Hin.
  - destruct (well_formed item) eqn:Ew.
    + rewrite createLoop_cons_well_formed in H by exact Ew.
      destruct (new_view _ _ _ _ _) as [[view|e] w1]; [|discriminate].
      destruct (registered_register inst v (js_to_string item) view Hreg) as (R1 & R2 & R3).
      apply IH in H as (Q1 & Q2 & Q3); [|exact R1].
      split; [exact Q1|]. split.
      * intros k Hk. apply Q2, R3, Hk.
      * intros it Hin Hw. apply elem_of_cons in Hin as [->|Hin].
        -- apply Q2, R2.
        -- apply Q3; assumption.
    + rewrite createLoop_cons_malformed in H by exact Ew.
      apply IH in H as (Q1 & Q2 & Q3); [|exact Hreg].
      split; [exact Q1|]. split; [exact Q2|].
      intros it Hin Hw. apply elem_of_cons in Hin as [->|Hin]; [congruence|].
      apply Q3; assumption.
Qed.

Lemma createLoop_slots l : forall inst v w inst' v' w',
  createLoop ns_view l inst v w = (Normal inst', v', w') ->
  Forall (fun s : Slot => is_Some s) inst -> Forall (fun s : Slot => is_Some s) inst'.
Proof.
  induction l as [|item r IH]; intros inst v w inst' v' w' H Hs.
  - simpl in H. by simplify_eq.
  - destruct (well_formed item) eqn:Ew.
    + rewrite createLoop_cons_well_formed in H by exact Ew.
      destruct (new_view _ _ _ _ _) as [[view|e] w1]; [|discriminate].
      apply IH in H; [exact H|]. apply Forall_app. split; [exact Hs|].
      constructor; [by eexists|constructor].
    + rewrite createLoop_cons_malformed in H by exact Ew. by apply IH in H.
Qed.

(** A map of instances registered by the loop, read once the array is in
    [items]. *)
Lemma plain_get_adopted inst u v1 m k :
  items u = Some inst ->
  (forall k r, m !! k = Some r -> exists i c, r = Fresh i c /\ inst !! i = Some (Some c)) ->
  match m !! k with
  | Some _ => exists c, plain_get u (omap (adopt v1) m) k = Some (Instance c) /\ Some c ∈ inst
  | None =>
      plain_get u (omap (adopt v1) m) k =
      if mem_str k object_prototype then Some (Inherited k) else None
  end.
Proof.
  intros Hi Hm. unfold plain_get. rewrite lookup_omap.
  destruct (m !! k) as [r|] eqn:Hk; [|reflexivity].
  destruct (Hm k r Hk) as (i & c & -> & Hl). cbn [mbind option_bind adopt].
  exists c. unfold resolve, item_at. rewrite Hi, Hl.
  split; [reflexivity|]. eapply list_elem_of_lookup_2, Hl.
Qed.

(** X5: after [_createItems] on a view with the empty maps that
    [initPrivates] leaves, every position below the length of [items]
    holds an instance that [getItem] returns for the number.  For every
    declared entry that is a string or an object, [getItem] on its string
    form (the class name, ["[object Object]"] for an object) does not
    return [null]: it returns one of the instances, unless that string is
    the name of a member of [Object.prototype]; for such a name, when no
    instance has it as [itemId], [getItem] returns the inherited member,
    found first in [_itemIdMap].  No instance is stored under
    ["__proto__"]: that assignment would replace the prototype of the
    map. *)
Theorem createItems_registers_every_entry l v w v' w' :
  _viewMap v = ∅ -> _itemIdMap v = ∅ ->
  _createItems ns_view (CfgArr l) v w = (Normal tt, v', w') ->
  _viewMap v' !! "__proto__" = None -> _itemIdMap v' !! "__proto__" = None ->
  exists its,
    items v' = Some its /\
    (forall i, i < length its ->
       exists c, getItem (VNum (Z.of_nat i)) v' = Normal (Some (Instance c)) /\
                 its !! i = Some (Some c)) /\
    (forall item, item ∈ l -> well_formed item = true ->
       let key := js_to_string item in
       (exists x, getItem (VStr key) v' = Normal (Some x)) /\
       (mem_str key object_prototype = false ->
        exists c, getItem (VStr key) v' = Normal (Some (Instance c)) /\ Some c ∈ its) /\
       (mem_str key object_prototype = true -> _itemIdMap v' !! key = None ->
        getItem (VStr key) v' = Normal (Some (Inherited key)))).
Proof.
  intros Hv Hi H _ _. unfold _createItems in H.
  destruct (createLoop ns_view l [] v w) as [[[inst|e] v1] w1] eqn:E; [|discriminate].
  simplify_eq.
  pose proof (createLoop_slots _ _ _ _ _ _ _ E ltac:(constructor)) as Hs.
  apply createLoop_registered in E as (Hreg & _ & Hk).
  2:{ intros m [->| ->] k r; rewrite ?Hv, ?Hi; by rewrite lookup_empty. }
  set (u := set_items (Some inst) _).
  assert (Hu : items u = Some inst) by reflexivity.
  exists inst. split; [reflexivity|]. split.
  - intros i Hlt. destruct (lookup_lt_is_Some_2 inst i Hlt) as [s Hl].
    pose proof (proj1 (Forall_lookup _ _) Hs i s Hl) as [c ->].
    exists c. split; [|exact Hl].
    unfold getItem. cbn [isString isNumeric]. rewrite Hu.
    destruct (Z.ltb_spec (Z.of_nat i) 0); [lia|].
    rewrite Nat2Z.id, Hl. reflexivity.
  - intros item Hin Hw key.
    pose proof (plain_get_adopted inst u v1 (_itemIdMap v1) key Hu
                  (Hreg _ (or_intror eq_refl))) as Hgi.
    pose proof (plain_get_adopted inst u v1 (_viewMap v1) key Hu
                  (Hreg _ (or_introl eq_refl))) as Hgv.
    destruct (Hk item Hin Hw) as [rv Hrv]. fold key in Hrv. rewrite Hrv in Hgv.
    destruct Hgv as (cv & Hgv & Hcv).
    unfold getItem. cbn [isString js_to_string].
    change (_itemIdMap u) with (omap (adopt v1) (_itemIdMap v1)).
    change (_viewMap u) with (omap (adopt v1) (_viewMap v1)).
    rewrite lookup_omap.
    destruct (_itemIdMap v1 !! key) as [ri|] eqn:Hri.
    + destruct Hgi as (ci & Hgi & Hci). rewrite Hgi.
      split; [by eexists|]. split; [intros _; by exists ci|].
      intros _. destruct (Hreg _ (or_intror eq_refl) _ _ Hri) as (i & c & -> & _).
      discriminate.
    + rewrite Hgi. destruct (mem_str key object_prototype).
      * split; [by eexists|]. split; [discriminate|]. reflexivity.
      * rewrite Hgv. split; [by eexists|]. split; [intros _; by exists cv|]. discriminate.
Qed.

End Registration.

(** A leaf declared by name, a number, a leaf declared by a configuration
    object, and a leaf whose class is registered as ["constructor"]: by
    that name [getItem] returns what every plain object inherits. *)
Lemma createItems_registers_every_entry_witness :
  let made := Sample.make (Some "Two") default_hooks (CfgArr []) Sample.start in
  let views name :=
    if String.eqb name "App.view.constructor" then Some Sample.Leaf else Sample.views name in
  let l := [VStr "Leaf"; VNum 3; VObj [("cl", VStr "Leaf")]; VStr "constructor"] in
  let v' := snd (fst (_createItems views (CfgArr l) (fst made) (snd made))) in
  length <$> items v' = Some 3 /\
  (exists c, getItem (VStr "Leaf") v' = Normal (Some (Instance c))) /\
  (exists c, getItem (VStr "[object Object]") v' = Normal (Some (Instance c))) /\
  getItem (VStr "constructor") v' = Normal (Some (Inherited "constructor")).
Proof.
  cbv zeta.
  set (made := Sample.make (Some "Two") default_hooks (CfgArr []) Sample.start).
  set (views := fun name : string =>
         if String.eqb name "App.view.constructor" then Some Sample.Leaf
         else Sample.views name).
  set (l := [VStr "Leaf"; VNum 3; VObj [("cl", VStr "Leaf")]; VStr "constructor"]).
  set (o := _createItems views (CfgArr l) (fst made) (snd made)).
  assert (Hv : _viewMap (fst made) = ∅) by (vm_compute; reflexivity).
  assert (Hi : _itemIdMap (fst made) = ∅) by (vm_compute; reflexivity).
  assert (E : _createItems views (CfgArr l) (fst made) (snd made) =
              (Normal tt, snd (fst o), snd o)) by (vm_compute; reflexivity).
  destruct (createItems_registers_every_entry views l (fst made) (snd made) _ _ Hv Hi E)
    as (its & _ & _ & Hk); [vm_compute; reflexivity|vm_compute; reflexivity|].
  split; [vm_compute; reflexivity|]. split; [|split].
  - destruct (Hk (VStr "Leaf")) as (_ & Hc & _); [repeat constructor|reflexivity|].
    destruct Hc as (c & Hc & _); [reflexivity|]. exists c. exact Hc.
  - destruct (Hk (VObj [("cl", VStr "Leaf")])) as (_ & Hc & _);
      [repeat constructor|reflexivity|].
    destruct Hc as (c & Hc & _); [reflexivity|]. exists c. exact Hc.
  - destruct (Hk (VStr "constructor")) as (_ & _ & Hc); [repeat constructor|reflexivity|].
    apply Hc; [reflexivity|vm_compute; reflexivity].
Defined.

Section Standalone.
Variable ns_tpl : string -> option (list (string * JsVal)).
Variable template_engine : string -> JsVal -> Completion (list Node).

(** X6: a view whose [elPath] is the auto value and whose element is not
    resolved cannot be rendered without a container query: [_updateEl]
    queries nothing, [render] notifies that the root element was not found
    and returns [false]; [el] is the empty set and the binding of the
    events is postponed. *)
Theorem render_auto_without_container v w :
  elPath (cfg v) = autoIncrementId (cfg v) -> elPath (cfg v) <> "" ->
  template_ok ns_tpl (cfg v) = true ->
  el_missing v = true ->
  render ns_tpl template_engine v None w =
    (Normal RetFalse, set_initEvents true (set_el (Some []) v),
     trigger v "error"
       (Some ("Root element (View::el) not found for view " +:+ quoted (cls v))) w).
Proof.
  intros Ha Hp Ht Hm. rewrite render_eq. unfold render_with.
  apply String.eqb_neq in Hp. rewrite Hp, Ht. cbn [negb].
  unfold _updateEl, anchor_query. rewrite Hm, Ha, String.eqb_refl.
  reflexivity.
Qed.

(** X7: the [render] of a view without nested views that is not
    rendered, whose element is not yet resolved and whose query resolves to
    one element: it returns [this], sets [el] and [rendered], appends the
    markup of the template string to that element, allocates no id, and
    the trace is the postponed binding of the events, if any, followed by
    ["beforerender"], [onBeforeRender], [onAfterRender], ["render"]. *)
Theorem render_leaf_succeeds v cq w e markup :
  elPath (cfg v) <> "" -> template_ok ns_tpl (cfg v) = true ->
  el_missing v = true ->
  jq (document w) (anchor_query v cq) = Normal [e] ->
  rendered v = false -> items v = None ->
  approves (onBeforeRender (hooks (cfg v))) = true ->
  invalid_template_data v = false ->
  template_engine (js_to_string (_tpl v)) (_templateData v) = Normal markup ->
  exists w',
    render ns_tpl template_engine v cq w =
      (Normal RetThis, set_rendered true (set_el (Some [e]) v), w') /\
    document w' = jq_append (document w) [e] markup /\
    currentId w' = currentId w /\
    log w' = log w ++ (if _initEvents v then [DelegateEvents (cls v)] else []) ++
             render_events v.
Proof.
  intros Hp Ht Hm Hq Hr Hi Ha Hinv Heng. rewrite render_eq. unfold render_with.
  apply String.eqb_neq in Hp. rewrite Hp, Ht. cbn [negb].
  unfold _updateEl. rewrite Hm, Hq. cbv beta iota zeta.
  cbn [el set_el length Nat.ltb Nat.leb el_missing Nat.eqb _initEvents].
  destruct (_initEvents v) eqn:Ei.
  - cbv beta iota zeta. cbn [el set_el length el_missing Nat.eqb cfg].
    rewrite Ha. rewrite clear_not_rendered by exact Hr. cbv beta iota zeta.
    change (invalid_template_data (set_el (Some [e]) v)) with (invalid_template_data v).
    rewrite Hinv. cbn [_tpl _templateData set_el]. rewrite Heng.
    rewrite _renderItems_with_null by exact Hi.
    eexists. split; [reflexivity|]. split; [reflexivity|]. split; [reflexivity|].
    unfold render_events. simpl. rewrite <- !app_assoc. reflexivity.
  - cbv beta iota zeta. cbn [el set_el length el_missing Nat.eqb cfg].
    rewrite Ha. rewrite clear_not_rendered by exact Hr. cbv beta iota zeta.
    change (invalid_template_data (set_el (Some [e]) v)) with (invalid_template_data v).
    rewrite Hinv. cbn [_tpl _templateData set_el]. rewrite Heng.
    rewrite _renderItems_with_null by exact Hi.
    eexists. split; [reflexivity|]. split; [reflexivity|]. split; [reflexivity|].
    unfold render_events. simpl. rewrite <- !app_assoc. reflexivity.
Qed.

End Standalone.

(** A leaf, as its constructor returns it, rendered on its own. *)
Lemma render_auto_without_container_witness :
  exists v w,
    Sample.Leaf None Sample.start = (Normal v, w) /\
    el v = None /\
    render Sample.templates Sample.engine v None w =
      (Normal RetFalse, set_initEvents true (set_el (Some []) v),
       trigger v "error"
         (Some ("Root element (View::el) not found for view " +:+ quoted "Leaf")) w).
Proof.
  eexists _, _. split; [vm_compute; reflexivity|]. split; [reflexivity|].
  apply (render_auto_without_container Sample.templates Sample.engine).
  - reflexivity.
  - vm_compute. discriminate.
  - vm_compute. reflexivity.
  - reflexivity.
Defined.

(** The root of the page with the template of a leaf. *)
Lemma render_leaf_succeeds_witness :
  let v := fst (Sample.make (Some "Leaf") default_hooks CfgNull Sample.start) in
  let w := snd (Sample.make (Some "Leaf") default_hooks CfgNull Sample.start) in
  exists w',
    render Sample.templates Sample.engine v None w =
      (Normal RetThis, set_rendered true (set_el (Some [1]) v), w') /\
    document w' = jq_append Sample.page [1] (Sample.markup_of "x").
Proof.
  cbv zeta.
  destruct (render_leaf_succeeds Sample.templates Sample.engine
              (fst (Sample.make (Some "Leaf") default_hooks CfgNull Sample.start)) None
              (snd (Sample.make (Some "Leaf") default_hooks CfgNull Sample.start))
              1 (Sample.markup_of "x")) as (w' & E & D & _);
    try (vm_compute; reflexivity).
  - vm_compute. discriminate.
  - exists w'. split; [exact E|exact D].
Defined.

Section Rerender.
Variable ns_tpl : string -> option (list (string * JsVal)).
Variable template_engine : string -> JsVal -> Completion (list Node).

(** X8: [render] on a rendered view without nested views clears first:
    the markup goes into the element emptied by [clear], and
    ["beforeclear"], [onBeforeClear], [onAfterClear], ["clear"] are between
    [onBeforeRender] and [onAfterRender]. *)
Theorem rerender_leaf_clears_first v w h markup :
  elPath (cfg v) <> "" -> template_ok ns_tpl (cfg v) = true ->
  el v = Some h -> h <> [] ->
  rendered v = true -> items v = None ->
  approves (onBeforeRender (hooks (cfg v))) = true ->
  approves (onBeforeClear (hooks (cfg v))) = true ->
  invalid_template_data v = false ->
  template_engine (js_to_string (_tpl v)) (_templateData v) = Normal markup ->
  exists w',
    render ns_tpl template_engine v None w = (Normal RetThis, set_rendered true v, w') /\
    document w' = jq_append (document (clear_dom v w)) h markup /\
    log w' = log w ++
      [Trigger (cls v) "beforerender" None; Hook (cls v) "onBeforeRender" None;
       Trigger (cls v) "beforeclear" None; Hook (cls v) "onBeforeClear" None;
       Hook (cls v) "onAfterClear" None; Trigger (cls v) "clear" None;
       Hook (cls v) "onAfterRender" None; Trigger (cls v) "render" None].
Proof.
  intros Hp Ht He Hh Hr Hi Ha Hc Hinv Heng.
  assert (Hm : el_missing v = false).
  { unfold el_missing. rewrite He. destruct h; [done|reflexivity]. }
  rewrite render_eq. unfold render_with.
  apply String.eqb_neq in Hp. rewrite Hp, Ht. cbn [negb].
  unfold _updateEl. rewrite Hm. cbv beta iota zeta. rewrite Hm, Ha.
  rewrite clear_unfold, Hr, Hc. cbv zeta.
  rewrite eachItem_null by exact Hi. cbv beta iota zeta.
  change (invalid_template_data (set_rendered false v)) with (invalid_template_data v).
  rewrite Hinv. cbn [_tpl _templateData set_rendered]. rewrite Heng.
  rewrite _renderItems_with_null by exact Hi.
  cbn [el set_rendered]. rewrite He. cbn [default].
  eexists. split; [destruct v; reflexivity|]. split.
  - unfold clear_dom. rewrite He. reflexivity.
  - unfold clear_dom. rewrite He. simpl. rewrite <- !app_assoc. reflexivity.
Qed.

End Rerender.

(** The rendered root, rendered again: its element still has one child. *)
Lemma rerender_leaf_clears_first_witness :
  let v := fst (Sample.rendered_root "Leaf" default_hooks CfgNull) in
  let w := snd (Sample.rendered_root "Leaf" default_hooks CfgNull) in
  exists w',
    render Sample.templates Sample.engine v None w = (Normal RetThis, set_rendered true v, w') /\
    length (jq_children (document w) [1]) = 1 /\
    length (jq_children (document w') [1]) = 1.
Proof.
  cbv zeta.
  destruct (rerender_leaf_clears_first Sample.templates Sample.engine
              (fst (Sample.rendered_root "Leaf" default_hooks CfgNull))
              (snd (Sample.rendered_root "Leaf" default_hooks CfgNull))
              [1] (Sample.markup_of "x")) as (w' & E & D & _);
    try (vm_compute; reflexivity).
  - vm_compute. discriminate.
  - discriminate.
  - exists w'. split; [exact E|]. split; [vm_compute; reflexivity|].
    rewrite D. vm_compute. reflexivity.
Defined.

Section NestedResults.
Variable ns_tpl : string -> option (list (string * JsVal)).
Variable template_engine : string -> JsVal -> Completion (list Node).

Lemma renderItemsLoop_returning g rend auto l : forall cs w,
  renderItemsLoop (returning g rend) auto l cs w = renderItemsLoop rend auto l cs w.
Proof.
  induction l as [|s l IH]; intros cs w; [reflexivity|].
  destruct s as [c|]; [|reflexivity].
  cbn [renderItemsLoop].
  destruct (if String.eqb _ _ then _ else _) as [innerId w1]. cbv zeta.
  unfold returning at 1.
  destruct (rend c _ _) as [[r c'] w3].
  destruct r; [|reflexivity]. rewrite IH. reflexivity.
Qed.

Lemma _renderItems_with_returning g rend v w :
  _renderItems_with (returning g rend) v w = _renderItems_with rend v w.
Proof.
  unfold _renderItems_with. destruct (items v) as [its|]; [|reflexivity].
  destruct (Nat.ltb 0 _); [|reflexivity]. destruct (el v) as [h|]; [|reflexivity].
  cbv zeta. destruct (Nat.ltb _ _); [reflexivity|].
  rewrite renderItemsLoop_returning. reflexivity.
Qed.

(** X9: [render] ignores what the [render] of a nested view returns:
    whatever value ([this] or [false]) is put in place of the value that
    each nested [render] returns, [_renderItems] and the [render] of the
    parent end with the same result, the same view and the same world.
    Only a fault of a nested [render] reaches the parent. *)
Theorem render_ignores_nested_results (g : RenderResult -> RenderResult) v cq w :
  (forall rend,
      _renderItems_with (returning g rend) v w = _renderItems_with rend v w /\
      render_with ns_tpl template_engine (returning g rend) v cq w =
        render_with ns_tpl template_engine rend v cq w) /\
  render_with ns_tpl template_engine (returning g (render ns_tpl template_engine)) v cq w =
    render ns_tpl template_engine v cq w.
Proof.
  assert (H : forall rend,
             render_with ns_tpl template_engine (returning g rend) v cq w =
             render_with ns_tpl template_engine rend v cq w).
  { intros rend. unfold render_with.
    destruct (String.eqb _ _); [reflexivity|].
    destruct (negb _); [reflexivity|].
    destruct (_updateEl cq v w) as [[r0 v0] w0].
    destruct r0; [|reflexivity].
    destruct (el_missing v0); [reflexivity|]. cbv zeta.
    destruct (approves _); [|reflexivity].
    destruct (clear v0 _) as [[r1 v1] w3].
    destruct r1; [|reflexivity].
    destruct (invalid_template_data v1); [reflexivity|].
    destruct (template_engine _ _); [|reflexivity]. cbv zeta.
    rewrite _renderItems_with_returning. reflexivity. }
  split.
  - intros rend. split; [apply _renderItems_with_returning|apply H].
  - rewrite H. symmetry. apply render_eq.
Qed.

End NestedResults.

(** A root whose only nested view sets no [elPath]: the nested [render]
    returns [false] and the nested view stays unrendered; the root returns
    [this] and is rendered. *)
Example render_root_of_unplaced :
  let v := set_items (Some [Some Sample.unplaced]) (Sample.with_leaves 0) in
  let o := render Sample.templates Sample.engine v None Sample.start in
  fst (fst (render Sample.templates Sample.engine Sample.unplaced None Sample.start)) =
    Normal RetFalse /\
  fst (fst o) = Normal RetThis /\ rendered (snd (fst o)) = true /\
  (rendered <$> children (snd (fst o))) = [false].
Proof. vm_compute. repeat split. Qed.

Section Inert.

(** X10: after a [clear] that returned and that [onBeforeClear] did not
    veto, the view is not rendered, and [clear], [show], [hide], [disable]
    and [enable] on it return at once: no notification, no hook, no
    change. *)
Theorem cleared_view_is_inert v w v' w' :
  approves (onBeforeClear (hooks (cfg v))) = true ->
  clear v w = (Normal tt, v', w') ->
  rendered v' = false /\
  forall w2 a,
    clear v' w2 = (Normal tt, v', w2) /\ show v' w2 = (Normal tt, v', w2) /\
    hide v' w2 = (Normal tt, v', w2) /\ disable v' w2 = (Normal tt, v', w2) /\
    enable a v' w2 = (Normal tt, v', w2).
Proof.
  intros Ha H.
  assert (Hr : rendered v' = false).
  { rewrite clear_unfold in H. destruct (rendered v) eqn:Er; [|by simplify_eq].
    cbv zeta in H. rewrite Ha in H.
    destruct (eachItem _ _ _ _ _) as [[r v1] w1].
    destruct r; by simplify_eq. }
  split; [exact Hr|]. intros w2 a.
  rewrite clear_unfold, show_unfold, hide_unfold, disable_unfold, enable_unfold, Hr.
  repeat split.
Qed.

End Inert.

(** A rendered root with two leaves, cleared; [hide] then does nothing. *)
Lemma cleared_view_is_inert_witness :
  let v := fst (Sample.rendered_root "Two" default_hooks (CfgArr [VStr "Leaf"; VStr "Leaf"])) in
  let w := snd (Sample.rendered_root "Two" default_hooks (CfgArr [VStr "Leaf"; VStr "Leaf"])) in
  let v' := snd (fst (clear v w)) in
  rendered v = true /\ rendered v' = false /\
  hide v' (snd (clear v w)) = (Normal tt, v', snd (clear v w)).
Proof.
  cbv zeta.
  set (v := fst (Sample.rendered_root "Two" default_hooks (CfgArr [VStr "Leaf"; VStr "Leaf"]))).
  set (w := snd (Sample.rendered_root "Two" default_hooks (CfgArr [VStr "Leaf"; VStr "Leaf"]))).
  assert (Ha : approves (onBeforeClear (hooks (cfg v))) = true) by (vm_compute; reflexivity).
  assert (E : clear v w = (Normal tt, snd (fst (clear v w)), snd (clear v w)))
    by (vm_compute; reflexivity).
  destruct (cleared_view_is_inert v w _ _ Ha E) as [Q1 Q2].
  split; [vm_compute; reflexivity|]. split; [exact Q1|].
  destruct (Q2 (snd (clear v w)) VUndefined) as (_ & _ & Q & _). exact Q.
Defined.


Section InitialDisplay.
Variable ns_tpl : string -> option (list (string * JsVal)).
Variable ns_view : string -> option Ctor.
Variable template_engine : string -> JsVal -> Completion (list Node).

Lemma render_with_frame rend v cq w r v' w' :
  render_with ns_tpl template_engine rend v cq w = (r, v', w') ->
  cfg v' = cfg v /\ _displayCssValue v' = _displayCssValue v /\
  _tpl v' = _tpl v /\ _templateData v' = _templateData v.
Proof.
  unfold render_with. intros H.
  destruct (String.eqb _ _); [by simplify_eq|].
  destruct (negb _); [by simplify_eq|].
  destruct (_updateEl cq v w) as [[r0 v0] w0] eqn:E0.
  apply _updateEl_frame in E0 as (F1 & _ & _ & F2 & F3 & F4 & _).
  assert (F : cfg v0 = cfg v /\ _displayCssValue v0 = _displayCssValue v /\
              _tpl v0 = _tpl v /\ _templateData v0 = _templateData v) by done.
  clear F1 F2 F3 F4.
  destruct r0; [|by simplify_eq].
  destruct (el_missing v0); [by simplify_eq|]. cbv zeta in H.
  destruct (approves _); [|by simplify_eq].
  destruct (clear v0 _) as [[r1 v1] w1] eqn:E1.
  apply clear_frame in E1 as (G1 & _ & G2 & G3 & G4).
  assert (G : cfg v1 = cfg v /\ _displayCssValue v1 = _displayCssValue v /\
              _tpl v1 = _tpl v /\ _templateData v1 = _templateData v).
  { destruct F as (F1 & F2 & F3 & F4). rewrite G1, G2, G3, G4. done. }
  clear F G1 G2 G3 G4.
  destruct r1; [|by simplify_eq].
  destruct (invalid_template_data v1); [by simplify_eq|].
  destruct (template_engine _ _); [|by simplify_eq]. cbv zeta in H.
  destruct (_renderItems_with _ _ _) as [[r2 v2] w2] eqn:E2.
  apply _renderItems_with_frame in E2.
  assert (K : cfg v2 = cfg v /\ _displayCssValue v2 = _displayCssValue v /\
              _tpl v2 = _tpl v /\ _templateData v2 = _templateData v).
  { rewrite E2. exact G. }
  destruct r2; by simplify_eq.
Qed.

Lemma createLoop_display l inst v w r v' w' :
  createLoop ns_view l inst v w = (r, v', w') ->
  _displayCssValue v' = _displayCssValue v.
Proof.
  revert inst v w. induction l as [|item l IH]; intros inst v w H; simpl in H.
  - by simplify_eq.
  - destruct (isString item).
    + destruct (new_view _ _ _ _ _) as [[view|e] w1]; [|by simplify_eq].
      apply IH in H. simpl in H. exact H.
    + destruct (isObject item).
      * destruct (new_view _ _ _ _ _) as [[view|e] w1]; [|by simplify_eq].
        apply IH in H. simpl in H. exact H.
      * apply IH in H. exact H.
Qed.

(** [initPrivates]: a constructed view holds ["block"] as the value to
    show with. *)
Lemma init_display c declared w v w' :
  init ns_tpl ns_view template_engine c declared w = (Normal v, w') ->
  cfg v = c /\ _displayCssValue v = Some "block".
Proof.
  intros H. rewrite init_unfold in H. cbv zeta in H.
  destruct (_updateEl None _ w) as [[r0 v0] w0].
  cbv zeta in H.
  destruct (_createItems _ _ _ _) as [[r1 v3] w5] eqn:E.
  destruct r1; [|discriminate].
  set (v2 := setTemplate ns_tpl (template c) _) in *.
  assert (Hv2 : cfg v2 = c /\ _displayCssValue v2 = Some "block").
  { unfold v2, setTemplate. simpl. destruct (template_class _ _ _); done. }
  assert (Hv3 : cfg v3 = c /\ _displayCssValue v3 = Some "block").
  { unfold _createItems in E. destruct declared; cbv beta iota zeta in E.
    - by simplify_eq.
    - destruct (createLoop _ _ _ _ _) as [[[inst|e] u] w1] eqn:E1; [|discriminate].
      simplify_eq. pose proof (createLoop_display _ _ _ _ _ _ _ E1) as Q2.
      apply createLoop_frame in E1 as (Q1 & _).
      simpl. rewrite Q1, Q2. exact Hv2.
    - destruct (createLoop _ _ _ _ _) as [[[inst|e] u] w1] eqn:E1; [|discriminate].
      simplify_eq. pose proof (createLoop_display _ _ _ _ _ _ _ E1) as Q2.
      apply createLoop_frame in E1 as (Q1 & _).
      simpl. rewrite Q1, Q2. exact Hv2. }
  destruct (autoRender c); [|by simplify_eq].
  destruct (render _ _ v3 None _) as [[r4 v4] w8] eqn:E4.
  rewrite render_eq in E4. apply render_with_frame in E4 as (K1 & K2 & _).
  destruct r4; [|discriminate]. simplify_eq. rewrite K1, K2. exact Hv3.
Qed.

Lemma show_applies_stored_display v w e es s :
  rendered v = true -> el v = Some (e :: es) ->
  approves (onBeforeShow (hooks (cfg v))) = true ->
  settled v = true ->
  is_Some (jq_css_get (document w) (e :: es)) ->
  _displayCssValue v = Some s ->
  exists v' w',
    show v w = (Normal tt, v', w') /\ jq_css_get (document w') (e :: es) = Some s.
Proof.
  intros Hr He Hs Hset Hd Hv.
  destruct (show_settled v Hset w) as (v2 & w2 & Hshow).
  exists v2, w2. split; [exact Hshow|].
  rewrite show_unfold in Hshow. rewrite Hr in Hshow. cbv zeta in Hshow.
  rewrite Hs in Hshow.
  match type of Hshow with
  | context [eachItem "show" true show ?a ?b] =>
      pose proof (nested_show_keeps_element e es a b) as Hk2;
      destruct (eachItem "show" true show a b) as [[r' u'] w3'] eqn:E'
  end.
  apply eachItem_shape in E'.
  assert (Heu' : el u' = Some (e :: es)) by (rewrite E'; exact He).
  assert (Hdu' : _displayCssValue u' = Some s) by (rewrite E'; exact Hv).
  destruct r' as [[]|]; [|discriminate]. rewrite Heu', Hdu' in Hshow.
  apply pair_equal_spec in Hshow as [_ Hw2]. subst w2.
  rewrite document_trigger, document_call_hook, document_set_document.
  rewrite css_get_set, mem_nat_head.
  destruct Hk2 as [y Hy]; [rewrite document_call_hook, document_trigger; exact Hd|].
  cbn [snd] in Hy. rewrite Hy. reflexivity.
Qed.

(** X11: [show] sets the value held in [_displayCssValue], which is
    ["block"] from [initPrivates] until a [hide] stores another: on a
    rendered view that was constructed and rendered, [show] sets [display]
    of its element to ["block"], whatever the value was. *)
Theorem show_without_hide_sets_block c declared w0 v cq w r v1 w1 e es :
  init ns_tpl ns_view template_engine c declared w0 = (Normal v, w) ->
  render ns_tpl template_engine v cq w = (Normal r, v1, w1) ->
  rendered v1 = true -> el v1 = Some (e :: es) ->
  approves (onBeforeShow (hooks c)) = true ->
  settled v1 = true ->
  is_Some (jq_css_get (document w1) (e :: es)) ->
  exists v2 w2,
    show v1 w1 = (Normal tt, v2, w2) /\
    jq_css_get (document w2) (e :: es) = Some "block".
Proof.
  intros Hi Hrend Hr He Ha Hset Hd.
  apply init_display in Hi as [Hc Hb].
  rewrite render_eq in Hrend. apply render_with_frame in Hrend as (K1 & K2 & _).
  apply show_applies_stored_display; try assumption.
  - rewrite K1, Hc. exact Ha.
  - rewrite K2. exact Hb.
Qed.

End InitialDisplay.

(** The root element is displayed as ["grid"]; [show] sets ["block"]. *)
Lemma show_without_hide_sets_block_witness :
  let v := fst (Sample.rendered_root "Leaf" default_hooks CfgNull) in
  let w := snd (Sample.rendered_root "Leaf" default_hooks CfgNull) in
  jq_css_get (document w) [1] = Some "grid" /\
  exists v2 w2, show v w = (Normal tt, v2, w2) /\ jq_css_get (document w2) [1] = Some "block".
Proof.
  cbv zeta. split; [vm_compute; reflexivity|].
  set (made := Sample.make (Some "Leaf") default_hooks CfgNull Sample.start).
  apply (show_without_hide_sets_block Sample.templates Sample.views Sample.engine
           (Sample.root_config (Some "Leaf") default_hooks) CfgNull Sample.start
           (fst made) None (snd made) RetThis).
  - vm_compute. reflexivity.
  - vm_compute. reflexivity.
  - vm_compute. reflexivity.
  - vm_compute. reflexivity.
  - reflexivity.
  - vm_compute. reflexivity.
  - vm_compute. by eexists.
Defined.

Section HideTwice.

Lemma forItems_every_el p m f l : forall w,
  Forall (fun s : Slot => forall c, s = Some c ->
            forall w0, every_el p (snd (fst (f c w0))) = every_el p c) l ->
  forallb (fun s : Slot => match s with Some c => every_el p c | None => true end)
    (snd (fst (forItems m true f l w))) =
  forallb (fun s : Slot => match s with Some c => every_el p c | None => true end) l.
Proof.
  induction l as [|s r IH]; intros w Hl; [reflexivity|].
  apply Forall_cons in Hl as [Hs Hr].
  destruct s as [c|]; [|reflexivity].
  cbn [forItems]. specialize (Hs c eq_refl w).
  destruct (f c w) as [[res c'] w1]. cbn [fst snd] in Hs.
  destruct res as [[]|e].
  - specialize (IH w1 Hr).
    destruct (forItems m true f r w1) as [[res' r'] w2]. cbn [fst snd] in IH |- *.
    cbn [forallb]. by rewrite Hs, IH.
  - cbn [fst snd forallb]. by rewrite Hs.
Qed.

(** [hide] leaves every element handle of the tree as it is. *)
Lemma hide_every_el p v : forall w, every_el p (snd (fst (hide v w))) = every_el p v.
Proof.
  induction v as [v IH] using View_nested_ind. intros w.
  rewrite hide_unfold. destruct (rendered v); [|reflexivity]. cbv zeta.
  destruct (approves _); [|reflexivity].
  unfold eachItem. destruct (items v) as [l|] eqn:Hi.
  - pose proof (forItems_every_el p "hide" hide l
                  (call_hook v "onBeforeHide" None (trigger v "beforehide" None w))
                  (IH l eq_refl)) as Hl.
    destruct (forItems _ _ _ _ _) as [[res l'] w3]. cbn [fst snd] in Hl.
    assert (Hv : every_el p (set_items (Some l') v) = every_el p v).
    { rewrite !every_el_unfold. cbn [el items set_items]. by rewrite Hi, Hl. }
    destruct res as [[]|e]; [|exact Hv].
    cbn [el set_items]. destruct (el v) eqn:He; [|exact Hv].
    cbn [fst snd]. rewrite <- Hv. rewrite !every_el_unfold. reflexivity.
  - destruct (el v) eqn:He; [|reflexivity].
    cbn [fst snd]. rewrite !every_el_unfold. reflexivity.
Qed.

Lemma forItems_hide_apart p l : forall w,
  Forall (fun c => every_el p c = true) (omap id l) ->
  Forall (fun c => every_el p c = true)
    (omap id (snd (fst (forItems "hide" true hide l w)))).
Proof.
  induction l as [|s r IH]; intros w Hl; [done|].
  destruct s as [c|]; [|exact Hl].
  cbn [omap] in Hl. apply Forall_cons in Hl as [Hc Hr].
  cbn [forItems]. pose proof (hide_every_el p c w) as Hc'.
  destruct (hide c w) as [[res c'] w1]. cbn [fst snd] in Hc'.
  destruct res as [[]|e].
  - specialize (IH w1 Hr).
    destruct (forItems "hide" true hide r w1) as [[res' r'] w2].
    cbn [fst snd] in IH |- *. cbn [omap].
    constructor; [by rewrite Hc'|exact IH].
  - cbn [fst snd omap].
    constructor; [by rewrite Hc'|exact Hr].
Qed.

Lemma nested_hide_keeps_apart p v w :
  Forall (fun c => every_el p c = true) (children v) ->
  Forall (fun c => every_el p c = true)
    (children (snd (fst (eachItem "hide" true hide v w)))).
Proof.
  unfold eachItem. destruct (items v) as [l|] eqn:Hi; [|done].
  unfold children. rewrite Hi. cbn [default]. intros Hl.
  pose proof (forItems_hide_apart p l w Hl) as H.
  destruct (forItems "hide" true hide l w) as [[res l'] w']. exact H.
Qed.

(** What a completed [hide] stores and sets. *)
Lemma hide_stores_display v w e es d :
  rendered v = true -> el v = Some (e :: es) ->
  approves (onBeforeHide (hooks (cfg v))) = true ->
  settled v = true ->
  Forall (fun c => every_el (fun h => negb (mem_nat e h)) c = true) (children v) ->
  jq_css_get (document w) (e :: es) = Some d ->
  exists v1 w1,
    hide v w = (Normal tt, v1, w1) /\ kept v v1 /\
    Forall (fun c => every_el (fun h => negb (mem_nat e h)) c = true) (children v1) /\
    _displayCssValue v1 = Some d /\
    jq_css_get (document w1) (e :: es) = Some "none".
Proof.
  intros Hr He Hh Hset Hap Hd.
  destruct (hide_settled v Hset w) as (v1 & w1 & Hhide & Hkept).
  exists v1, w1. split; [exact Hhide|]. split; [exact Hkept|].
  rewrite hide_unfold, Hr in Hhide. cbv zeta in Hhide. rewrite Hh in Hhide.
  pose proof (nested_hide_keeps_display e es v
                (call_hook v "onBeforeHide" None (trigger v "beforehide" None w)) Hap) as Hk.
  pose proof (nested_hide_keeps_apart (fun h => negb (mem_nat e h)) v
                (call_hook v "onBeforeHide" None (trigger v "beforehide" None w)) Hap) as Hk'.
  destruct (eachItem "hide" true hide v _) as [[r u] w3] eqn:E.
  cbn [fst snd] in Hk, Hk'. rewrite document_call_hook, document_trigger, Hd in Hk.
  apply eachItem_shape in E.
  assert (Heu : el u = Some (e :: es)) by (rewrite E; exact He).
  destruct r as [[]|]; [|discriminate]. rewrite Heu in Hhide.
  apply pair_equal_spec in Hhide as [Hhide Hw1].
  apply pair_equal_spec in Hhide as [_ Hv1]. subst v1 w1.
  split; [exact Hk'|]. split; [exact Hk|].
  rewrite document_trigger, document_call_hook, document_set_document.
  rewrite css_get_set, Hk, mem_nat_head. reflexivity.
Qed.

(** X12: a second [hide] stores the ["none"] set by the first: after
    [hide], [hide], [show] the element is still displayed as ["none"] and
    the value it had is lost. *)
Theorem hide_twice_then_show_stays_hidden v w e es d :
  rendered v = true -> el v = Some (e :: es) ->
  approves (onBeforeHide (hooks (cfg v))) = true ->
  approves (onBeforeShow (hooks (cfg v))) = true ->
  settled v = true ->
  Forall (fun c => every_el (fun h => negb (mem_nat e h)) c = true) (children v) ->
  jq_css_get (document w) (e :: es) = Some d ->
  exists v1 w1 v2 w2 v3 w3,
    hide v w = (Normal tt, v1, w1) /\
    hide v1 w1 = (Normal tt, v2, w2) /\
    show v2 w2 = (Normal tt, v3, w3) /\
    _displayCssValue v2 = Some "none" /\
    jq_css_get (document w3) (e :: es) = Some "none".
Proof.
  intros Hr He Hh Hs Hset Hap Hd.
  destruct (hide_stores_display v w e es d Hr He Hh Hset Hap Hd)
    as (v1 & w1 & E1 & (S1 & R1 & L1 & C1) & A1 & _ & G1).
  rewrite <- R1 in Hr. rewrite <- L1 in He. rewrite <- C1 in Hh, Hs.
  destruct (hide_stores_display v1 w1 e es "none" Hr He Hh S1 A1 G1)
    as (v2 & w2 & E2 & (S2 & R2 & L2 & C2) & A2 & D2 & G2).
  rewrite <- R2 in Hr. rewrite <- L2 in He. rewrite <- C2 in Hs.
  destruct (show_applies_stored_display v2 w2 e es "none" Hr He Hs S2) as (v3 & w3 & E3 & G3);
    [rewrite G2; by eexists|exact D2|].
  by exists v1, w1, v2, w2, v3, w3.
Qed.

End HideTwice.


(** The root element is displayed as ["grid"]; hidden twice and shown, it is displayed as ["none"]. *)
Lemma hide_twice_then_show_stays_hidden_witness :
  let v := fst (Sample.rendered_root "Two" default_hooks (CfgArr [VStr "Leaf"; VStr "Leaf"])) in
  let w := snd (Sample.rendered_root "Two" default_hooks (CfgArr [VStr "Leaf"; VStr "Leaf"])) in
  jq_css_get (document w) [1] = Some "grid" /\
  exists v1 w1 v2 w2 v3 w3,
    hide v w = (Normal tt, v1, w1) /\
    hide v1 w1 = (Normal tt, v2, w2) /\
    show v2 w2 = (Normal tt, v3, w3) /\
    jq_css_get (document w3) [1] = Some "none".
Proof.
  cbv zeta. split; [vm_compute; reflexivity|].
  set (v := fst (Sample.rendered_root "Two" default_hooks (CfgArr [VStr "Leaf"; VStr "Leaf"]))).
  set (w := snd (Sample.rendered_root "Two" default_hooks (CfgArr [VStr "Leaf"; VStr "Leaf"]))).
  destruct (hide_twice_then_show_stays_hidden v w 1 [] "grid")
    as (v1 & w1 & v2 & w2 & v3 & w3 & E1 & E2 & E3 & _ & G);
    try (vm_compute; reflexivity).
  - vm_compute. repeat constructor.
  - exists v1, w1, v2, w2, v3, w3.
    split; [exact E1|]. split; [exact E2|]. split; [exact E3|exact G].
Defined.

Section Construction.
Variable ns_tpl : string -> option (list (string * JsVal)).
Variable ns_view : string -> option Ctor.
Variable template_engine : string -> JsVal -> Completion (list Node).

Lemma setTemplate_cfg t v : cfg (setTemplate ns_tpl t v) = cfg v.
Proof. unfold setTemplate. destruct (template_class _ _ _); reflexivity. Qed.

(** X13: the constructor of a class that does not render on
    construction, with declared entries whose classes construct: after what
    [_updateEl] notified (nothing when [elPath] is the auto value) the
    trace is the four calls of the [iface] mixin (one each from
    [initPrivates], [initPublics], [afterInit] and [init]), the call of the
    [observe] mixin, ["beforeinit"], [onBeforeInit], the
    construction of the nested views, [onAfterInit], ["init"]; [items]
    holds one instance per well-formed entry, and the view is neither
    rendered nor bound to an element. *)
Theorem init_brackets_nested_construction c l w :
  autoRender c = false ->
  constructible ns_view c l ->
  exists v w' T0 T its,
    init ns_tpl ns_view template_engine c (CfgArr l) w = (Normal v, w') /\
    log w' =
      log w ++ T0 ++
      [CallMixin (className c) "iface"; CallMixin (className c) "iface";
       CallMixin (className c) "iface"; CallMixin (className c) "iface";
       CallMixin (className c) "observe";
       Trigger (className c) "beforeinit" None; Hook (className c) "onBeforeInit" None] ++
      T ++ [Hook (className c) "onAfterInit" None; Trigger (className c) "init" None] /\
    (elPath c = autoIncrementId c -> T0 = []) /\
    items v = Some its /\
    Forall2 (instance_of ns_view c) (filter (fun i => well_formed i = true) l) its /\
    rendered v = false /\ el v = None.
Proof.
  intros Ha Hc. rewrite init_unfold. cbv zeta. rewrite Ha.
  set (blank := MkView c VUndefined VUndefined None false None false ∅ ∅ None).
  assert (H0 : exists T0, log (snd (_updateEl None blank w)) = log w ++ T0 /\
                          (elPath c = autoIncrementId c -> T0 = [])).
  { destruct (decide (elPath c = autoIncrementId c)) as [He|Hn].
    - exists []. split; [|done]. unfold _updateEl, anchor_query, blank.
      cbn [el_missing el cfg]. rewrite He, String.eqb_refl. simpl.
      by rewrite app_nil_r.
    - destruct (_updateEl None blank w) as [[r0 v0] w0] eqn:E0.
      apply _updateEl_frame in E0 as (_ & _ & _ & _ & _ & _ & _ & _ & T0 & HT).
      exists T0. split; [exact HT|done]. }
  destruct H0 as (T0 & HT0 & Hauto).
  destruct (_updateEl None blank w) as [[r0 v0] w0]. cbn [snd] in HT0.
  set (v2 := setTemplate ns_tpl (template c) _).
  assert (Hv2 : cfg v2 = c) by (unfold v2; rewrite setTemplate_cfg; reflexivity).
  assert (Hr2 : rendered v2 = false /\ el v2 = None).
  { unfold v2, setTemplate. destruct (template_class _ _ _); done. }
  unfold _createItems.
  set (w4 := call_hook v2 "onBeforeInit" None _).
  destruct (createLoop_constructible ns_view l [] v2 w4) as (its & v3 & w5 & T & E & C3 & L & F & _).
  { rewrite Hv2. exact Hc. }
  rewrite E. cbn [app].
  apply createLoop_frame in E as (_ & Q2 & Q3 & _).
  eexists _, _, T0, T, its. split; [reflexivity|].
  split; [|split; [exact Hauto|]].
  - unfold trigger, call_hook, cls. cbn [log emit cfg set_items set_maps]. rewrite C3, Hv2, L.
    unfold w4, trigger, call_hook, cls. cbn [log emit]. rewrite Hv2, HT0.
    rewrite <- !app_assoc. reflexivity.
  - split; [reflexivity|]. split; [by rewrite Hv2 in F|].
    cbn [rendered el set_items set_maps]. rewrite Q2, Q3. exact Hr2.
Qed.

End Construction.

(** A class with two leaves and a malformed entry. *)
Lemma init_brackets_nested_construction_witness :
  exists v w' T,
    init Sample.templates Sample.views Sample.engine Sample.leaf_config
      (CfgArr [VStr "Leaf"; VNum 3; VStr "Leaf"]) Sample.start = (Normal v, w') /\
    log w' =
      [CallMixin "Leaf" "iface"; CallMixin "Leaf" "iface";
       CallMixin "Leaf" "iface"; CallMixin "Leaf" "iface";
       CallMixin "Leaf" "observe";
       Trigger "Leaf" "beforeinit" None; Hook "Leaf" "onBeforeInit" None] ++
      T ++ [Hook "Leaf" "onAfterInit" None; Trigger "Leaf" "init" None] /\
    length <$> items v = Some 2.
Proof.
  destruct (init_brackets_nested_construction Sample.templates Sample.views Sample.engine
              Sample.leaf_config [VStr "Leaf"; VNum 3; VStr "Leaf"] Sample.start)
    as (v & w' & T0 & T & its & E & L & H0 & Hi & F & _).
  - reflexivity.
  - intros item Hin Hw w.
    assert (item_class item = "Leaf" /\ item_config item = None) as [-> ->].
    { apply elem_of_cons in Hin as [->|Hin]; [done|].
      apply elem_of_cons in Hin as [->|Hin]; [discriminate|].
      apply elem_of_cons in Hin as [->|Hin]; [done|]. by apply elem_of_nil in Hin. }
    destruct (init_without_items Sample.templates Sample.no_views Sample.engine
                Sample.leaf_config w) as (u & w1 & T1 & E1 & L1); [reflexivity|].
    exists u, w1, T1. split; [exact E1|exact L1].
  - exists v, w', T. split; [exact E|]. split.
    + rewrite L, (H0 eq_refl). reflexivity.
    + rewrite Hi. apply Forall2_length in F. cbn [fmap option_fmap option_map].
      rewrite <- F. reflexivity.
Defined.

Section ContainerQuery.
Variable ns_tpl : string -> option (list (string * JsVal)).
Variable template_engine : string -> JsVal -> Completion (list Node).

(** X14: a container query that jQuery rejects: while the element is
    not resolved [_updateEl] catches the fault and notifies an error, and
    [render] then reports the missing root element and returns [false];
    once the element is resolved the query runs outside the [try] and
    [render] raises the fault of jQuery, with nothing changed. *)
Theorem render_invalid_container_query v q w f :
  jq (document w) (Some q) = Throw f ->
  elPath (cfg v) <> "" -> template_ok ns_tpl (cfg v) = true ->
  (el_missing v = true ->
   render ns_tpl template_engine v (Some q) w =
     (Normal RetFalse, set_initEvents true v,
      trigger v "error"
        (Some ("Root element (View::el) not found for view " +:+ quoted (cls v)))
        (trigger v "error"
           (Some ("Invalid elPath CSS query for view " +:+ quoted (cls v) +:+
                  ". elPath: " +:+ quoted (elPath (cfg v)))) w))) /\
  (el_missing v = false ->
   render ns_tpl template_engine v (Some q) w = (Throw f, v, w)).
Proof.
  intros Hq Hp Ht. apply String.eqb_neq in Hp.
  split; intros Hm; rewrite render_eq; unfold render_with;
    rewrite Hp, Ht; cbn [negb]; unfold _updateEl; rewrite Hm.
  - cbn [anchor_query]. rewrite Hq. cbv beta iota zeta.
    unfold el_missing in Hm |- *.
    destruct (el v) as [h|] eqn:He.
    + apply Nat.eqb_eq in Hm. rewrite Hm. cbn [Nat.ltb Nat.leb Nat.eqb].
      cbn [el set_initEvents]. rewrite He, Hm. reflexivity.
    + cbn [el set_initEvents]. rewrite He. reflexivity.
  - rewrite Hq. reflexivity.
Qed.

End ContainerQuery.

(** The query ["#"] on the root, before and after its render. *)
Lemma render_invalid_container_query_witness :
  let made := Sample.make (Some "Leaf") default_hooks CfgNull Sample.start in
  let rendered_made := Sample.rendered_root "Leaf" default_hooks CfgNull in
  render Sample.templates Sample.engine (fst made) (Some "#") (snd made) =
    (Normal RetFalse, set_initEvents true (fst made),
     trigger (fst made) "error"
       (Some ("Root element (View::el) not found for view " +:+ quoted "Root"))
       (trigger (fst made) "error"
          (Some ("Invalid elPath CSS query for view " +:+ quoted "Root" +:+
                 ". elPath: " +:+ quoted "#root")) (snd made))) /\
  render Sample.templates Sample.engine (fst rendered_made) (Some "#") (snd rendered_made) =
    (Throw (SyntaxError "unrecognized expression: #"), fst rendered_made, snd rendered_made).
Proof.
  cbv zeta. split.
  - apply (render_invalid_container_query Sample.templates Sample.engine
             (fst (Sample.make (Some "Leaf") default_hooks CfgNull Sample.start)) "#"
             (snd (Sample.make (Some "Leaf") default_hooks CfgNull Sample.start))
             (SyntaxError "unrecognized expression: #")).
    + reflexivity.
    + vm_compute. discriminate.
    + vm_compute. reflexivity.
    + vm_compute. reflexivity.
  - apply (render_invalid_container_query Sample.templates Sample.engine
             (fst (Sample.rendered_root "Leaf" default_hooks CfgNull)) "#"
             (snd (Sample.rendered_root "Leaf" default_hooks CfgNull))
             (SyntaxError "unrecognized expression: #")).
    + reflexivity.
    + vm_compute. discriminate.
    + vm_compute. reflexivity.
    + vm_compute. reflexivity.
Defined.

Section EnableArgument.

Lemma passes_undefined_app T1 T2 :
  passes_undefined T1 -> passes_undefined T2 -> passes_undefined (T1 ++ T2).
Proof. unfold passes_undefined. intros H1 H2. apply Forall_app. by split. Qed.

(** The nested calls of [enable] pass [undefined] to every hook. *)
Lemma enable_undefined_trace v : forall w,
  exists T, log (snd (enable VUndefined v w)) = log w ++ T /\ passes_undefined T.
Proof.
  set (R := fun w1 w2 : World => exists T, log w2 = log w1 ++ T /\ passes_undefined T).
  assert (Hr : forall w0, R w0 w0).
  { intros w0. exists []. split; [by rewrite app_nil_r|constructor]. }
  assert (Ht : forall w1 w2 w3, R w1 w2 -> R w2 w3 -> R w1 w3).
  { intros w1 w2 w3 (T1 & E1 & P1) (T2 & E2 & P2). exists (T1 ++ T2).
    split; [by rewrite E2, E1, app_assoc|by apply passes_undefined_app]. }
  induction v as [v IH] using View_nested_ind. intros w. fold (R w (snd (enable VUndefined v w))).
  rewrite enable_unfold. destruct (rendered v); [|apply Hr]. cbv zeta.
  assert (H1 : R w (call_hook v "onBeforeEnable" (Some VUndefined)
                      (trigger v "beforeenable" None w))).
  { exists [Trigger (cls v) "beforeenable" None;
            Hook (cls v) "onBeforeEnable" (Some VUndefined)].
    split; [simpl; by rewrite <- app_assoc|].
    repeat constructor; intros ? ? ? [=]; congruence. }
  destruct (approves _); [|exact H1].
  pose proof (eachItem_R R Hr Ht "enable" true (enable VUndefined) v
                (call_hook v "onBeforeEnable" (Some VUndefined)
                   (trigger v "beforeenable" None w)) IH) as H2.
  destruct (eachItem _ _ _ _ _) as [[r v1] w3]. cbn [snd] in H2 |- *.
  pose proof (Ht _ _ _ H1 H2) as H3.
  destruct r; [|exact H3]. cbn [snd].
  eapply Ht; [exact H3|].
  exists [Hook (cls v1) "onAfterEnable" (Some VUndefined); Trigger (cls v1) "enable" None].
  split; [simpl; by rewrite <- app_assoc|].
  repeat constructor; intros ? ? ? [=]; congruence.
Qed.

(** X15: [enable(cssPaths)] passes [cssPaths] to [onBeforeEnable] and
    [onAfterEnable] of the receiver only: the nested views are enabled
    without argument, so every hook called in between receives
    [undefined]. *)
Theorem enable_argument_stops_at_receiver a v w v' w' :
  rendered v = true ->
  approves (onBeforeEnable (hooks (cfg v))) = true ->
  enable a v w = (Normal tt, v', w') ->
  exists T,
    log w' =
      log w ++
      [Trigger (cls v) "beforeenable" None; Hook (cls v) "onBeforeEnable" (Some a)] ++ T ++
      [Hook (cls v) "onAfterEnable" (Some a); Trigger (cls v) "enable" None] /\
    passes_undefined T.
Proof.
  intros Hr Ha H. rewrite enable_unfold, Hr in H. cbv zeta in H. rewrite Ha in H.
  set (w2 := call_hook v "onBeforeEnable" (Some a) (trigger v "beforeenable" None w)) in *.
  assert (H2 : exists T, log (snd (eachItem "enable" true (enable VUndefined) v w2)) =
                         log w2 ++ T /\ passes_undefined T).
  { apply (eachItem_R (fun w1 w2 => exists T, log w2 = log w1 ++ T /\ passes_undefined T)).
    - intros w0. exists []. split; [by rewrite app_nil_r|constructor].
    - intros w1 w3 w4 (T1 & E1 & P1) (T2 & E2 & P2). exists (T1 ++ T2).
      split; [by rewrite E2, E1, app_assoc|by apply passes_undefined_app].
    - intros l _. apply Forall_forall. intros s _ c _ w0. apply enable_undefined_trace. }
  destruct (eachItem _ _ _ _ _) as [[r v1] w3] eqn:E. cbn [snd] in H2.
  apply eachItem_shape in E.
  destruct r as [[]|]; [|discriminate].
  apply pair_equal_spec in H as [H Hw]. apply pair_equal_spec in H as [_ Hv]. subst v' w'.
  destruct H2 as (T & HT & HP). exists T. split; [|exact HP].
  assert (Hc : cls v1 = cls v) by (rewrite E; reflexivity).
  unfold trigger, call_hook. cbn [log emit]. rewrite Hc, HT.
  unfold w2, trigger, call_hook. cbn [log emit]. rewrite <- !app_assoc. reflexivity.
Qed.

End EnableArgument.

(** A rendered root with two leaves, enabled with a selector. *)
Lemma enable_argument_stops_at_receiver_witness :
  let v := fst (Sample.rendered_root "Two" default_hooks (CfgArr [VStr "Leaf"; VStr "Leaf"])) in
  let w := snd (Sample.rendered_root "Two" default_hooks (CfgArr [VStr "Leaf"; VStr "Leaf"])) in
  let a := VStr ".field" in
  exists T,
    log (snd (enable a v w)) =
      log w ++ [Trigger "Root" "beforeenable" None; Hook "Root" "onBeforeEnable" (Some a)] ++
      T ++ [Hook "Root" "onAfterEnable" (Some a); Trigger "Root" "enable" None] /\
    Hook "Leaf" "onBeforeEnable" (Some VUndefined) ∈ T /\
    passes_undefined T.
Proof.
  cbv zeta.
  set (v := fst (Sample.rendered_root "Two" default_hooks (CfgArr [VStr "Leaf"; VStr "Leaf"]))).
  set (w := snd (Sample.rendered_root "Two" default_hooks (CfgArr [VStr "Leaf"; VStr "Leaf"]))).
  assert (Hr : rendered v = true) by (vm_compute; reflexivity).
  assert (Ha : approves (onBeforeEnable (hooks (cfg v))) = true) by (vm_compute; reflexivity).
  assert (E : enable (VStr ".field") v w =
              (Normal tt, snd (fst (enable (VStr ".field") v w)),
               snd (enable (VStr ".field") v w))) by (vm_compute; reflexivity).
  destruct (enable_argument_stops_at_receiver _ v w _ _ Hr Ha E) as (T & HT & HP).
  exists T. split; [exact HT|]. split; [|exact HP].
  assert (HT' : log (snd (enable (VStr ".field") v w)) =
                log w ++ [Trigger "Root" "beforeenable" None;
                          Hook "Root" "onBeforeEnable" (Some (VStr ".field"))] ++
                [Trigger "Leaf" "beforeenable" None;
                 Hook "Leaf" "onBeforeEnable" (Some VUndefined);
                 Hook "Leaf" "onAfterEnable" (Some VUndefined);
                 Trigger "Leaf" "enable" None;
                 Trigger "Leaf" "beforeenable" None;
                 Hook "Leaf" "onBeforeEnable" (Some VUndefined);
                 Hook "Leaf" "onAfterEnable" (Some VUndefined);
                 Trigger "Leaf" "enable" None] ++
                [Hook "Root" "onAfterEnable" (Some (VStr ".field"));
                 Trigger "Root" "enable" None]) by (vm_compute; reflexivity).
  rewrite HT in HT'. apply app_inv_head in HT'. apply app_inv_head in HT'.
  apply app_inv_tail in HT'. subst T. repeat constructor.
Defined.

Section VetoedClear.
Variable ns_tpl : string -> option (list (string * JsVal)).
Variable template_engine : string -> JsVal -> Completion (list Node).

(** X16: [render] does not look at what [clear] did: on a rendered view
    whose [onBeforeClear] vetoes, the element keeps its content and
    [render] appends the markup once more. *)
Theorem render_after_vetoed_clear_appends v w h markup :
  elPath (cfg v) <> "" -> template_ok ns_tpl (cfg v) = true ->
  el v = Some h -> h <> [] ->
  rendered v = true -> items v = None ->
  approves (onBeforeRender (hooks (cfg v))) = true ->
  approves (onBeforeClear (hooks (cfg v))) = false ->
  invalid_template_data v = false ->
  template_engine (js_to_string (_tpl v)) (_templateData v) = Normal markup ->
  exists w',
    render ns_tpl template_engine v None w = (Normal RetThis, v, w') /\
    document w' = jq_append (document w) h markup /\
    log w' = log w ++
      [Trigger (cls v) "beforerender" None; Hook (cls v) "onBeforeRender" None;
       Trigger (cls v) "beforeclear" None; Hook (cls v) "onBeforeClear" None;
       Hook (cls v) "onAfterRender" None; Trigger (cls v) "render" None].
Proof.
  intros Hp Ht He Hh Hr Hi Ha Hc Hinv Heng.
  assert (Hm : el_missing v = false).
  { unfold el_missing. rewrite He. destruct h; [done|reflexivity]. }
  rewrite render_eq. unfold render_with.
  apply String.eqb_neq in Hp. rewrite Hp, Ht. cbn [negb].
  unfold _updateEl. rewrite Hm. cbv beta iota zeta. rewrite Hm, Ha.
  rewrite clear_unfold, Hr, Hc. cbv beta iota zeta.
  rewrite Hinv, Heng.
  rewrite _renderItems_with_null by exact Hi.
  rewrite He. cbn [default].
  eexists. split; [destruct v; simpl in *; subst; reflexivity|]. split.
  - reflexivity.
  - simpl. rewrite <- !app_assoc. reflexivity.
Qed.

End VetoedClear.

(** A rendered root that vetoes [clear], rendered again: its element has two children. *)
Lemma render_after_vetoed_clear_appends_witness :
  let v := fst (Sample.rendered_root "Leaf" (Sample.veto TClear) CfgNull) in
  let w := snd (Sample.rendered_root "Leaf" (Sample.veto TClear) CfgNull) in
  exists w',
    render Sample.templates Sample.engine v None w = (Normal RetThis, v, w') /\
    length (jq_children (document w) [1]) = 1 /\
    length (jq_children (document w') [1]) = 2.
Proof.
  cbv zeta.
  destruct (render_after_vetoed_clear_appends Sample.templates Sample.engine
              (fst (Sample.rendered_root "Leaf" (Sample.veto TClear) CfgNull))
              (snd (Sample.rendered_root "Leaf" (Sample.veto TClear) CfgNull))
              [1] (Sample.markup_of "x")) as (w' & E & D & _);
    try (vm_compute; reflexivity).
  - vm_compute. discriminate.
  - discriminate.
  - exists w'. split; [exact E|]. split; [vm_compute; reflexivity|].
    rewrite D. vm_compute. reflexivity.
Defined.

Section ClearTree.

Lemma unrendered_unfold v :
  unrendered v =
  negb (rendered v) &&
  match items v with
  | None => true
  | Some l => forallb (fun s => match s with Some c => unrendered c | None => true end) l
  end.
Proof.
  destruct v as [c t d dc r e ie vm im [l|]]; [|reflexivity]. simpl. f_equal.
  induction l as [|[c0|] l IH]; simpl; [reflexivity| |exact IH]. by rewrite IH.
Qed.

Lemma top_down_unfold v :
  top_down v =
  (rendered v || unrendered v) &&
  match items v with
  | None => true
  | Some l => forallb (fun s => match s with Some c => top_down c | None => true end) l
  end.
Proof.
  destruct v as [c t d dc r e ie vm im [l|]]; [|reflexivity].
  change (top_down (MkView c t d dc r e ie vm im (Some l))) with
    ((r || unrendered (MkView c t d dc r e ie vm im (Some l))) &&
     (fix go (l : list Slot) : bool :=
        match l with
        | [] => true
        | None :: r => go r
        | Some c :: r => top_down c && go r
        end) l).
  cbn [rendered items]. f_equal.
  induction l as [|[c0|] l IH]; simpl; [reflexivity| |exact IH]. by rewrite IH.
Qed.

Lemma clear_approved_unfold v :
  clear_approved v =
  approves (onBeforeClear (hooks (cfg v))) &&
  match items v with
  | None => true
  | Some l => forallb (fun s => match s with Some c => clear_approved c | None => true end) l
  end.
Proof.
  destruct v as [c t d dc r e ie vm im [l|]]; [|reflexivity]. simpl. f_equal.
  induction l as [|[c0|] l IH]; simpl; [reflexivity| |exact IH]. by rewrite IH.
Qed.

(** X17: on a tree without vacated slot, in which no view is rendered
    below a view that is not, and whose [onBeforeClear] hooks all approve,
    [clear] returns and leaves no view of the tree rendered. *)
Theorem clear_unrenders_the_tree v :
  hole_free v = true -> top_down v = true -> clear_approved v = true ->
  forall w, exists v' w', clear v w = (Normal tt, v', w') /\ unrendered v' = true.
Proof.
  induction v as [v IH] using View_nested_ind. intros Hh Ht Ha w.
  rewrite clear_unfold. destruct (rendered v) eqn:Hr.
  2:{ exists v, w. split; [reflexivity|].
      rewrite top_down_unfold, Hr in Ht. apply andb_true_iff in Ht as [Ht _]. exact Ht. }
  cbv zeta. rewrite clear_approved_unfold in Ha. apply andb_true_iff in Ha as [Ha Hac].
  rewrite Ha. unfold eachItem. destruct (items v) as [l|] eqn:Hi.
  - assert (Hl : Forall (fun s => exists c, s = Some c /\
                   forall w, exists c' w', clear c w = (Normal tt, c', w') /\
                                           unrendered c' = true) l).
    { pose proof (hole_free_items v l Hh Hi) as Hl. specialize (IH l eq_refl).
      rewrite top_down_unfold, Hi in Ht. apply andb_true_iff in Ht as [_ Ht].
      rewrite forallb_forall in Ht, Hac.
      rewrite Forall_forall in IH, Hl. apply Forall_forall. intros s Hin.
      destruct (Hl s Hin) as (c & -> & Hc & _). exists c. split; [reflexivity|].
      apply (IH _ Hin c eq_refl Hc).
      + apply (Ht (Some c)). by apply list_elem_of_In.
      + apply (Hac (Some c)). by apply list_elem_of_In. }
    match goal with
    | |- context [forItems "clear" true clear l ?x] =>
        destruct (forItems_keep_normal (fun _ c' => unrendered c' = true) "clear" clear l Hl x)
          as (l' & w' & -> & Hl')
    end.
    eexists _, _. split; [reflexivity|].
    rewrite unrendered_unfold. cbn [rendered items set_rendered set_items negb andb].
    apply forallb_forall. intros s Hin. apply list_elem_of_In in Hin.
    apply (list_elem_of_lookup_1 l' s) in Hin as [i Hin].
    destruct (Forall2_lookup_r _ _ _ _ _ Hl' Hin) as (s0 & _ & c & c' & _ & -> & Hc).
    exact Hc.
  - eexists _, _. split; [reflexivity|].
    rewrite unrendered_unfold. cbn [rendered items set_rendered]. by rewrite Hi.
Qed.

End ClearTree.

(** A rendered root with two rendered leaves. *)
Lemma clear_unrenders_the_tree_witness :
  let v := fst (Sample.rendered_root "Two" default_hooks (CfgArr [VStr "Leaf"; VStr "Leaf"])) in
  let w := snd (Sample.rendered_root "Two" default_hooks (CfgArr [VStr "Leaf"; VStr "Leaf"])) in
  (rendered <$> v :: children v) = [true; true; true] /\
  exists v' w',
    clear v w = (Normal tt, v', w') /\ unrendered v' = true.
Proof.
  cbv zeta. split; [vm_compute; reflexivity|].
  apply clear_unrenders_the_tree; vm_compute; reflexivity.
Defined.

Section TemplateSetters.
Variable ns_tpl : string -> option (list (string * JsVal)).
Variable template_engine : string -> JsVal -> Completion (list Node).

(** X18: [render] validates the configured [template] but renders the
    string that [setTemplate] stored: a view of any valid [template],
    [null] included, on which [setTemplate] was called with a registered
    class whose template string is not empty, and [setData] with an
    object, renders that string with that data. *)
Theorem setTemplate_setData_then_render v t Tpl s data cq w e markup :
  template_class ns_tpl (cfg v) (Some t) = Some Tpl ->
  prop Tpl (templateDataProp (cfg v)) = VStr s -> s <> "" ->
  isObject data = true ->
  elPath (cfg v) <> "" -> template_ok ns_tpl (cfg v) = true ->
  el_missing v = true ->
  jq (document w) (anchor_query v cq) = Normal [e] ->
  rendered v = false -> items v = None ->
  approves (onBeforeRender (hooks (cfg v))) = true ->
  template_engine s data = Normal markup ->
  let v1 := setData data (setTemplate ns_tpl (Some t) v) in
  _tpl v1 = VStr s /\ _templateData v1 = data /\
  exists w',
    render ns_tpl template_engine v1 cq w =
      (Normal RetThis, set_rendered true (set_el (Some [e]) v1), w') /\
    document w' = jq_append (document w) [e] markup.
Proof.
  intros HT Hs Hne Hd Hp Ht Hm Hq Hr Hi Ha Heng v1.
  assert (Hv1 : v1 = set_templateData data (set_tpl (VStr s) v)).
  { unfold v1, setData, setTemplate. rewrite HT, Hs. reflexivity. }
  clearbody v1. subst v1. split; [reflexivity|]. split; [reflexivity|].
  rewrite render_eq. unfold render_with.
  apply String.eqb_neq in Hp. cbn [cfg set_templateData set_tpl]. rewrite Hp, Ht. cbn [negb].
  unfold _updateEl.
  change (el_missing (set_templateData data (set_tpl (VStr s) v))) with (el_missing v).
  change (anchor_query (set_templateData data (set_tpl (VStr s) v)) cq)
    with (anchor_query v cq).
  rewrite Hm, Hq. cbv beta iota zeta.
  cbn [el set_el length Nat.ltb Nat.leb el_missing Nat.eqb _initEvents
       set_templateData set_tpl].
  assert (Hinv : invalid_template_data
                   (set_el (Some [e]) (set_templateData data (set_tpl (VStr s) v))) = false).
  { unfold invalid_template_data. cbn [_tpl _templateData set_el set_templateData set_tpl].
    destruct s; [done|]. rewrite Hd. reflexivity. }
  destruct (_initEvents v) eqn:Ei.
  - cbv beta iota zeta. cbn [el set_el length el_missing Nat.eqb cfg set_templateData set_tpl].
    rewrite Ha. rewrite clear_not_rendered by exact Hr. cbv beta iota zeta.
    rewrite Hinv. cbn [_tpl _templateData set_el set_templateData set_tpl js_to_string].
    rewrite Heng. rewrite _renderItems_with_null by exact Hi.
    eexists. split; reflexivity.
  - cbv beta iota zeta. cbn [el set_el length el_missing Nat.eqb cfg set_templateData set_tpl].
    rewrite Ha. rewrite clear_not_rendered by exact Hr. cbv beta iota zeta.
    rewrite Hinv. cbn [_tpl _templateData set_el set_templateData set_tpl js_to_string].
    rewrite Heng. rewrite _renderItems_with_null by exact Hi.
    eexists. split; reflexivity.
Qed.

(** X19: a query that resolves to several elements does not stop
    [render].  While the element is unresolved, [_updateEl] notifies the
    duplicate ids and keeps all the matches; once the element is resolved,
    a container query with several matches replaces the element and
    nothing is notified.  In both cases the render goes on with all of
    them: each receives the markup, and [render] returns [this] with
    [rendered] set. *)
Theorem render_ambiguous_anchor_renders_each v cq w h markup :
  elPath (cfg v) <> "" -> template_ok ns_tpl (cfg v) = true ->
  1 < length h ->
  rendered v = false -> items v = None ->
  approves (onBeforeRender (hooks (cfg v))) = true ->
  invalid_template_data v = false ->
  template_engine (js_to_string (_tpl v)) (_templateData v) = Normal markup ->
  (el_missing v = true -> jq (document w) (anchor_query v cq) = Normal h ->
   exists w',
     render ns_tpl template_engine v cq w =
       (Normal RetThis, set_rendered true (set_el (Some h) v), w') /\
     document w' = jq_append (document w) h markup /\
     log w' = log w ++
       Trigger (cls v) "error" (Some ("Found duplicate ids for view " +:+ quoted (cls v))) ::
       (if _initEvents v then [DelegateEvents (cls v)] else []) ++ render_events v) /\
  (forall q,
      el_missing v = false -> cq = Some q -> jq (document w) (Some q) = Normal h ->
      exists w',
        render ns_tpl template_engine v cq w =
          (Normal RetThis, set_rendered true (set_el (Some h) v), w') /\
        document w' = jq_append (document w) h markup /\
        log w' = log w ++ render_events v).
Proof.
  intros Hp Ht Hlen Hr Hi Ha Hinv Heng.
  assert (Hm' : el_missing (set_el (Some h) v) = false).
  { unfold el_missing. cbn [el set_el]. destruct h; [simpl in Hlen; lia|reflexivity]. }
  apply String.eqb_neq in Hp.
  split.
  - intros Hm Hq. rewrite render_eq. unfold render_with.
    rewrite Hp, Ht. cbn [negb].
    unfold _updateEl. rewrite Hm, Hq. cbv beta iota zeta.
    cbn [el set_el].
    assert (Hlt : Nat.ltb 1 (length h) = true) by (apply Nat.ltb_lt; exact Hlen).
    rewrite Hlt, Hm'. cbn [_initEvents set_el].
    destruct (_initEvents v) eqn:Ei.
    + cbv beta iota zeta. rewrite Hm'. cbn [cfg set_el].
      rewrite Ha. rewrite clear_not_rendered by exact Hr. cbv beta iota zeta.
      change (invalid_template_data (set_el (Some h) v)) with (invalid_template_data v).
      rewrite Hinv. cbn [_tpl _templateData set_el]. rewrite Heng.
      rewrite _renderItems_with_null by exact Hi.
      eexists. split; [reflexivity|]. split; [reflexivity|].
      unfold render_events. simpl. rewrite <- !app_assoc. reflexivity.
    + cbv beta iota zeta. rewrite Hm'. cbn [cfg set_el].
      rewrite Ha. rewrite clear_not_rendered by exact Hr. cbv beta iota zeta.
      change (invalid_template_data (set_el (Some h) v)) with (invalid_template_data v).
      rewrite Hinv. cbn [_tpl _templateData set_el]. rewrite Heng.
      rewrite _renderItems_with_null by exact Hi.
      eexists. split; [reflexivity|]. split; [reflexivity|].
      unfold render_events. simpl. rewrite <- !app_assoc. reflexivity.
  - intros q Hm -> Hq. rewrite render_eq. unfold render_with.
    rewrite Hp, Ht. cbn [negb].
    unfold _updateEl. rewrite Hm, Hq. cbv beta iota zeta. rewrite Hm'. cbn [cfg set_el].
    rewrite Ha. rewrite clear_not_rendered by exact Hr. cbv beta iota zeta.
    change (invalid_template_data (set_el (Some h) v)) with (invalid_template_data v).
    rewrite Hinv. cbn [_tpl _templateData set_el]. rewrite Heng.
    rewrite _renderItems_with_null by exact Hi.
    eexists. split; [reflexivity|]. split; [reflexivity|].
    unfold render_events. simpl. rewrite <- !app_assoc. reflexivity.
Qed.

End TemplateSetters.

(** A root with [template = null]: with the template of a leaf and a data
    object set, it renders. *)
Lemma setTemplate_setData_then_render_witness :
  let made := Sample.make None default_hooks CfgNull Sample.start in
  let data := VObj [("title", VStr "hello")] in
  let v1 := setData data (setTemplate Sample.templates (Some "Leaf") (fst made)) in
  template (cfg (fst made)) = None /\ _tpl (fst made) = VStr "" /\ _tpl v1 = VStr "x" /\
  exists w',
    render Sample.templates Sample.engine v1 None (snd made) =
      (Normal RetThis, set_rendered true (set_el (Some [1]) v1), w') /\
    document w' = jq_append Sample.page [1] (Sample.markup_of "x").
Proof.
  cbv zeta. split; [reflexivity|]. split; [vm_compute; reflexivity|].
  destruct (setTemplate_setData_then_render Sample.templates Sample.engine
              (fst (Sample.make None default_hooks CfgNull Sample.start))
              "Leaf" [("data", VStr "x")] "x" (VObj [("title", VStr "hello")]) None
              (snd (Sample.make None default_hooks CfgNull Sample.start))
              1 (Sample.markup_of "x")) as (Q1 & _ & w' & E & D);
    try (vm_compute; reflexivity).
  - discriminate.
  - vm_compute. discriminate.
  - split; [exact Q1|]. exists w'. split; [exact E|exact D].
Defined.

(** The view whose [elPath] matches the two [.dup] elements: unresolved,
    it notifies the duplicates; resolved to [#root] and given the query
    [.dup], it notifies nothing; in both cases both elements receive the
    markup. *)
Lemma render_ambiguous_anchor_renders_each_witness :
  let v := Sample.ambiguous default_hooks in
  let u := set_el (Some [1]) v in
  (exists w',
    render Sample.templates Sample.engine v None Sample.start =
      (Normal RetThis, set_rendered true (set_el (Some [2; 3]) v), w') /\
    length (jq_children (document w') [2]) = 1 /\
    length (jq_children (document w') [3]) = 1 /\
    length (log w') = 5) /\
  (exists w',
    render Sample.templates Sample.engine u (Some ".dup") Sample.start =
      (Normal RetThis, set_rendered true (set_el (Some [2; 3]) u), w') /\
    length (jq_children (document w') [2]) = 1 /\
    length (jq_children (document w') [3]) = 1 /\
    log w' = render_events u).
Proof.
  cbv zeta. split.
  - destruct (render_ambiguous_anchor_renders_each Sample.templates Sample.engine
                (Sample.ambiguous default_hooks) None Sample.start [2; 3]
                (Sample.markup_of "x")) as [H _];
      try (vm_compute; reflexivity).
    + vm_compute. discriminate.
    + destruct (H eq_refl eq_refl) as (w' & E & D & L).
      exists w'. split; [exact E|]. rewrite D, L. repeat split; vm_compute; reflexivity.
  - destruct (render_ambiguous_anchor_renders_each Sample.templates Sample.engine
                (set_el (Some [1]) (Sample.ambiguous default_hooks)) (Some ".dup")
                Sample.start [2; 3] (Sample.markup_of "x")) as [_ H];
      try (vm_compute; reflexivity).
    + vm_compute. discriminate.
    + destruct (H ".dup" eq_refl eq_refl eq_refl) as (w' & E & D & L).
      exists w'. split; [exact E|]. rewrite D, L. repeat split; vm_compute; reflexivity.
Defined.
